(** * Rollcall: attendance submission, submission tracking and sign-in

    A shallow embedding of the services of the Rollcall attendance register
    ([src/services/graphService.ts], [src/services/authService.ts]) and of the
    two components that call them ([SubmissionTracker.tsx] and the attendance
    form), with the properties of the specification stated over them; then
    the session of the identity service and the sign-in form and sign-out of
    [src/App.tsx], with further properties read off the code.

    Conventions of the embedding.
    - A JavaScript [async] method is a function of the state it reads and
      writes, returning either a value or the thrown exception together with
      the state it leaves behind ([JS.M]); [try]/[catch]/[finally] are
      combinators of that monad.
    - The Microsoft Graph service, the MSAL library, the clock and
      [Math.random] are outside the program: what they answer during one call
      is supplied by an environment record ([GraphService.Env],
      [AuthService.Msal]); what the program sends to them is appended to a
      trace.
    - [localStorage] holds JSON text; the embedding keeps, per key, what
      [JSON.parse] makes of that text ([parsed]). [setItem] is taken to
      succeed (no quota is modelled).
    - Of the console output the trace keeps the [console.error] lines; the
      entry of [sendAttendanceSummaryToTeams], which the source marks with a
      log line, is recorded as an event of its own.
    - Strings are texts in UTF-8, a [string] of bytes.
    - JavaScript numbers are binary64 floating-point numbers. Positions in
      arrays and rows of a sheet are counted in [nat]. The arithmetic of
      [getExcelColumnLetter] is that of binary64: an integer-valued number is
      the integer in [Z] it stands for, and division, [Math.floor] and
      subtraction are the exact operation followed by rounding to the nearest
      binary64 number, ties to even ([Binary64]). *)

From Stdlib Require Import ZArith String Ascii List Lia Bool.
From stdpp Require Import gmap strings list pretty.
From Equations Require Import Equations.
Import ListNotations.

Open Scope string_scope.
Open Scope list_scope.
Open Scope Z_scope.

(** ** The JavaScript effects used by the services *)

Module JS.

(** What a [throw] carries. *)
Inductive exn : Type :=
| Error (message : string)       (* throw new Error(message) *)
| TypeError (message : string)   (* member access or call on null/undefined *)
| Rejected (request : string).   (* a rejected promise of an external service *)

Inductive result (A : Type) : Type :=
| Ok (value : A)
| Throw (e : exn).
Arguments Ok {A} value.
Arguments Throw {A} e.

(** A computation over a state [S]: the exception leaves the state as it is
    at the point of the [throw]. *)
Definition M (S A : Type) : Type := S -> result A * S.

Definition ret {S A} (a : A) : M S A := fun s => (Ok a, s).

Definition throw {S A} (e : exn) : M S A := fun s => (Throw e, s).

Definition bind {S A B} (m : M S A) (k : A -> M S B) : M S B :=
  fun s =>
    match m s with
    | (Ok a, s') => k a s'
    | (Throw e, s') => (Throw e, s')
    end.

(** [try { body } catch (error) { handler error }] *)
Definition try_catch {S A} (body : M S A) (handler : exn -> M S A) : M S A :=
  fun s =>
    match body s with
    | (Ok a, s') => (Ok a, s')
    | (Throw e, s') => handler e s'
    end.

(** [try { body } finally { fin }], for a [fin] that does not throw. *)
Definition try_finally {S A} (body : M S A) (fin : S -> S) : M S A :=
  fun s => let (r, s') := body s in (r, fin s').

Definition get {S} : M S S := fun s => (Ok s, s).

Definition modify {S} (f : S -> S) : M S unit := fun s => (Ok tt, f s).

(** [for (const x of xs) { body x }] *)
Fixpoint for_of {S A} (xs : list A) (body : A -> M S unit) : M S unit :=
  match xs with
  | [] => ret tt
  | x :: rest => bind (body x) (fun _ => for_of rest body)
  end.

Definition completes {A S} (r : result A * S) : Prop :=
  exists a, fst r = Ok a.

Definition is_ok {A} (r : result A) : bool :=
  match r with Ok _ => true | Throw _ => false end.

(** Truthiness of a string (the empty string is falsy). *)
Definition truthy (s : string) : bool :=
  match s with EmptyString => false | String _ _ => true end.

(** [a || b] on strings. *)
Definition or_else (a b : string) : string := if truthy a then a else b.

(** [String.fromCharCode(n)] for a code unit below 256. *)
Definition fromCharCode (n : Z) : ascii := ascii_of_nat (Z.to_nat n).

(** [xs.join(sep)] *)
Fixpoint join (sep : string) (xs : list string) : string :=
  match xs with
  | [] => ""
  | [x] => x
  | x :: rest => x +:+ sep +:+ join sep rest
  end.

(** [xs.findIndex(p)], with [None] for the [-1] of JavaScript. *)
Fixpoint findIndex {A} (p : A -> bool) (xs : list A) : option nat :=
  match xs with
  | [] => None
  | x :: rest => if p x then Some 0%nat else option_map S (findIndex p rest)
  end.

(** White space as [trim] removes it (WhiteSpace and LineTerminator of
    ECMAScript), in UTF-8: the characters of one byte (TAB, LF, VT, FF, CR,
    space), ... *)
Definition is_space (c : ascii) : bool :=
  let n := nat_of_ascii c in
  ((n =? 32) || (n =? 9) || (n =? 10) || (n =? 11) || (n =? 12) || (n =? 13))%nat.

(** ... of two bytes (U+00A0, the no-break space) ... *)
Definition is_space2 (c1 c2 : ascii) : bool :=
  ((nat_of_ascii c1 =? 194) && (nat_of_ascii c2 =? 160))%nat.

(** ... and of three bytes: U+1680, U+2000 to U+200A, U+2028, U+2029,
    U+202F, U+205F, U+3000 and U+FEFF. *)
Definition is_space3 (c1 c2 c3 : ascii) : bool :=
  let n1 := nat_of_ascii c1 in
  let n2 := nat_of_ascii c2 in
  let n3 := nat_of_ascii c3 in
  ((n1 =? 225) && (n2 =? 154) && (n3 =? 128)
   || (n1 =? 226) && (n2 =? 128)
      && ((128 <=? n3) && (n3 <=? 138) || (n3 =? 168) || (n3 =? 169) || (n3 =? 175))
   || (n1 =? 226) && (n2 =? 129) && (n3 =? 159)
   || (n1 =? 227) && (n2 =? 128) && (n3 =? 128)
   || (n1 =? 239) && (n2 =? 187) && (n3 =? 191))%nat.

(** [s.trim() === '']: the text consists of white space only. *)
Fixpoint blank (s : string) : bool :=
  match s with
  | EmptyString => true
  | String c1 rest1 =>
      if is_space c1 then blank rest1
      else
        match rest1 with
        | EmptyString => false
        | String c2 rest2 =>
            if is_space2 c1 c2 then blank rest2
            else
              match rest2 with
              | EmptyString => false
              | String c3 rest3 => is_space3 c1 c2 c3 && blank rest3
              end
        end
  end.

(** The part of [s] after the last occurrence of [sep]:
    [s.split(sep)[s.split(sep).length - 1]]. *)
Fixpoint after_last (sep : ascii) (s : string) : string :=
  match s with
  | EmptyString => EmptyString
  | String c rest =>
      let tail := after_last sep rest in
      if existsb (Ascii.eqb sep) (list_ascii_of_string rest) then tail
      else if Ascii.eqb c sep then rest
      else s
  end.

(** The part of [s] before the first occurrence of [sep]: [s.split(sep)[0]]. *)
Fixpoint before_first (sep : ascii) (s : string) : string :=
  match s with
  | EmptyString => EmptyString
  | String c rest =>
      if Ascii.eqb c sep then EmptyString else String c (before_first sep rest)
  end.

End JS.

Import JS.

Declare Scope js_scope.
Delimit Scope js_scope with js.
Notation "x <- c ;; k" := (bind c (fun x => k))
  (at level 100, c at next level, right associativity) : js_scope.
Notation "c ;;; k" := (bind c (fun _ => k))
  (at level 100, right associativity) : js_scope.
Open Scope js_scope.

(** ** Numbers *)

Module Binary64.

(** The integer nearest to [a / b], for [b > 0]; of two nearest integers
    the even one. *)
Definition nearest_integer (a b : Z) : Z :=
  let q := a / b in
  match 2 * (a mod b) ?= b with
  | Lt => q
  | Gt => q + 1
  | Eq => if Z.even q then q else q + 1
  end.

(** A binary64 number that need not be an integer: [mantissa * 2^exponent]. *)
Record dyadic : Type := mkDyadic { mantissa : Z; exponent : Z }.

(** The exponent of the binary64 number nearest to [a / b], for positive
    [a] and [b]: the mantissa is to lie between [2^52] and [2^53], so the
    exponent is [floor (log2 (a / b)) - 52]. *)
Definition div_exponent (a b : Z) : Z :=
  let s := Z.log2 b + 1 in
  Z.log2 (a * 2 ^ s / b) - s - 52.

Definition div_pos (a b : Z) : dyadic :=
  let e := div_exponent a b in
  {| mantissa := if e <=? 0 then nearest_integer (a * 2 ^ (- e)) b
                 else nearest_integer a (b * 2 ^ e);
     exponent := e |}.

(** [a / b] on integer-valued numbers, [b > 0]: the quotient rounded to the
    nearest binary64 number. The quotients met here are far from the
    subnormal range and from overflow, which are not represented. *)
Definition div (a b : Z) : dyadic :=
  if a =? 0 then {| mantissa := 0; exponent := 0 |}
  else if 0 <? a then div_pos a b
  else {| mantissa := - mantissa (div_pos (- a) b);
          exponent := exponent (div_pos (- a) b) |}.

(** [Math.floor(x)]: the result is an integer, and exact. *)
Definition floor (x : dyadic) : Z :=
  if 0 <=? exponent x then mantissa x * 2 ^ exponent x
  else mantissa x / 2 ^ (- exponent x).

(** The binary64 number nearest to the integer [z]: [z] itself up to
    [2^53], beyond that [z] rounded to 53 significant bits. *)
Definition of_Z (z : Z) : Z :=
  let e := Z.log2 (Z.abs z) - 52 in
  if e <=? 0 then z
  else Z.sgn z * (nearest_integer (Z.abs z) (2 ^ e) * 2 ^ e).

(** [a - b] on integer-valued numbers. *)
Definition sub (a b : Z) : Z := of_Z (a - b).

End Binary64.

(** ** [src/types.ts] *)

Module Types.

Inductive Department : Type :=
| Animation | eLearning | ADNR | XRDevelopment | Other.

(** The string each member of the union type stands for. *)
Definition department_name (d : Department) : string :=
  match d with
  | Animation => "Animation"
  | eLearning => "eLearning"
  | ADNR => "ADNR"
  | XRDevelopment => "XR Development"
  | Other => "Other"
  end.

Inductive AttendanceStatus : Type :=
| present | late | absent | onsite | leave | sick.

Definition status_name (s : AttendanceStatus) : string :=
  match s with
  | present => "present"
  | late => "late"
  | absent => "absent"
  | onsite => "onsite"
  | leave => "leave"
  | sick => "sick"
  end.

(** [status] is the optional field [status?: AttendanceStatus]. *)
Record Employee : Type := mkEmployee {
  e_id : string;
  e_name : string;
  e_department : Department;
  e_status : option AttendanceStatus
}.

(** [submittedAt] is a [Date] in memory and its ISO text in JSON; both are
    represented by the ISO text. *)
Record DepartmentSubmission : Type := mkSubmission {
  s_department : Department;
  s_submitted : bool;
  s_submittedAt : option string
}.

Definition DEPARTMENTS : list Department :=
  [Animation; eLearning; ADNR; XRDevelopment; Other].

Definition DEPARTMENT_ICONS (d : Department) : string :=
  match d with
  | Animation => "🎨"
  | eLearning => "📚"
  | ADNR => "🛠"
  | XRDevelopment => "🏗"
  | Other => "🌍"
  end.

#[global] Instance Department_eq_dec : EqDecision Department.
Proof. solve_decision. Defined.

#[global] Instance AttendanceStatus_eq_dec : EqDecision AttendanceStatus.
Proof. solve_decision. Defined.

Definition department_eqb (a b : Department) : bool := bool_decide (a = b).

Definition status_is (s : AttendanceStatus) (e : Employee) : bool :=
  bool_decide (e_status e = Some s).

End Types.

Import Types.

(** ** [src/config.ts] *)

Module Config.

Definition teamName : string := "Rollcall".
Definition channelName : string := "Attendance".

End Config.

(** ** [src/services/authService.ts] *)

Module AuthService.

Record AccountInfo : Type := mkAccount {
  homeAccountId : string;
  username : string
}.

Record AuthenticationResult : Type := mkAuthResult {
  account : option AccountInfo;
  accessToken : string
}.

(** The fields of the [AuthService] instance, with the active account that
    [msalInstance] holds. *)
Record State : Type := mkState {
  initialized : bool;
  interactionInProgress : bool;
  activeAccount : option AccountInfo
}.

Definition set_initialized (b : bool) (st : State) : State :=
  {| initialized := b;
     interactionInProgress := interactionInProgress st;
     activeAccount := activeAccount st |}.

Definition set_interactionInProgress (b : bool) (st : State) : State :=
  {| initialized := initialized st;
     interactionInProgress := b;
     activeAccount := activeAccount st |}.

Definition setActiveAccount (a : AccountInfo) (st : State) : State :=
  {| initialized := initialized st;
     interactionInProgress := interactionInProgress st;
     activeAccount := Some a |}.

(** What the MSAL library answers during one call of the service. A [bool]
    tells whether the promise resolves, an [option] is [None] when it
    rejects. *)
Record Msal : Type := mkMsal {
  initPromise : bool;          (* msalInstance.initialize(), as started by the constructor *)
  reinitialize : bool;         (* msalInstance.initialize(), when ensureInitialized retries *)
  handleRedirectPromise : bool;   (* resolves to a non-null result *)
  getAllAccounts : list AccountInfo;
  acquireTokenSilent : option AuthenticationResult;
  loginRedirect : bool;
  loginPopup : option AuthenticationResult
}.

(** The error of the spec's [InteractionConflict]. *)
Definition InteractionConflict : exn :=
  Error "Authentication interaction already in progress. Please try again in a moment.".

Section WithMsal.

Variable msal : Msal.

(** [initialize()]; [initialize_resolves] is the outcome of
    [msalInstance.initialize()] for this run. *)
Definition initialize (initialize_resolves : bool) : M State unit :=
  try_catch
    ((if initialize_resolves then ret tt
      else throw (Rejected "msalInstance.initialize")) ;;;
     st <- get ;;
     (if handleRedirectPromise msal then
        match activeAccount st, getAllAccounts msal with
        | Some a, _ => modify (setActiveAccount a)
        | None, a :: _ => modify (setActiveAccount a)
        | None, [] => ret tt
        end
      else
        match getAllAccounts msal with
        | a :: _ => modify (setActiveAccount a)
        | [] => ret tt
        end) ;;;
     modify (set_initialized true))
    (fun error => modify (set_initialized false) ;;; throw error).

(** [ensureInitialized()]: awaits the constructor's [initPromise] and runs
    [initialize()] once more when that promise rejected. *)
Definition ensureInitialized : M State unit :=
  st <- get ;;
  if initialized st then ret tt
  else try_catch (initialize (initPromise msal))
                 (fun _ => initialize (reinitialize msal)).

Inductive silent_outcome : Type :=
| Silent (response : AuthenticationResult)
| NeedsInteraction.

(** Lines 88-116 of [login]: the guard on the interaction flag and the
    silent attempt. *)
Definition login_silent : M State silent_outcome :=
  ensureInitialized ;;;
  st <- get ;;
  if interactionInProgress st then throw InteractionConflict
  else
    match getAllAccounts msal with
    | a :: _ =>
        modify (setActiveAccount a) ;;;
        match acquireTokenSilent msal with
        | Some response => ret (Silent response)
        | None => ret NeedsInteraction   (* caught: proceed with interactive login *)
        end
    | [] => ret NeedsInteraction
    end.

(** Lines 121-172 of [login]: redirect first, popup as fallback, and the
    [finally] that clears the flag. *)
Definition login_interactive : M State (option AuthenticationResult) :=
  try_finally
    (try_catch
       ((if loginRedirect msal then ret tt
         else throw (Rejected "loginRedirect")) ;;;
        ret None)
       (fun _ =>
          try_catch
            (match loginPopup msal with
             | Some response =>
                 match account response with
                 | Some a => modify (setActiveAccount a)
                 | None => ret tt
                 end ;;;
                 (* acquireTokenSilent after the popup: its failure is only logged *)
                 ret (Some response)
             | None => throw (Rejected "loginPopup")
             end)
            (fun popupError => throw popupError)))
    (set_interactionInProgress false).

(** The outer [catch] of [login] (lines 173-178). *)
Definition login_catch {A} (error : exn) : M State A :=
  modify (set_interactionInProgress false) ;;; throw error.

(** [login()] *)
Definition login : M State (option AuthenticationResult) :=
  try_catch
    (o <- login_silent ;;
     match o with
     | Silent response => ret (Some response)
     | NeedsInteraction =>
         modify (set_interactionInProgress true) ;;;
         login_interactive
     end)
    login_catch.

(** [login()] run up to its first interactive [await]: the state in which
    the sign-in is suspended while the redirect or the popup is open. *)
Definition login_until_interaction : M State silent_outcome :=
  try_catch
    (o <- login_silent ;;
     match o with
     | Silent response => ret (Silent response)
     | NeedsInteraction =>
         modify (set_interactionInProgress true) ;;; ret NeedsInteraction
     end)
    login_catch.

(** [isInteractionInProgress()] *)
Definition isInteractionInProgress (st : State) : bool :=
  interactionInProgress st.

End WithMsal.

End AuthService.

(** ** [src/services/graphService.ts] *)

Module GraphService.

(** *** Browser storage *)

(** What [JSON.parse] makes of the text stored under a key: it throws
    ([Unparseable]), or yields a value that is not an array ([NonArray]: an
    object, a number, a boolean or null), or an array of records. *)
Inductive parsed (A : Type) : Type :=
| Unparseable
| NonArray
| Arr (items : list A).
Arguments Unparseable {A}.
Arguments NonArray {A}.
Arguments Arr {A} items.

(** [localStorage], one map per family of keys the service uses:
    [attendance_{department}_{yyyy-MM-dd}], [submissions_{yyyy-MM-dd}] and
    [mockUser]. A key that is absent answers [null] to [getItem]. *)
Record LocalStorage : Type := mkLocalStorage {
  ls_attendance : gmap string (parsed Employee);
  ls_submissions : gmap string (parsed DepartmentSubmission);
  ls_mockUser : option string
}.

(** *** Requests sent and lines logged *)

Inductive Event : Type :=
| Patch (worksheetId address value : string)
    (* range('address').patch({ values: [[value]] }), accepted by the service *)
| PostMessage (teamId channelId content : string)
    (* messages.post({ body: { content } }), accepted by the service *)
| SummaryAttempt (departmentSubmissions : list DepartmentSubmission)
    (* entry into sendAttendanceSummaryToTeams *)
| ConsoleError (message : string).

Record World : Type := mkWorld {
  localStorage : LocalStorage;
  trace : list Event
}.

Definition emit (e : Event) (w : World) : World :=
  {| localStorage := localStorage w; trace := trace w ++ [e] |}.

Definition console_error (message : string) : M World unit :=
  modify (emit (ConsoleError message)).

Definition setItem_attendance (key : string) (v : parsed Employee) (w : World) : World :=
  {| localStorage :=
       {| ls_attendance := <[key := v]> (ls_attendance (localStorage w));
          ls_submissions := ls_submissions (localStorage w);
          ls_mockUser := ls_mockUser (localStorage w) |};
     trace := trace w |}.

Definition setItem_submissions (key : string) (v : parsed DepartmentSubmission)
    (w : World) : World :=
  {| localStorage :=
       {| ls_attendance := ls_attendance (localStorage w);
          ls_submissions := <[key := v]> (ls_submissions (localStorage w));
          ls_mockUser := ls_mockUser (localStorage w) |};
     trace := trace w |}.

(** *** The remote service *)

Inductive cell : Type :=
| CStr (s : string)
| CNum (n : Z)
| CBool (b : bool).

Definition cell_truthy (c : cell) : bool :=
  match c with
  | CStr s => truthy s
  | CNum n => negb (n =? 0)
  | CBool b => b
  end.

(** [c === s] for a string [s] *)
Definition cell_is (s : string) (c : cell) : bool :=
  match c with
  | CStr t => String.eqb t s
  | _ => false
  end.

Record Worksheet : Type := mkWorksheet { ws_id : string; ws_name : string }.

(** The answer to [usedRange]; [values] may be missing. *)
Record UsedRange : Type := mkUsedRange { values : option (list (list cell)) }.

Record Team : Type := mkTeam { team_id : string; team_displayName : string }.

Record Channel : Type := mkChannel { channel_id : string; channel_displayName : string }.

(** The client built by [Client.init]: it carries the bearer token. *)
Definition Client : Type := string.

(** What the surroundings answer during one call of the service: the clock,
    [authService.getToken()], the Graph requests ([None]: the request
    fails), [new Date(cell)] and the date drawn by the mock tracker. *)
Record Env : Type := mkEnv {
  today : string;          (* format(new Date(), 'yyyy-MM-dd') *)
  now : string;            (* new Date().toISOString() *)
  getToken : option string;
  worksheets : option (list Worksheet);
  usedRange : string -> option UsedRange;       (* by worksheet id *)
  patchOk : string -> string -> bool;           (* by worksheet id and address *)
  joinedTeams : option (list Team);
  channels : string -> option (list Channel);   (* by team id *)
  postOk : string -> string -> bool;            (* by team id and channel id *)
  parseDate : cell -> option string;            (* ISO text of new Date(cell), if valid *)
  mockSubmittedAt : Department -> string
    (* new Date(now.getTime() - Math.floor(Math.random() * 8) * 60 * 60 * 1000) *)
}.

Definition quote : string := String (ascii_of_nat 34) "".
Definition newline : string := String (ascii_of_nat 10) "".

Definition excelFileUrl : string :=
  "https://tbrconsultants.sharepoint.com/:x:/s/Rollcall/ESbU_CR_4X1OhCzh55FkDC0BwNUv9K7qYxQk7s5DRmU0Og?e=byZm4p".

Definition attendance_key (department : Department) (day : string) : string :=
  "attendance_" +:+ department_name department +:+ "_" +:+ day.

Definition submissions_key (day : string) : string := "submissions_" +:+ day.

(** *** [getExcelColumnLetter] *)

(** The [while] loop of [getExcelColumnLetter], on the pair of variables
    [columnIndex], [columnLetter]; [columnIndex] is an integer-valued number.
    The loop ends because the index loses binary digits. *)
Equations? columnLetter_loop (columnIndex : Z) (columnLetter : string) : string
  by wf (Z.to_nat (Z.log2 (2 * columnIndex + 3))) lt :=
  columnLetter_loop columnIndex columnLetter with Z_lt_le_dec columnIndex 0 => {
    | left _ := columnLetter;
    | right _ :=
        columnLetter_loop
          (Binary64.sub (Binary64.floor (Binary64.div columnIndex 26)) 1)
          (String (fromCharCode (65 + columnIndex mod 26)) columnLetter) }.
Proof.
  (* The next index has fewer binary digits: at most three halves of the
     floor remain after the subtraction, and the floor of the rounded
     quotient is at most three halves of the quotient. *)
  assert (Hnearest : forall a b, 0 < b ->
            2 * (Binary64.nearest_integer a b * b) <= 2 * a + b
            /\ 2 * a <= 2 * (Binary64.nearest_integer a b * b) + b).
  { intros a b Hb. unfold Binary64.nearest_integer.
    pose proof (Z.div_mod a b ltac:(lia)).
    pose proof (Z.mod_pos_bound a b Hb).
    destruct (Z.compare_spec (2 * (a mod b)) b);
      [destruct (Z.even (a / b)) |..]; nia. }
  assert (Hround : forall z, 0 <= z ->
            0 <= Binary64.of_Z z /\ 2 * Binary64.of_Z z <= 3 * z).
  { intros z Hz. unfold Binary64.of_Z.
    destruct (Z.leb_spec (Z.log2 (Z.abs z) - 52) 0) as [He | He]; [lia |].
    rewrite Z.abs_eq in * by exact Hz.
    assert (Hpos : 0 < z).
    { destruct (Z.eq_dec z 0) as [-> |]; [cbn in He; lia | lia]. }
    rewrite Z.sgn_pos by exact Hpos.
    assert (Hp : 0 < 2 ^ (Z.log2 z - 52)) by (apply Z.pow_pos_nonneg; lia).
    pose proof (Z.log2_spec z Hpos) as [Hlow _].
    assert (2 ^ (Z.log2 z - 52) <= 2 ^ Z.log2 z) by (apply Z.pow_le_mono_r; lia).
    destruct (Hnearest z (2 ^ (Z.log2 z - 52)) Hp). nia. }
  assert (Hfloor : 0 <= Binary64.floor (Binary64.div columnIndex 26)
                   /\ 52 * Binary64.floor (Binary64.div columnIndex 26)
                      <= 3 * columnIndex).
  { unfold Binary64.div.
    destruct (Z.eqb_spec columnIndex 0) as [-> | Hne].
    { change (Binary64.floor _) with 0. lia. }
    destruct (Z.ltb_spec 0 columnIndex) as [Hpos | Hbad]; [| lia].
    unfold Binary64.floor, Binary64.div_pos, Binary64.div_exponent.
    cbn [Binary64.mantissa Binary64.exponent].
    change (Z.log2 26 + 1) with 5. change (2 ^ 5) with 32.
    set (t := columnIndex * 32 / 26).
    assert (Ht : 0 < t) by (apply Z.div_str_pos; lia).
    pose proof (Z.log2_spec t Ht) as [Hlow Hhigh].
    pose proof (Z.log2_nonneg t).
    assert (Htb : t * 26 <= columnIndex * 32 < (t + 1) * 26).
    { unfold t. pose proof (Z.div_mod (columnIndex * 32) 26 ltac:(lia)).
      pose proof (Z.mod_pos_bound (columnIndex * 32) 26 ltac:(lia)). lia. }
    set (L := Z.log2 t) in *.
    assert (HL : 0 < 2 ^ L) by (apply Z.pow_pos_nonneg; lia).
    set (e := L - 5 - 52).
    destruct (Z.leb_spec e 0) as [He | He].
    - assert (Hp : 0 < 2 ^ (- e)) by (apply Z.pow_pos_nonneg; lia).
      assert (Hpow : 2 ^ (- e) * 2 ^ L = 32 * 2 ^ 52).
      { rewrite <- Z.pow_add_r by lia. replace (- e + L) with 57 by lia. reflexivity. }
      destruct (Hnearest (columnIndex * 2 ^ (- e)) 26 ltac:(lia)) as [Hup Hdown].
      set (m := Binary64.nearest_integer (columnIndex * 2 ^ (- e)) 26) in *.
      assert (Hlower : 2 ^ 52 * 26 <= columnIndex * 2 ^ (- e)).
      { apply (Z.mul_le_mono_pos_r _ _ (2 ^ L) HL). nia. }
      assert (Hm : 0 <= m) by lia.
      assert (Hf : exists f,
                 (if 0 <=? e then m * 2 ^ e else m / 2 ^ (- e)) = f
                 /\ 0 <= f /\ f * 2 ^ (- e) <= m).
      { destruct (Z.leb_spec 0 e).
        - assert (e = 0) as -> by lia. exists m. cbn. lia.
        - exists (m / 2 ^ (- e)). split; [reflexivity |]. split.
          + apply Z.div_pos; lia.
          + rewrite Z.mul_comm. apply Z.mul_div_le. exact Hp. }
      destruct Hf as (f & -> & Hf0 & Hfm). split; [exact Hf0 |].
      apply (Z.mul_le_mono_pos_r _ _ (2 ^ (- e)) Hp). nia.
    - assert (Hp : 0 < 2 ^ e) by (apply Z.pow_pos_nonneg; lia).
      assert (Hpow : 2 ^ L = 2 ^ 52 * 2 ^ e * 32).
      { change 32 with (2 ^ 5). rewrite <- !Z.pow_add_r by lia. f_equal. lia. }
      destruct (Hnearest columnIndex (26 * 2 ^ e) ltac:(lia)) as [Hup Hdown].
      set (m := Binary64.nearest_integer columnIndex (26 * 2 ^ e)) in *.
      destruct (Z.leb_spec 0 e); [| lia].
      assert (Hlower : 2 ^ 52 * (26 * 2 ^ e) <= columnIndex) by nia.
      split; nia. }
  destruct Hfloor as [Hf0 Hf].
  set (f := Binary64.floor (Binary64.div columnIndex 26)) in *. clearbody f.
  unfold Binary64.sub.
  assert (Hnext : -1 <= Binary64.of_Z (f - 1)
                  /\ 2 * (2 * Binary64.of_Z (f - 1) + 3) <= 2 * columnIndex + 3).
  { destruct (Z.eq_dec f 0) as [-> | Hne].
    - change (Binary64.of_Z (0 - 1)) with (-1). lia.
    - pose proof (Hround (f - 1) ltac:(lia)). lia. }
  destruct Hnext as [Hlow Hup].
  apply Z.log2_le_mono in Hup. rewrite Z.log2_double in Hup by lia.
  pose proof (Z.log2_nonneg (2 * Binary64.of_Z (f - 1) + 3)).
  change (Z.to_nat (Z.log2 (2 * Binary64.of_Z (f - 1) + 3))
          < Z.to_nat (Z.log2 (2 * columnIndex + 3)))%nat.
  lia.
Qed.

Definition getExcelColumnLetter (columnIndex : Z) : string :=
  columnLetter_loop columnIndex "".

(** One iteration of the same loop, as a step on the two variables:
    [None] when the loop condition [columnIndex >= 0] is false. *)
Definition columnLetter_step (st : Z * string) : option (Z * string) :=
  let (columnIndex, columnLetter) := st in
  if 0 <=? columnIndex then
    Some (Binary64.sub (Binary64.floor (Binary64.div columnIndex 26)) 1,
          String (fromCharCode (65 + columnIndex mod 26)) columnLetter)
  else None.

(** The loop run for at most [fuel] iterations: [Some] of the returned
    string when the loop has exited by then. *)
Fixpoint columnLetter_run (fuel : nat) (st : Z * string) : option string :=
  match columnLetter_step st with
  | None => Some (snd st)
  | Some st' =>
      match fuel with
      | O => None
      | S fuel' => columnLetter_run fuel' st'
      end
  end.

Section WithEnv.

Variable env : Env.

(** *** Requests *)

(** [client.api(path).get()]: a [TypeError] on the null client of mock
    mode, a rejection when the request fails. *)
Definition api_get {A} (client : option Client) (path : string)
    (response : option A) : M World A :=
  match client with
  | None => throw (TypeError "Cannot read properties of null (reading 'api')")
  | Some _ =>
      match response with
      | Some r => ret r
      | None => throw (Rejected path)
      end
  end.

(** [client.api(.../range('address')).patch({ values: [[value]] })] *)
Definition api_patch (client : option Client) (worksheetId address value : string)
    : M World unit :=
  match client with
  | None => throw (TypeError "Cannot read properties of null (reading 'api')")
  | Some _ =>
      if patchOk env worksheetId address
      then modify (emit (Patch worksheetId address value))
      else throw (Rejected "range.patch")
  end.

(** [client.api(.../messages).post({ body: { content } })] *)
Definition api_post (client : option Client) (teamId channelId content : string)
    : M World unit :=
  match client with
  | None => throw (TypeError "Cannot read properties of null (reading 'api')")
  | Some _ =>
      if postOk env teamId channelId
      then modify (emit (PostMessage teamId channelId content))
      else throw (Rejected "messages.post")
  end.

(** [getAuthenticatedClient()]: the null client when a mock user is stored
    or no token can be had. *)
Definition getAuthenticatedClient : M World (option Client) :=
  try_catch
    (w <- get ;;
     match ls_mockUser (localStorage w) with
     | Some mockUserJson =>
         if truthy mockUserJson then throw (Error "Using mock authentication")
         else
           match getToken env with
           | Some token => ret (Some token)
           | None => throw (Rejected "authService.getToken")
           end
     | None =>
         match getToken env with
         | Some token => ret (Some token)
         | None => throw (Rejected "authService.getToken")
         end
     end)
    (fun _ =>
       console_error "Failed to get authenticated client:" ;;;
       ret None).

(** [getTeamId()] *)
Definition getTeamId : M World string :=
  try_catch
    (client <- getAuthenticatedClient ;;
     teams <- api_get client "/me/joinedTeams" (joinedTeams env) ;;
     match find (fun t => String.eqb (team_displayName t) Config.teamName) teams with
     | None =>
         throw (Error ("Team " +:+ quote +:+ Config.teamName +:+ quote +:+ " not found"))
     | Some team => ret (team_id team)
     end)
    (fun error => console_error "Error getting team ID:" ;;; throw error).

(** [getChannelId(teamId)] *)
Definition getChannelId (teamId : string) : M World string :=
  try_catch
    (client <- getAuthenticatedClient ;;
     channels <- api_get client "/teams/{teamId}/channels" (channels env teamId) ;;
     match find (fun c => String.eqb (channel_displayName c) Config.channelName)
                channels with
     | None =>
         throw (Error ("Channel " +:+ quote +:+ Config.channelName +:+ quote
                       +:+ " not found in team " +:+ quote +:+ Config.teamName
                       +:+ quote))
     | Some channel => ret (channel_id channel)
     end)
    (fun error => console_error "Error getting channel ID:" ;;; throw error).

(** [getExcelFileId()] *)
Definition getExcelFileId : M World string :=
  try_catch
    (let fileIdWithParams := after_last "/" excelFileUrl in
     let fileId := before_first "?" fileIdWithParams in
     if truthy fileId then ret fileId
     else throw (Error "Could not extract file ID from URL"))
    (fun error => console_error "Error getting Excel file ID:" ;;; throw error).

Definition worksheet_for (department : Department) (worksheets : list Worksheet)
    : option Worksheet :=
  find (fun w => String.eqb (ws_name w) (department_name department)) worksheets.

(** *** [getEmployeesByDepartment] and its mock roster *)

(** The loop [for (let i = 1; i < values.length; i++)] over the rows, from
    row [i] on. *)
Fixpoint employees_from (department : Department) (i : nat) (rows : list (list cell))
    : list Employee :=
  match rows with
  | [] => []
  | row :: rest =>
      match row with
      | CStr name :: _ =>
          if truthy name && negb (blank name) then
            {| e_id := department_name department +:+ "-" +:+ pretty i;
               e_name := name;
               e_department := department;
               e_status := None |}
            :: employees_from department (S i) rest
          else employees_from department (S i) rest
      | _ => employees_from department (S i) rest
      end
  end.

Definition mockEmployees (department : Department) : list string :=
  match department with
  | Animation => ["John Smith"; "Sarah Johnson"; "Michael Brown"; "Emily Davis"]
  | eLearning => ["David Wilson"; "Jennifer Taylor"; "Robert Martinez"; "Lisa Anderson"]
  | ADNR => ["James Thomas"; "Patricia White"; "Charles Harris"; "Jessica Lewis"]
  | XRDevelopment => ["Daniel Clark"; "Nancy Walker"; "Paul Hall"; "Karen Young"]
  | Other => ["Mark Allen"; "Sandra King"; "Kevin Wright"; "Betty Scott"]
  end.

(** [getMockEmployees(department)] *)
Definition getMockEmployees (department : Department) : list Employee :=
  imap (fun index name =>
          {| e_id := department_name department +:+ "-" +:+ pretty index;
             e_name := name;
             e_department := department;
             e_status := None |})
       (mockEmployees department).

(** The inner [try] block of [getEmployeesByDepartment]. *)
Definition fetchEmployees (client : option Client) (department : Department)
    : M World (list Employee) :=
  fileId <- getExcelFileId ;;
  worksheets <- api_get client "/me/drive/items/{fileId}/workbook/worksheets"
                        (worksheets env) ;;
  match worksheet_for department worksheets with
  | None =>
      throw (Error ("Worksheet for department " +:+ quote
                    +:+ department_name department +:+ quote +:+ " not found"))
  | Some worksheet =>
      usedRange <- api_get client "usedRange" (usedRange env (ws_id worksheet)) ;;
      match values usedRange with
      | Some (header :: row1 :: rows) =>   (* values.length > 1 *)
          ret (employees_from department 1 (row1 :: rows))
      | _ => ret []
      end
  end.

(** [getEmployeesByDepartment(department)] *)
Definition getEmployeesByDepartment (department : Department)
    : M World (list Employee) :=
  try_catch
    (client <- getAuthenticatedClient ;;
     try_catch
       (fetchEmployees client department)
       (fun error =>
          console_error "Error accessing Excel file directly:" ;;; throw error))
    (fun _ =>
       console_error "Error getting employees for department" ;;;
       ret (getMockEmployees department)).

(** *** [getDepartmentSubmissions] *)

Definition unsubmitted (department : Department) : DepartmentSubmission :=
  {| s_department := department; s_submitted := false; s_submittedAt := None |}.

(** [{ ...sub, submittedAt: sub.submittedAt ? new Date(sub.submittedAt) : undefined }] *)
Definition revive (sub : DepartmentSubmission) : DepartmentSubmission :=
  {| s_department := s_department sub;
     s_submitted := s_submitted sub;
     s_submittedAt :=
       match s_submittedAt sub with
       | Some t => if truthy t then Some t else None
       | None => None
       end |}.

(** What the body of the loop over the departments reads off a used range
    (lines 214-237). *)
Definition submission_in_range (department : Department) (range : UsedRange)
    : DepartmentSubmission :=
  match values range with
  | Some (headerRow :: rest) =>     (* values.length > 0 *)
      match findIndex (cell_is (today env)) headerRow with
      | Some todayColumnIndex =>
          let lastRow := List.last rest headerRow in
          match lastRow, nth_error lastRow todayColumnIndex with
          | first :: _, Some stamp =>
              if cell_is "Submission Status" first && cell_truthy stamp then
                {| s_department := department;
                   s_submitted := true;
                   s_submittedAt := parseDate env stamp |}
              else unsubmitted department
          | _, _ => unsubmitted department
          end
      | None => unsubmitted department
      end
  | _ => unsubmitted department
  end.

(** The loop over the five departments of the Excel tier (lines 199-238). *)
Fixpoint submissions_from_excel (client : option Client) (departments : list Department)
    : M World (list DepartmentSubmission) :=
  match departments with
  | [] => ret []
  | department :: rest =>
      worksheets <- api_get client "/me/drive/items/{fileId}/workbook/worksheets"
                            (worksheets env) ;;
      match worksheet_for department worksheets with
      | None =>
          more <- submissions_from_excel client rest ;;
          ret (unsubmitted department :: more)
      | Some worksheet =>
          usedRange <- api_get client "usedRange" (usedRange env (ws_id worksheet)) ;;
          more <- submissions_from_excel client rest ;;
          ret (submission_in_range department usedRange :: more)
      end
  end.

(** [getMockDepartmentSubmissions()] *)
Definition getMockDepartmentSubmissions : M World (list DepartmentSubmission) :=
  w <- get ;;
  ret (map (fun department =>
              match ls_attendance (localStorage w)
                      !! attendance_key department (today env) with
              | Some _ =>
                  {| s_department := department;
                     s_submitted := true;
                     s_submittedAt := Some (mockSubmittedAt env department) |}
              | None => unsubmitted department
              end)
           DEPARTMENTS).

(** The local tier of [getDepartmentSubmissions] (lines 176-189): [Some]
    of the list to return, [None] to go on to the Excel tier. *)
Definition submissions_from_storage : M World (option (list DepartmentSubmission)) :=
  w <- get ;;
  match ls_submissions (localStorage w) !! submissions_key (today env) with
  | None => ret None
  | Some Unparseable =>
      console_error "Error parsing stored submissions:" ;;; ret None
  | Some NonArray => ret None
  | Some (Arr parsedSubmissions) =>
      match parsedSubmissions with
      | [] => ret None
      | _ :: _ => ret (Some (map revive parsedSubmissions))
      end
  end.

(** [getDepartmentSubmissions()], run from its call to its return with
    nothing else running in between. *)
Definition getDepartmentSubmissions : M World (list DepartmentSubmission) :=
  try_catch
    (stored <- submissions_from_storage ;;
     match stored with
     | Some submissions => ret submissions
     | None =>
         try_catch
           (client <- getAuthenticatedClient ;;
            fileId <- getExcelFileId ;;
            departmentSubmissions <- submissions_from_excel client DEPARTMENTS ;;
            modify (setItem_submissions (submissions_key (today env))
                                        (Arr departmentSubmissions)) ;;;
            ret departmentSubmissions)
           (fun error =>
              console_error "Error getting department submissions from Excel:" ;;;
              throw error)
     end)
    (fun _ =>
       console_error "Error getting department submissions:" ;;;
       getMockDepartmentSubmissions).

(** *** A call of [getDepartmentSubmissions] that is overtaken

    [getDepartmentSubmissions] above is the method run without interruption.
    The method reads the stored list (line 174) and, inside
    [getAuthenticatedClient], the mock user (line 14) before it first waits
    for the network, at [await authService.getToken()] (line 21); it writes
    the day's key after the requests to the workbook (line 241). Whatever
    else runs during a wait works on the same storage. The two definitions
    below are the method up to that first wait and from it on (the further
    waits not being interleaved with anything); [today] and the key are
    those computed before the wait. *)

Inductive poll : Type :=
| Served (submissions : list DepartmentSubmission)   (* returned from storage *)
| Waiting (mockUserJson : option string).            (* what line 14 has read *)

Definition getDepartmentSubmissions_until_await : M World poll :=
  stored <- submissions_from_storage ;;
  match stored with
  | Some submissions => ret (Served submissions)
  | None =>
      w <- get ;;
      ret (Waiting (ls_mockUser (localStorage w)))
  end.

(** [getAuthenticatedClient()] from its [if (mockUserJson)] on. *)
Definition getAuthenticatedClient_resumed (mockUserJson : option string)
    : M World (option Client) :=
  try_catch
    (match mockUserJson with
     | Some mockUserJson =>
         if truthy mockUserJson then throw (Error "Using mock authentication")
         else
           match getToken env with
           | Some token => ret (Some token)
           | None => throw (Rejected "authService.getToken")
           end
     | None =>
         match getToken env with
         | Some token => ret (Some token)
         | None => throw (Rejected "authService.getToken")
         end
     end)
    (fun _ =>
       console_error "Failed to get authenticated client:" ;;;
       ret None).

Definition getDepartmentSubmissions_resumed (mockUserJson : option string)
    : M World (list DepartmentSubmission) :=
  try_catch
    (try_catch
       (client <- getAuthenticatedClient_resumed mockUserJson ;;
        fileId <- getExcelFileId ;;
        departmentSubmissions <- submissions_from_excel client DEPARTMENTS ;;
        modify (setItem_submissions (submissions_key (today env))
                                    (Arr departmentSubmissions)) ;;;
        ret departmentSubmissions)
       (fun error =>
          console_error "Error getting department submissions from Excel:" ;;;
          throw error))
    (fun _ =>
       console_error "Error getting department submissions:" ;;;
       getMockDepartmentSubmissions).

(** *** [sendAttendanceSummaryToTeams] *)

(** The loop that gathers the stored attendance of the submitted
    departments (lines 437-451). *)
Fixpoint collect_employees (departmentSubmissions : list DepartmentSubmission)
    (allEmployees : list Employee) : M World (list Employee) :=
  match departmentSubmissions with
  | [] => ret allEmployees
  | submission :: rest =>
      if s_submitted submission then
        w <- get ;;
        match ls_attendance (localStorage w)
                !! attendance_key (s_department submission) (today env) with
        | None => collect_employees rest allEmployees
        | Some (Arr employees) => collect_employees rest (allEmployees ++ employees)
        | Some _ =>
            console_error "Error parsing stored attendance for department" ;;;
            collect_employees rest allEmployees
        end
      else collect_employees rest allEmployees
  end.

Definition departmentIcon (department : Department) : string :=
  match department with
  | Animation => "🎨"
  | eLearning => "📚"
  | ADNR => "🛠"
  | XRDevelopment => "🏗"
  | Other => "🌍"
  end.

(** [departmentEmployees.filter(e => e.status === status).map(e => e.name).join(', ')] *)
Definition names_with (status : AttendanceStatus) (departmentEmployees : list Employee)
    : string :=
  join ", " (map e_name (List.filter (status_is status) departmentEmployees)).

(** The part of the message for one department (lines 458-480). *)
Definition department_section (allEmployees : list Employee) (department : Department)
    : string :=
  let departmentEmployees :=
    List.filter (fun e => department_eqb (e_department e) department) allEmployees in
  departmentIcon department +:+ " **" +:+ department_name department +:+ ":**" +:+ newline
  +:+ "✅ Present: " +:+ or_else (names_with present departmentEmployees) "None" +:+ newline
  +:+ "🕐 Late: " +:+ or_else (names_with late departmentEmployees) "None" +:+ newline
  +:+ "❌ Absent: " +:+ or_else (names_with absent departmentEmployees) "None" +:+ newline
  +:+ "🌴 On Leave: " +:+ or_else (names_with leave departmentEmployees) "None" +:+ newline
  +:+ "🤒 Sick: " +:+ or_else (names_with sick departmentEmployees) "None" +:+ newline
  +:+ newline.

Definition summary_message (allEmployees : list Employee) : string :=
  fold_left (fun message department =>
               message +:+ department_section allEmployees department)
            DEPARTMENTS
            ("🗓️ **Daily Attendance Report - " +:+ today env +:+ "**" +:+ newline +:+ newline).

(** [sendAttendanceSummaryToTeams(departmentSubmissions)] *)
Definition sendAttendanceSummaryToTeams
    (departmentSubmissions : list DepartmentSubmission) : M World unit :=
  try_catch
    (modify (emit (SummaryAttempt departmentSubmissions)) ;;;
     try_catch
       (client <- getAuthenticatedClient ;;
        teamId <- getTeamId ;;
        channelId <- getChannelId teamId ;;
        allEmployees <- collect_employees departmentSubmissions [] ;;
        api_post client teamId channelId (summary_message allEmployees))
       (fun _ => console_error "Error sending to Teams:"))
    (fun _ => console_error "Error sending attendance summary to Teams:").

(** *** [submitAttendance] *)

(** [employee.status || 'absent'] *)
Definition status_or_absent (employee : Employee) : string :=
  match e_status employee with
  | Some status => or_else (status_name status) "absent"
  | None => "absent"
  end.

(** The search for the row of an employee (lines 334-341), from row [i]
    on: the 1-indexed row of the sheet, [None] for [-1]. *)
Fixpoint employee_row_from (name : string) (i : nat) (rows : list (list cell))
    : option nat :=
  match rows with
  | [] => None
  | row :: rest =>
      match row with
      | first :: _ =>
          if cell_is name first then Some (i + 1)%nat
          else employee_row_from name (S i) rest
      | [] => employee_row_from name (S i) rest
      end
  end.

Definition employeeRowIndex (name : string) (values : list (list cell)) : option nat :=
  employee_row_from name 1 (tail values).

(** The column of today's date: the one whose header is today's date, or
    a new one after the last header, whose header cell is then written
    (lines 309-329). *)
Definition todayColumn (client : option Client) (worksheetId : string)
    (range : UsedRange) : M World nat :=
  let found :=
    match values range with
    | Some (headerRow :: _) => findIndex (cell_is (today env)) headerRow
    | _ => None
    end in
  match found with
  | Some todayColumnIndex => ret todayColumnIndex
  | None =>
      match values range with
      | Some (headerRow :: _) =>
          let lastColumnIndex := length headerRow in
          let nextColumnLetter := getExcelColumnLetter (Z.of_nat lastColumnIndex) in
          api_patch client worksheetId (nextColumnLetter +:+ "1") (today env) ;;;
          ret lastColumnIndex
      | _ =>
          throw (TypeError "Cannot read properties of undefined (reading 'length')")
      end
  end.

(** The body of the loop over the employees (lines 333-354). *)
Definition writeEmployee (client : option Client) (worksheetId : string)
    (rows : list (list cell)) (todayColumnIndex : nat) (employee : Employee)
    : M World unit :=
  match employeeRowIndex (e_name employee) rows with
  | None => console_error "Employee not found in worksheet"
  | Some employeeRowIndex =>
      let columnLetter := getExcelColumnLetter (Z.of_nat todayColumnIndex) in
      let cellAddress := columnLetter +:+ pretty employeeRowIndex in
      api_patch client worksheetId cellAddress (status_or_absent employee)
  end.

(** The inner [try] block of [submitAttendance] (lines 295-372). *)
Definition submitToExcel (department : Department) (employees : list Employee)
    : M World unit :=
  client <- getAuthenticatedClient ;;
  fileId <- getExcelFileId ;;
  worksheets <- api_get client "/me/drive/items/{fileId}/workbook/worksheets"
                        (worksheets env) ;;
  match worksheet_for department worksheets with
  | None =>
      throw (Error ("Worksheet for department " +:+ quote
                    +:+ department_name department +:+ quote +:+ " not found"))
  | Some worksheet =>
      usedRange <- api_get client "usedRange" (usedRange env (ws_id worksheet)) ;;
      todayColumnIndex <- todayColumn client (ws_id worksheet) usedRange ;;
      match values usedRange with
      | None =>
          throw (TypeError "Cannot read properties of undefined (reading 'length')")
      | Some rows =>
          for_of employees
                 (writeEmployee client (ws_id worksheet) rows todayColumnIndex) ;;;
          let submissionStatusRowIndex := (length rows + 1)%nat in
          let columnLetter := getExcelColumnLetter (Z.of_nat todayColumnIndex) in
          api_patch client (ws_id worksheet)
                    ("A" +:+ pretty submissionStatusRowIndex) "Submission Status" ;;;
          api_patch client (ws_id worksheet)
                    (columnLetter +:+ pretty submissionStatusRowIndex) (now env)
      end
  end.

(** The entry that [submitAttendance] writes for its department. *)
Definition submitted_now (department : Department) : DepartmentSubmission :=
  {| s_department := department;
     s_submitted := true;
     s_submittedAt := Some (now env) |}.

(** Lines 393-403: the entry of the department is marked in place, or a
    new entry is pushed when there is none. *)
Definition mark_submitted (department : Department)
    (submissions : list DepartmentSubmission) : list DepartmentSubmission :=
  match findIndex (fun s => department_eqb (s_department s) department) submissions with
  | None => submissions ++ [submitted_now department]
  | Some departmentIndex =>
      alter (fun s => submitted_now (s_department s)) departmentIndex submissions
  end.

(** Lines 384-390 and the first use of the value read: the stored list,
    the empty list when nothing is stored or the text does not parse; a
    stored value that is not an array has no [findIndex]. *)
Definition read_submissions : M World (list DepartmentSubmission) :=
  w <- get ;;
  match ls_submissions (localStorage w) !! submissions_key (today env) with
  | None => ret []
  | Some Unparseable => ret []
  | Some (Arr submissions) => ret submissions
  | Some NonArray => throw (TypeError "submissions.findIndex is not a function")
  end.

(** [submitAttendance(department, employees)] *)
Definition submitAttendance (department : Department) (employees : list Employee)
    : M World bool :=
  try_catch
    (try_catch
       (submitToExcel department employees)
       (fun _ => console_error "Error submitting to Excel:") ;;;
     modify (setItem_attendance (attendance_key department (today env))
                                (Arr employees)) ;;;
     stored <- read_submissions ;;
     let submissions := mark_submitted department stored in
     modify (setItem_submissions (submissions_key (today env)) (Arr submissions)) ;;;
     let allSubmitted := forallb s_submitted submissions in
     (if allSubmitted
      then sendAttendanceSummaryToTeams (map revive submissions)
      else ret tt) ;;;
     ret true)
    (fun error =>
       console_error "Error submitting attendance for department" ;;;
       throw error).

End WithEnv.

End GraphService.

(** ** [src/components/SubmissionTracker.tsx] *)

Module SubmissionTracker.

(** [submissions.every(s => s.submitted)] *)
Definition allSubmitted (submissions : list DepartmentSubmission) : bool :=
  forallb s_submitted submissions.

(** [submissions.filter(s => s.submitted).length] *)
Definition submittedCount (submissions : list DepartmentSubmission) : nat :=
  length (List.filter s_submitted submissions).

Definition totalCount (submissions : list DepartmentSubmission) : nat :=
  length submissions.

(** The state of the component. *)
Record State : Type := mkState {
  submissions : list DepartmentSubmission;
  loading : bool;
  error : option exn;
  refreshing : bool
}.

(** [useState] initial values. *)
Definition initial : State :=
  {| submissions := []; loading := true; error := None; refreshing := false |}.

(** [fetchSubmissions()], once its promise has settled. *)
Definition fetchSubmissions (env : GraphService.Env) (st : State) (w : GraphService.World)
    : State * GraphService.World :=
  match GraphService.getDepartmentSubmissions env w with
  | (Ok departmentSubmissions, w') =>
      ({| submissions := departmentSubmissions; loading := false;
          error := None; refreshing := false |}, w')
  | (Throw err, w') =>
      ({| submissions := submissions st; loading := false;
          error := Some err; refreshing := false |}, w')
  end.

End SubmissionTracker.

(** ** The attendance form ([AttendanceForm]) *)

Module AttendanceForm.

(** [{ ...emp, status: emp.status || 'absent' }] *)
Definition withStatus (emp : Employee) : Employee :=
  {| e_id := e_id emp;
     e_name := e_name emp;
     e_department := e_department emp;
     e_status :=
       match e_status emp with
       | Some status => Some status
       | None => Some absent
       end |}.

(** [handleStatusChange(employeeId, status)] *)
Definition handleStatusChange (employeeId : string) (status : AttendanceStatus)
    (employees : list Employee) : list Employee :=
  map (fun emp =>
         if String.eqb (e_id emp) employeeId then
           {| e_id := e_id emp; e_name := e_name emp;
              e_department := e_department emp; e_status := Some status |}
         else emp)
      employees.

(** [handleSubmit()]: the error shown by the form, if any. *)
Definition handleSubmit (env : GraphService.Env) (department : Department)
    (employees : list Employee) : M GraphService.World (option exn) :=
  try_catch
    (let employeesWithStatus := map withStatus employees in
     GraphService.submitAttendance env department employeesWithStatus ;;;
     ret None)
    (fun error =>
       GraphService.console_error "Error submitting attendance:" ;;;
       ret (Some error)).

End AttendanceForm.

(** ** [src/services/authService.ts], continued: the session *)

Module AuthSession.

Import AuthService.

(** The object that [loginWithCredentials] stores under [mockAccount]. *)
Record MockAccount : Type := mkMockAccount {
  mock_homeAccountId : string;
  mock_environment : string;
  mock_tenantId : string;
  mock_username : string;
  mock_localAccountId : string;
  mock_name : string
}.

(** The stored object read back [as AccountInfo]. *)
Definition account_of_mock (m : MockAccount) : AccountInfo :=
  {| homeAccountId := mock_homeAccountId m; username := mock_username m |}.

(** [localStorage] as the identity code uses it: what [JSON.parse] makes of
    the text under [mockAccount] ([Some None] for text that does not parse),
    and the text under every other key. The keys that the MSAL library
    writes for itself are among the other keys; the library's own writes are
    outside the program and are not represented. *)
Record Browser : Type := mkBrowser {
  mockAccount : option (option MockAccount);
  items : gmap string string
}.

(** The service instance together with the storage of the browser. *)
Record Session : Type := mkSession {
  service : State;
  browser : Browser
}.

(** What the surroundings answer during one call, beyond [Msal]. *)
Record Surroundings : Type := mkSurroundings {
  msal : Msal;
  interactionRequired : bool;
    (* the rejection of acquireTokenSilent is an InteractionRequiredAuthError *)
  acquireTokenRedirect : bool;
  acquireTokenPopup : option AuthenticationResult;
  cacheCleared : string -> bool;
    (* the key holds an entry of the library's cache, which clearCache()
       has removed when logout goes on *)
  accountCleared : bool;
    (* clearCache() has dropped the active account by then *)
  logoutRedirect : bool;
  logoutPopup : bool;
  dateNow : string;           (* Date.now(), in decimal, at its first reading *)
  dateNowAgain : string       (* and at its second reading *)
}.

(** [msalConfig.auth.authority] of [src/config.ts]. *)
Definition authority : string :=
  "https://login.microsoftonline.com/26558ce4-448f-410a-a4e1-f4917b8f9e11".

(** The error of the spec's [NoActiveSession]. *)
Definition NoActiveSession : exn :=
  Error "No active account! Please sign in before proceeding.".

(** [s.includes(t)] *)
Fixpoint includes (t s : string) : bool :=
  String.prefix t s
  || match s with
     | EmptyString => false
     | String _ rest => includes t rest
     end.

(** The keys swept by [logout]:
    [key.startsWith('msal.') || key.includes('login.windows')]. *)
Definition is_identity_key (key : string) : bool :=
  String.prefix "msal." key || includes "login.windows" key.

(** A method of the service proper, run within the session. *)
Definition in_service {A} (m : M State A) : M Session A :=
  fun s =>
    let (r, st) := m (service s) in
    (r, {| service := st; browser := browser s |}).

(** The same surroundings with another outcome of [acquireTokenRedirect]. *)
Definition with_acquireTokenRedirect (b : bool) (env : Surroundings) : Surroundings :=
  {| msal := msal env;
     interactionRequired := interactionRequired env;
     acquireTokenRedirect := b;
     acquireTokenPopup := acquireTokenPopup env;
     cacheCleared := cacheCleared env;
     accountCleared := accountCleared env;
     logoutRedirect := logoutRedirect env;
     logoutPopup := logoutPopup env;
     dateNow := dateNow env;
     dateNowAgain := dateNowAgain env |}.

Definition set_flag (b : bool) (s : Session) : Session :=
  {| service := set_interactionInProgress b (service s); browser := browser s |}.

Definition store_mockAccount (m : MockAccount) (s : Session) : Session :=
  {| service := service s;
     browser := {| mockAccount := Some (Some m); items := items (browser s) |} |}.

Definition remove_mockAccount (s : Session) : Session :=
  {| service := service s;
     browser := {| mockAccount := None; items := items (browser s) |} |}.

(** The sweep at the end of [logout] (lines 275-279). *)
Definition sweep_identity_keys (s : Session) : Session :=
  {| service := service s;
     browser :=
       {| mockAccount := mockAccount (browser s);
          items := filter (fun kv => is_identity_key (fst kv) = false)
                          (items (browser s)) |} |}.

Section WithSurroundings.

Variable env : Surroundings.

(** [getAccount()] *)
Definition getAccount : M Session (option AccountInfo) :=
  s <- get ;;
  if negb (initialized (service s)) then ret None
  else
    match activeAccount (service s) with
    | Some activeAccount => ret (Some activeAccount)
    | None =>
        match getAllAccounts (msal env) with
        | first :: _ =>
            in_service (modify (setActiveAccount first)) ;;;
            ret (Some first)
        | [] =>
            match mockAccount (browser s) with
            | Some (Some m) => ret (Some (account_of_mock m))
            | Some None => ret None     (* the parse error is logged *)
            | None => ret None
            end
        end
    end.

(** The interactive part of [getToken] (lines 327-357). The error thrown
    after the redirect is caught by the [catch] of the same [try]. *)
Definition getToken_interactive : M Session string :=
  try_finally
    (try_catch
       ((if acquireTokenRedirect env then ret tt
         else throw (Rejected "acquireTokenRedirect")) ;;;
        throw (Error "Redirecting to acquire token..."))
       (fun _ =>
          try_catch
            (match acquireTokenPopup env with
             | Some response => ret (accessToken response)
             | None => throw (Rejected "acquireTokenPopup")
             end)
            (fun popupError => throw popupError)))
    (set_flag false).

(** [getToken()] *)
Definition getToken : M Session string :=
  try_catch
    (in_service (ensureInitialized (msal env)) ;;;
     account <- getAccount ;;
     match account with
     | None => throw NoActiveSession
     | Some _ =>
         try_catch
           (match acquireTokenSilent (msal env) with
            | Some response => ret (accessToken response)
            | None => throw (Rejected "acquireTokenSilent")
            end)
           (fun error =>
              if negb (interactionRequired env) then throw error
              else
                s <- get ;;
                if interactionInProgress (service s) then throw InteractionConflict
                else
                  modify (set_flag true) ;;;
                  getToken_interactive)
     end)
    (fun error => modify (set_flag false) ;;; throw error).

(** [loginWithCredentials(email, password)] *)
Definition loginWithCredentials (email password : string) : M Session bool :=
  try_finally
    (try_catch
       (in_service (ensureInitialized (msal env)) ;;;
        s <- get ;;
        if interactionInProgress (service s) then throw InteractionConflict
        else
          modify (set_flag true) ;;;
          let mockAccount :=
            {| mock_homeAccountId := "mock-" +:+ dateNow env;
               mock_environment := "login.microsoftonline.com";
               mock_tenantId := or_else (after_last "/" authority) "";
               mock_username := email;
               mock_localAccountId := "local-" +:+ dateNowAgain env;
               mock_name := before_first "@" email |} in
          modify (store_mockAccount mockAccount) ;;;
          ret true)
       (fun error => throw error))
    (set_flag false).

(** [msalInstance.clearCache()] (line 241), with the cache of the library
    in [localStorage] ([cacheLocation] of [src/config.ts]): entries of the
    library are removed from the storage, and the library may drop its
    active account. The call is not awaited; what it has done when [logout]
    goes on is for the library to say ([cacheCleared], [accountCleared]).
    The entries of the library are taken to be among the keys that [logout]
    itself sweeps as MSAL-related. *)
Definition clearCache (s : Session) : Session :=
  {| service :=
       {| initialized := initialized (service s);
          interactionInProgress := interactionInProgress (service s);
          activeAccount :=
            if accountCleared env then None else activeAccount (service s) |};
     browser :=
       {| mockAccount := mockAccount (browser s);
          items := filter (fun kv => is_identity_key (fst kv) && cacheCleared env (fst kv)
                                     = false)
                          (items (browser s)) |} |}.

(** The part of [logout] that signs the account out (lines 235-266). *)
Definition logout_account : M Session unit :=
  modify (set_flag true) ;;;
  try_finally
    (try_catch
       (modify clearCache ;;;
        if logoutRedirect env then ret tt else throw (Rejected "logoutRedirect"))
       (fun _ =>
          try_catch
            (if logoutPopup env then ret tt else throw (Rejected "logoutPopup"))
            (fun popupError => throw popupError)))
    (set_flag false).

(** [logout()] *)
Definition logout : M Session unit :=
  try_catch
    (in_service (ensureInitialized (msal env)) ;;;
     s <- get ;;
     if interactionInProgress (service s) then throw InteractionConflict
     else
       account <- getAccount ;;
       match account with
       | Some _ => logout_account
       | None => ret tt
       end ;;;
       modify remove_mockAccount ;;;
       modify sweep_identity_keys)
    (fun error => modify (set_flag false) ;;; throw error).

End WithSurroundings.

End AuthSession.

(** ** [src/App.tsx]: the sign-in form and sign-out *)

Module App.

(** The state of the component ([useState]). *)
Record State : Type := mkState {
  selectedDepartment : option Department;
  isAuthenticated : bool;
  authenticating : bool;
  authError : option string;
  loginInProgress : bool;
  userInfo : option (string * string);     (* name, email *)
  useDirectLogin : bool;
  email : string;
  password : string
}.

(** The page: the component, the storage and trace of the data service, and
    the session of the identity service. *)
Record Page : Type := mkPage {
  app : State;
  graph : GraphService.World;
  session : AuthSession.Session
}.

Definition hex_digit (n : nat) : ascii :=
  ascii_of_nat (if (n <? 10)%nat then 48 + n else 87 + n).

(** The text of one character inside a JSON string, as [JSON.stringify]
    writes it. *)
Definition json_escape_char (c : ascii) : string :=
  let n := nat_of_ascii c in
  if (n =? 34)%nat then "\" +:+ GraphService.quote
  else if (n =? 92)%nat then "\\"
  else if (n =? 8)%nat then "\b"
  else if (n =? 12)%nat then "\f"
  else if (n =? 10)%nat then "\n"
  else if (n =? 13)%nat then "\r"
  else if (n =? 9)%nat then "\t"
  else if (n <? 32)%nat then
    "\u00" +:+ String (hex_digit (n / 16)) (String (hex_digit (n mod 16)) "")
  else String c "".

Fixpoint json_escape (s : string) : string :=
  match s with
  | EmptyString => ""
  | String c rest => json_escape_char c +:+ json_escape rest
  end.

Definition json_string (s : string) : string :=
  GraphService.quote +:+ json_escape s +:+ GraphService.quote.

(** [JSON.stringify({ name, email })] *)
Definition stringify_user (name email : string) : string :=
  "{" +:+ json_string "name" +:+ ":" +:+ json_string name +:+ ","
  +:+ json_string "email" +:+ ":" +:+ json_string email +:+ "}".

Definition setItem_mockUser (v : option string) (w : GraphService.World)
    : GraphService.World :=
  {| GraphService.localStorage :=
       {| GraphService.ls_attendance :=
            GraphService.ls_attendance (GraphService.localStorage w);
          GraphService.ls_submissions :=
            GraphService.ls_submissions (GraphService.localStorage w);
          GraphService.ls_mockUser := v |};
     GraphService.trace := GraphService.trace w |}.

(** The [finally] of the two sign-in handlers. *)
Definition login_finally (st : State) : State :=
  {| selectedDepartment := selectedDepartment st;
     isAuthenticated := isAuthenticated st;
     authenticating := false;
     authError := authError st;
     loginInProgress := false;
     userInfo := userInfo st;
     useDirectLogin := useDirectLogin st;
     email := email st;
     password := password st |}.

(** [handleDirectLogin(e)], with the state setters applied in turn. *)
Definition handleDirectLogin (p : Page) : Page :=
  let st := app p in
  if loginInProgress st then
    {| app := login_finally st; graph := graph p; session := session p |}
  else if negb (truthy (email st)) || negb (truthy (password st)) then
    {| app :=
         login_finally
           {| selectedDepartment := selectedDepartment st;
              isAuthenticated := isAuthenticated st;
              authenticating := false;
              authError := Some "Please enter both email and password";
              loginInProgress := false;
              userInfo := userInfo st;
              useDirectLogin := useDirectLogin st;
              email := email st;
              password := password st |};
       graph := graph p;
       session := session p |}
  else
    let name := or_else (before_first "@" (email st)) "User" in
    {| app :=
         login_finally
           {| selectedDepartment := selectedDepartment st;
              isAuthenticated := true;
              authenticating := true;
              authError := None;
              loginInProgress := true;
              userInfo := Some (name, email st);
              useDirectLogin := useDirectLogin st;
              email := email st;
              password := password st |};
       graph := setItem_mockUser (Some (stringify_user name (email st))) (graph p);
       session := session p |}.

(** The four keys removed at the end of [handleLogout]. *)
Definition msal_token_keys : list string :=
  ["msal.token.keys"; "msal.idtoken"; "msal.accessToken"; "msal.refreshToken"].

Definition remove_items (keys : list string) (s : AuthSession.Session)
    : AuthSession.Session :=
  {| AuthSession.service := AuthSession.service s;
     AuthSession.browser :=
       {| AuthSession.mockAccount := AuthSession.mockAccount (AuthSession.browser s);
          AuthSession.items :=
            fold_left (fun m key => delete key m) keys
                      (AuthSession.items (AuthSession.browser s)) |} |}.

(** [handleLogout()]: a failure of [authService.logout()] is only logged. *)
Definition handleLogout (env : AuthSession.Surroundings) (p : Page) : Page :=
  let st := app p in
  let graph1 := setItem_mockUser None (graph p) in
  let (result, session1) := AuthSession.logout env (session p) in
  let graph2 :=
    match result with
    | Ok _ => graph1
    | Throw _ =>
        GraphService.emit (GraphService.ConsoleError "MSAL logout error (non-critical):")
                          graph1
    end in
  {| app :=
       {| selectedDepartment := None;
          isAuthenticated := false;
          authenticating := false;
          authError := authError st;
          loginInProgress := loginInProgress st;
          userInfo := None;
          useDirectLogin := useDirectLogin st;
          email := email st;
          password := password st |};
     graph := graph2;
     session := remove_items msal_token_keys session1 |}.

End App.

(** * What the specification speaks of *)

(** ** Spreadsheet column names *)

Module ColumnNames.

(** The digit a capital letter stands for in bijective base 26:
    A is 1, ..., Z is 26. *)
Definition letter_digit (c : ascii) : Z := Z.of_nat (nat_of_ascii c) - 64.

Definition is_capital (c : ascii) : bool :=
  (65 <=? Z.of_nat (nat_of_ascii c)) && (Z.of_nat (nat_of_ascii c) <=? 90).

(** The 1-indexed number of the column a name denotes, most significant
    letter first: A is column 1, Z is 26, AA is 27. *)
Definition column_number (name : string) : Z :=
  fold_left (fun acc c => acc * 26 + letter_digit c) (list_ascii_of_string name) 0.

(** A spreadsheet column name: one or more capital letters. *)
Definition is_column_name (name : string) : Prop :=
  name <> "" /\ forallb is_capital (list_ascii_of_string name) = true.

End ColumnNames.

(** ** Observations on the submission service *)

Module Observations.

Import GraphService.

Definition is_attempt (e : Event) : bool :=
  match e with SummaryAttempt _ => true | _ => false end.

(** The number of summary sends attempted so far. *)
Definition attempts (t : list Event) : nat := length (List.filter is_attempt t).

(** The list kept under today's submissions key, as [submitAttendance]
    reads it. *)
Definition stored_submissions (env : Env) (w : World)
    : option (parsed DepartmentSubmission) :=
  ls_submissions (localStorage w) !! submissions_key (today env).

Definition stored_attendance (env : Env) (department : Department) (w : World)
    : option (parsed Employee) :=
  ls_attendance (localStorage w) !! attendance_key department (today env).

(** The list [submitAttendance] starts from. *)
Definition submissions_read (stored : option (parsed DepartmentSubmission))
    : list DepartmentSubmission :=
  match stored with
  | Some (Arr submissions) => submissions
  | _ => []
  end.

(** Storage and the count of summary attempts are as before. *)
Definition unchanged (w w' : World) : Prop :=
  localStorage w' = localStorage w /\ attempts (trace w') = attempts (trace w).

(** The trace has only been appended to. *)
Definition grows (w w' : World) : Prop :=
  exists t, trace w' = trace w ++ t.

(** [department] is reported as submitted in [submissions]. *)
Definition reports_submitted (department : Department)
    (submissions : list DepartmentSubmission) : Prop :=
  exists s, In s submissions /\ s_department s = department /\ s_submitted s = true.

(** Each of the five departments is reported as submitted. *)
Definition every_department_submitted (submissions : list DepartmentSubmission) : Prop :=
  forall department, reports_submitted department submissions.

(** The number of entries of [department] in a list of submissions. *)
Definition entries_of (department : Department)
    (submissions : list DepartmentSubmission) : nat :=
  length (List.filter (fun s => department_eqb (s_department s) department) submissions).

(** The stored submissions are a list with at most one entry per
    department, or nothing usable is stored. *)
Definition well_kept (stored : option (parsed DepartmentSubmission)) : Prop :=
  match stored with
  | Some NonArray => False
  | Some (Arr submissions) => NoDup (map s_department submissions)
  | _ => True
  end.

(** The stored submissions list every entry as submitted, or nothing
    usable is stored. *)
Definition all_marked (stored : option (parsed DepartmentSubmission)) : Prop :=
  match stored with
  | Some NonArray => False
  | Some (Arr submissions) => forallb s_submitted submissions = true
  | _ => True
  end.

(** A series of submissions, each with the surroundings it runs in. *)
Definition submit_each (steps : list (Env * Department * list Employee)) (w : World)
    : World :=
  fold_left (fun w step =>
               match step with
               | (env, department, employees) =>
                   snd (submitAttendance env department employees w)
               end)
            steps w.

Definition on_day (day : string) (step : Env * Department * list Employee) : Prop :=
  today (fst (fst step)) = day.

(** A computation keeps a relation between the world it starts in and the
    world it leaves. *)
Definition keeps (R : World -> World -> Prop) {A} (m : M World A) : Prop :=
  forall w, R w (snd (m w)).

(** The ways in which the remote read of [getEmployeesByDepartment] fails. *)
Inductive remote_failure (env : Env) (w : World) (department : Department) : Prop :=
| MockUser mockUserJson :
    ls_mockUser (localStorage w) = Some mockUserJson ->
    truthy mockUserJson = true ->
    remote_failure env w department
| NoToken :
    getToken env = None ->
    remote_failure env w department
| WorksheetsRequestFails :
    worksheets env = None ->
    remote_failure env w department
| WorksheetMissing sheets :
    worksheets env = Some sheets ->
    worksheet_for department sheets = None ->
    remote_failure env w department
| UsedRangeRequestFails sheets worksheet :
    worksheets env = Some sheets ->
    worksheet_for department sheets = Some worksheet ->
    usedRange env (ws_id worksheet) = None ->
    remote_failure env w department.

End Observations.

Import GraphService ColumnNames Observations.

(** ** Further observations on the submission service *)

Module Requests.

Import GraphService.

(** A request accepted by the remote service. *)
Definition is_request (e : Event) : bool :=
  match e with
  | Patch _ _ _ | PostMessage _ _ _ => true
  | _ => false
  end.

(** Started in a world that satisfies [I], a computation leaves a world that
    satisfies [I], appends to the trace only events that satisfy [P], and
    returns only values that satisfy [Q]. *)
Definition emits (I : World -> Prop) (P : Event -> Prop) {A} (Q : A -> Prop)
    (m : M World A) : Prop :=
  forall w, I w ->
    I (snd (m w))
    /\ (exists added, trace (snd (m w)) = trace w ++ added /\ Forall P added)
    /\ (forall a, fst (m w) = Ok a -> Q a).

Definition any {A} (a : A) : Prop := True.

(** [worksheetId] is the id of the worksheet named after the department. *)
Definition sheet_of (env : Env) (department : Department) (worksheetId : string) : Prop :=
  exists sheets worksheet,
    worksheets env = Some sheets
    /\ worksheet_for department sheets = Some worksheet
    /\ worksheetId = ws_id worksheet.

(** [teamId] is the id of the first joined team named [Config.teamName]. *)
Definition rollcall_team (env : Env) (teamId : string) : Prop :=
  exists teams team,
    joinedTeams env = Some teams
    /\ find (fun t => String.eqb (team_displayName t) Config.teamName) teams = Some team
    /\ teamId = team_id team.

(** [channelId] is the id of the first channel of the team named
    [Config.channelName]. *)
Definition attendance_channel (env : Env) (teamId channelId : string) : Prop :=
  exists channels_ channel,
    channels env teamId = Some channels_
    /\ find (fun c => String.eqb (channel_displayName c) Config.channelName) channels_
       = Some channel
    /\ channelId = channel_id channel.

(** The requests the service may send for a department: a write to the
    worksheet of that department, a message to the attendance channel of the
    Rollcall team. *)
Definition addressed (env : Env) (department : Department) (e : Event) : Prop :=
  match e with
  | Patch worksheetId _ _ => sheet_of env department worksheetId
  | PostMessage teamId channelId _ =>
      rollcall_team env teamId /\ attendance_channel env teamId channelId
  | _ => True
  end.

(** The column of today's date in a sheet with this header row: the first
    column whose header is today's date, or else the column after the last
    one. *)
Definition column_of_today (env : Env) (headerRow : list cell) : nat :=
  match findIndex (cell_is (today env)) headerRow with
  | Some todayColumnIndex => todayColumnIndex
  | None => length headerRow
  end.

Definition today_letter (env : Env) (headerRow : list cell) : string :=
  getExcelColumnLetter (Z.of_nat (column_of_today env headerRow)).

(** The writes of a submission for [employees] to a sheet with the rows
    [values]: the header of today's column when the sheet has none; for a
    listed employee found in the sheet, the cell of today's column in the
    row of the employee, with the status chosen or "absent"; the two cells
    of the marker row below the last row. *)
Definition submission_write (env : Env) (values : list (list cell))
    (employees : list Employee) (address value : string) : Prop :=
  match values with
  | [] => False
  | headerRow :: _ =>
      (address = today_letter env headerRow +:+ "1"
       /\ value = today env
       /\ findIndex (cell_is (today env)) headerRow = None)
      \/ (exists employee r,
             In employee employees
             /\ employeeRowIndex (e_name employee) values = Some r
             /\ address = today_letter env headerRow +:+ pretty r
             /\ value = status_or_absent employee)
      \/ (address = "A" +:+ pretty (length values + 1)%nat
          /\ value = "Submission Status")
      \/ (address = today_letter env headerRow +:+ pretty (length values + 1)%nat
          /\ value = now env)
  end.

(** An event that a submission to the sheet [worksheetId] may leave in the
    trace: a write as above, or anything that is not a write. *)
Definition submission_event (env : Env) (worksheetId : string)
    (values : list (list cell)) (employees : list Employee) (e : Event) : Prop :=
  match e with
  | Patch sheet address value =>
      sheet = worksheetId /\ submission_write env values employees address value
  | _ => True
  end.

(** A mock user is stored: the fallback sign-in form was used. *)
Definition mock_mode (w : World) : Prop :=
  exists mockUserJson,
    ls_mockUser (localStorage w) = Some mockUserJson /\ truthy mockUserJson = true.

(** The local tier of [getDepartmentSubmissions] serves a stored, non-empty
    array and nothing else. *)
Definition served_locally (stored : option (parsed DepartmentSubmission)) : bool :=
  match stored with
  | Some (Arr (_ :: _)) => true
  | _ => false
  end.

(** The list that [getMockDepartmentSubmissions] builds from the attendance
    stored for the day. *)
Definition mock_submissions (env : Env) (w : World) : list DepartmentSubmission :=
  map (fun department =>
         match ls_attendance (localStorage w)
                 !! attendance_key department (today env) with
         | Some _ =>
             {| s_department := department;
                s_submitted := true;
                s_submittedAt := Some (mockSubmittedAt env department) |}
         | None => unsubmitted department
         end)
      DEPARTMENTS.

(** The statuses that [sendAttendanceSummaryToTeams] has a line for. *)
Definition summarised (e : Employee) : bool :=
  match e_status e with
  | Some present | Some late | Some absent | Some leave | Some sick => true
  | Some onsite | None => false
  end.

(** A calendar day as [toISOString().split('T')[0]] and
    [format(date, 'yyyy-MM-dd')] write it has no dot. *)
Fixpoint dotless (s : string) : bool :=
  match s with
  | EmptyString => true
  | String c rest => negb (Ascii.eqb c ".") && dotless rest
  end.

End Requests.

Import Requests.

(** ** Concrete surroundings used to exercise the theorems *)

(** No token, and every request to the remote service fails. *)
Definition offline : Env :=
  {| today := "2025-03-14";
     now := "2025-03-14T08:30:00.000Z";
     getToken := None;
     worksheets := None;
     usedRange := fun _ => None;
     patchOk := fun _ _ => false;
     joinedTeams := None;
     channels := fun _ => None;
     postOk := fun _ _ => false;
     parseDate := fun _ => None;
     mockSubmittedAt := fun _ => "2025-03-14T07:30:00.000Z" |}.

(** The same day, a little later. *)
Definition offline_later : Env :=
  {| today := "2025-03-14";
     now := "2025-03-14T09:45:00.000Z";
     getToken := None;
     worksheets := None;
     usedRange := fun _ => None;
     patchOk := fun _ _ => false;
     joinedTeams := None;
     channels := fun _ => None;
     postOk := fun _ _ => false;
     parseDate := fun _ => None;
     mockSubmittedAt := fun _ => "2025-03-14T07:30:00.000Z" |}.

(** Storage at the start of a day, after a sign-in with the fallback form. *)
Definition fresh_day : World :=
  {| localStorage :=
       {| ls_attendance := ∅;
          ls_submissions := ∅;
          ls_mockUser := Some "{name:user,email:user@example.com}" |};
     trace := [] |}.

(** A signed-in session whose workbook has the sheet of one department. *)
Definition animation_sheet : Worksheet :=
  {| ws_id := "sheet-1"; ws_name := "Animation" |}.

Definition online : Env :=
  {| today := "2025-03-14";
     now := "2025-03-14T08:30:00.000Z";
     getToken := Some "token";
     worksheets := Some [animation_sheet];
     usedRange := fun _ =>
       Some {| values := Some [[CStr "Name"; CStr "2025-03-13"];
                               [CStr "John Smith"; CStr "present"]] |};
     patchOk := fun _ _ => true;
     joinedTeams := Some [{| team_id := "team-1"; team_displayName := "Rollcall" |}];
     channels := fun _ =>
       Some [{| channel_id := "channel-1"; channel_displayName := "Attendance" |}];
     postOk := fun _ _ => true;
     parseDate := fun c => match c with CStr s => Some s | _ => None end;
     mockSubmittedAt := fun _ => "2025-03-14T07:30:00.000Z" |}.

(** The same session when the workbook can be read but refuses every
    write. *)
Definition read_only : Env :=
  {| today := "2025-03-14";
     now := "2025-03-14T08:31:00.000Z";
     getToken := Some "token";
     worksheets := Some [animation_sheet];
     usedRange := fun _ =>
       Some {| values := Some [[CStr "Name"; CStr "2025-03-13"];
                               [CStr "John Smith"; CStr "present"]] |};
     patchOk := fun _ _ => false;
     joinedTeams := Some [{| team_id := "team-1"; team_displayName := "Rollcall" |}];
     channels := fun _ =>
       Some [{| channel_id := "channel-1"; channel_displayName := "Attendance" |}];
     postOk := fun _ _ => true;
     parseDate := fun c => match c with CStr s => Some s | _ => None end;
     mockSubmittedAt := fun _ => "2025-03-14T07:30:00.000Z" |}.

Definition signed_in : World :=
  {| localStorage :=
       {| ls_attendance := ∅; ls_submissions := ∅; ls_mockUser := None |};
     trace := [] |}.

Definition four_departments : list (Env * Department * list Employee) :=
  [(offline, Animation, []); (offline, eLearning, []);
   (offline_later, ADNR, []); (offline_later, XRDevelopment, [])].

Definition john : Employee :=
  {| e_id := "Animation-0"; e_name := "John Smith";
     e_department := Animation; e_status := None |}.

(** A library whose redirect fails and whose popup is then closed. *)
Definition msal_popup_open : AuthService.Msal :=
  {| AuthService.initPromise := true;
     AuthService.reinitialize := true;
     AuthService.handleRedirectPromise := false;
     AuthService.getAllAccounts := [];
     AuthService.acquireTokenSilent := None;
     AuthService.loginRedirect := false;
     AuthService.loginPopup := None |}.

(** The state of the service while a first sign-in waits for its popup. *)
Definition first_flow_in_progress : AuthService.State :=
  {| AuthService.initialized := true;
     AuthService.interactionInProgress := true;
     AuthService.activeAccount := None |}.

(** ** Concrete surroundings of the session and of the page *)

Definition alex : AuthService.AccountInfo :=
  {| AuthService.homeAccountId := "home-1";
     AuthService.username := "alex@example.com" |}.

(** A library that knows one account and answers the silent request. *)
Definition msal_known_account : AuthService.Msal :=
  {| AuthService.initPromise := true;
     AuthService.reinitialize := true;
     AuthService.handleRedirectPromise := false;
     AuthService.getAllAccounts := [alex];
     AuthService.acquireTokenSilent :=
       Some {| AuthService.account := Some alex; AuthService.accessToken := "token-1" |};
     AuthService.loginRedirect := true;
     AuthService.loginPopup := None |}.

(** The service before its first use. *)
Definition not_started : AuthService.State :=
  {| AuthService.initialized := false;
     AuthService.interactionInProgress := false;
     AuthService.activeAccount := None |}.

(** A library without accounts whose redirects and popups all fail. *)
Definition nobody_known : AuthSession.Surroundings :=
  {| AuthSession.msal := msal_popup_open;
     AuthSession.interactionRequired := true;
     AuthSession.acquireTokenRedirect := false;
     AuthSession.acquireTokenPopup := None;
     AuthSession.cacheCleared := String.prefix "msal.";
     AuthSession.accountCleared := true;
     AuthSession.logoutRedirect := false;
     AuthSession.logoutPopup := false;
     AuthSession.dateNow := "1741940000000";
     AuthSession.dateNowAgain := "1741940000001" |}.



(** A session in which nobody has signed in. *)
Definition signed_out : AuthSession.Session :=
  {| AuthSession.service :=
       {| AuthService.initialized := true;
          AuthService.interactionInProgress := false;
          AuthService.activeAccount := None |};
     AuthSession.browser :=
       {| AuthSession.mockAccount := None; AuthSession.items := ∅ |} |}.

(** The page with the form filled in. *)
Definition form_filled : App.Page :=
  {| App.app :=
       {| App.selectedDepartment := None;
          App.isAuthenticated := false;
          App.authenticating := false;
          App.authError := None;
          App.loginInProgress := false;
          App.userInfo := None;
          App.useDirectLogin := true;
          App.email := "alex@example.com";
          App.password := "secret" |};
     App.graph := signed_in;
     App.session := signed_out |}.

(** * Properties *)

(** ** Rounding *)

Section Rounding.

Import Binary64.

Lemma nearest_integer_spec (a b : Z) :
  0 < b ->
  2 * (nearest_integer a b * b) <= 2 * a + b
  /\ 2 * a <= 2 * (nearest_integer a b * b) + b.
Proof.
  intros Hb. unfold nearest_integer.
  pose proof (Z.div_mod a b ltac:(lia)) as Hdiv.
  pose proof (Z.mod_pos_bound a b Hb) as Hmod.
  destruct (Z.compare_spec (2 * (a mod b)) b) as [Heq | Hlt | Hgt];
    [destruct (Z.even (a / b)) |..]; nia.
Qed.

(** The exponent that [div_exponent] finds puts the scaled quotient between
    [2^52] and [2^53]. *)
Lemma div_exponent_spec (a b : Z) :
  0 < a -> 0 < b ->
  let e := div_exponent a b in
  (e <= 0 -> 2 ^ 52 * b <= a * 2 ^ (- e) < 2 ^ 53 * b)
  /\ (0 < e -> 2 ^ 52 * (b * 2 ^ e) <= a < 2 ^ 53 * (b * 2 ^ e)).
Proof.
  intros Ha Hb e. unfold div_exponent in e.
  set (s := Z.log2 b + 1) in *.
  set (t := a * 2 ^ s / b) in *.
  pose proof (Z.log2_nonneg b) as Hlb.
  assert (Hs : 0 <= s) by (unfold s; lia).
  assert (Hbs : b < 2 ^ s).
  { unfold s. replace (Z.log2 b + 1) with (Z.succ (Z.log2 b)) by lia.
    apply Z.log2_spec. exact Hb. }
  assert (Hps : 0 < 2 ^ s) by (apply Z.pow_pos_nonneg; lia).
  assert (Ht : 0 < t).
  { unfold t. apply Z.div_str_pos. nia. }
  pose proof (Z.log2_spec t Ht) as [Hlow Hhigh].
  pose proof (Z.log2_nonneg t) as Hl.
  set (L := Z.log2 t) in *.
  assert (Htb : t * b <= a * 2 ^ s < (t + 1) * b).
  { unfold t. pose proof (Z.div_mod (a * 2 ^ s) b ltac:(lia)).
    pose proof (Z.mod_pos_bound (a * 2 ^ s) b Hb). nia. }
  replace (Z.succ L) with (L + 1) in Hhigh by lia.
  assert (HpL : 0 < 2 ^ L) by (apply Z.pow_pos_nonneg; lia).
  assert (Hbounds : 2 ^ L * b <= a * 2 ^ s < 2 ^ (L + 1) * b) by nia.
  rewrite Z.pow_add_r in Hbounds by lia. change (2 ^ 1) with 2 in Hbounds.
  assert (He : e = L - s - 52) by reflexivity. clearbody e.
  split; intros Hsign.
  - assert (Hexp : - e + L = s + 52) by lia.
    assert (Hpow : 2 ^ (- e) * 2 ^ L = 2 ^ s * 2 ^ 52).
    { rewrite <- !Z.pow_add_r by lia. now rewrite Hexp. }
    assert (Hpe : 0 < 2 ^ (- e)) by (apply Z.pow_pos_nonneg; lia).
    split.
    + apply (Z.mul_le_mono_pos_r _ _ (2 ^ L) HpL). nia.
    + apply (Z.mul_lt_mono_pos_r (2 ^ L) _ _ HpL). nia.
  - assert (Hpow : 2 ^ L = 2 ^ 52 * 2 ^ e * 2 ^ s).
    { rewrite <- !Z.pow_add_r by lia. f_equal. lia. }
    assert (Hpe : 0 < 2 ^ e) by (apply Z.pow_pos_nonneg; lia).
    split.
    + apply (Z.mul_le_mono_pos_r _ _ (2 ^ s) Hps). nia.
    + apply (Z.mul_lt_mono_pos_r (2 ^ s) _ _ Hps). nia.
Qed.

Lemma mantissa_bound (A B m : Z) :
  0 < B ->
  2 ^ 52 * B <= A < 2 ^ 53 * B ->
  2 * (m * B) <= 2 * A + B -> 2 * A <= 2 * (m * B) + B ->
  0 <= m <= 2 ^ 53.
Proof.
  intros HB HA Hup Hdown. split.
  - assert (H : 0 * B < (2 * m + 1) * B) by lia.
    apply Z.mul_lt_mono_pos_r in H; lia.
  - assert (H : 2 * m * B < (2 ^ 54 + 1) * B) by lia.
    apply Z.mul_lt_mono_pos_r in H; lia.
Qed.

(** The mantissa of a rounded quotient has at most 53 bits. *)
Lemma mantissa_div_pos (a b : Z) :
  0 < a -> 0 < b -> 0 <= mantissa (div_pos a b) <= 2 ^ 53.
Proof.
  intros Ha Hb.
  pose proof (div_exponent_spec a b Ha Hb) as [Hneg Hpos].
  unfold div_pos. cbn [mantissa].
  destruct (Z.leb_spec (div_exponent a b) 0) as [He | He].
  - specialize (Hneg He).
    pose proof (nearest_integer_spec (a * 2 ^ (- div_exponent a b)) b Hb) as [Hup Hlow].
    eapply mantissa_bound; eassumption.
  - specialize (Hpos He).
    assert (Hpe : 0 < 2 ^ div_exponent a b) by (apply Z.pow_pos_nonneg; lia).
    assert (HB : 0 < b * 2 ^ div_exponent a b) by nia.
    pose proof (nearest_integer_spec a (b * 2 ^ div_exponent a b) HB) as [Hup Hlow].
    eapply mantissa_bound; eassumption.
Qed.

(** The floor of the rounded quotient is at most one and a half times the
    quotient. *)
Lemma floor_div_bound (a b : Z) :
  0 <= a -> 0 < b ->
  0 <= floor (div a b) /\ 2 * (b * floor (div a b)) <= 3 * a.
Proof.
  intros Ha Hb. unfold div.
  destruct (Z.eqb_spec a 0) as [-> | Hne].
  { change (floor {| mantissa := 0; exponent := 0 |}) with 0. lia. }
  assert (Hpos : 0 < a) by lia.
  destruct (Z.ltb_spec 0 a) as [_ | Hbad]; [| lia].
  pose proof (div_exponent_spec a b Hpos Hb) as [Hle Hgt].
  pose proof (mantissa_div_pos a b Hpos Hb) as Hm.
  unfold floor. unfold div_pos in *. cbn [mantissa exponent] in *.
  set (e := div_exponent a b) in *.
  destruct (Z.leb_spec e 0) as [He | He].
  - specialize (Hle He).
    assert (Hp : 0 < 2 ^ (- e)) by (apply Z.pow_pos_nonneg; lia).
    pose proof (nearest_integer_spec (a * 2 ^ (- e)) b Hb) as [Hup _].
    set (m := nearest_integer (a * 2 ^ (- e)) b) in *.
    assert (Hf : exists f, (if 0 <=? e then m * 2 ^ e else m / 2 ^ (- e)) = f
                           /\ 0 <= f /\ f * 2 ^ (- e) <= m).
    { destruct (Z.leb_spec 0 e) as [He0 | He0].
      - assert (e = 0) as -> by lia. exists m. cbn. lia.
      - exists (m / 2 ^ (- e)). split; [reflexivity |]. split.
        + apply Z.div_pos; lia.
        + rewrite Z.mul_comm. apply Z.mul_div_le. exact Hp. }
    destruct Hf as (f & -> & Hf0 & Hfm). split; [exact Hf0 |].
    apply (Z.mul_le_mono_pos_r _ _ (2 ^ (- e)) Hp). nia.
  - specialize (Hgt He).
    assert (Hp : 0 < 2 ^ e) by (apply Z.pow_pos_nonneg; lia).
    pose proof (nearest_integer_spec a (b * 2 ^ e) ltac:(nia)) as [Hup _].
    destruct (Z.leb_spec 0 e) as [_ | Hbad]; [| lia].
    set (m := nearest_integer a (b * 2 ^ e)) in *.
    split; nia.
Qed.

(** Integers of at most 53 bits are binary64 numbers. *)
Lemma of_Z_small (z : Z) : Z.abs z < 2 ^ 53 -> of_Z z = z.
Proof.
  intros Hz. unfold of_Z.
  destruct (Z.eq_dec z 0) as [-> | Hne]; [reflexivity |].
  assert (Z.log2 (Z.abs z) < 53) by (apply Z.log2_lt_pow2; lia).
  destruct (Z.leb_spec (Z.log2 (Z.abs z) - 52) 0); [reflexivity | lia].
Qed.

Lemma of_Z_bound (z : Z) : 0 <= z -> 0 <= of_Z z /\ 2 * of_Z z <= 3 * z.
Proof.
  intros Hz. unfold of_Z.
  destruct (Z.leb_spec (Z.log2 (Z.abs z) - 52) 0) as [He | He]; [lia |].
  rewrite Z.abs_eq in * by exact Hz.
  assert (Hpos : 0 < z).
  { destruct (Z.eq_dec z 0) as [-> | ]; [| lia].
    change (Z.log2 0) with 0 in He. lia. }
  set (e := Z.log2 z - 52) in *.
  rewrite Z.sgn_pos by exact Hpos.
  assert (Hp : 0 < 2 ^ e) by (apply Z.pow_pos_nonneg; lia).
  pose proof (Z.log2_spec z Hpos) as [Hlow _].
  assert (Hle : 2 ^ e <= 2 ^ Z.log2 z) by (apply Z.pow_le_mono_r; lia).
  pose proof (nearest_integer_spec z (2 ^ e) Hp) as [Hup Hdown].
  nia.
Qed.

Lemma div_exponent_small (n : Z) :
  0 < n < 2 ^ 53 -> div_exponent n 26 <= -4.
Proof.
  intros Hn. unfold div_exponent.
  change (Z.log2 26 + 1) with 5. change (2 ^ 5) with 32.
  assert (Ht : 0 < n * 32 / 26) by (apply Z.div_str_pos; lia).
  assert (n * 32 / 26 < 2 ^ 54).
  { apply Z.div_lt_upper_bound; lia. }
  assert (Z.log2 (n * 32 / 26) < 54) by (apply Z.log2_lt_pow2; assumption).
  lia.
Qed.

(** Below [2^53] rounding the quotient does not change its floor. *)
Lemma floor_div_exact (n : Z) :
  0 <= n < 2 ^ 53 -> floor (div n 26) = n / 26.
Proof.
  intros Hn. unfold div.
  destruct (Z.eqb_spec n 0) as [-> | Hne]; [reflexivity |].
  destruct (Z.ltb_spec 0 n) as [Hpos | Hbad]; [| lia].
  pose proof (div_exponent_small n ltac:(lia)) as He.
  unfold floor, div_pos. cbn [mantissa exponent].
  set (e := div_exponent n 26) in *.
  destruct (Z.leb_spec e 0) as [_ | Hbad]; [| lia].
  destruct (Z.leb_spec 0 e) as [Hbad | _]; [lia |].
  assert (Hp : 2 ^ 4 <= 2 ^ (- e)) by (apply Z.pow_le_mono_r; lia).
  change (2 ^ 4) with 16 in Hp.
  set (P := 2 ^ (- e)) in *.
  pose proof (nearest_integer_spec (n * P) 26 ltac:(lia)) as [Hup Hdown].
  set (m := nearest_integer (n * P) 26) in *.
  pose proof (Z.div_mod n 26 ltac:(lia)) as Hdiv.
  pose proof (Z.mod_pos_bound n 26 ltac:(lia)) as Hmod.
  set (k := n / 26) in *. set (r := n mod 26) in *.
  symmetry. apply (Z.div_unique m P k (m - P * k)); [| lia].
  left. nia.
Qed.

End Rounding.

(** ** The column letter *)

Section ColumnLetter.

Lemma columnLetter_loop_neg columnIndex columnLetter :
  columnIndex < 0 -> columnLetter_loop columnIndex columnLetter = columnLetter.
Proof.
  intros H. rewrite columnLetter_loop_equation_1.
  destruct (Z_lt_le_dec columnIndex 0); [reflexivity | lia].
Qed.

Lemma columnLetter_loop_nonneg columnIndex columnLetter :
  0 <= columnIndex ->
  columnLetter_loop columnIndex columnLetter =
  columnLetter_loop (Binary64.sub (Binary64.floor (Binary64.div columnIndex 26)) 1)
    (String (fromCharCode (65 + columnIndex mod 26)) columnLetter).
Proof.
  intros H. rewrite columnLetter_loop_equation_1.
  destruct (Z_lt_le_dec columnIndex 0); [lia | reflexivity].
Qed.

(** What an iteration leaves of the index: at least [-1], and less than half
    of it, whatever the rounding. *)
Lemma next_index_bound columnIndex :
  0 <= columnIndex ->
  -1 <= Binary64.sub (Binary64.floor (Binary64.div columnIndex 26)) 1
  /\ 2 * (2 * Binary64.sub (Binary64.floor (Binary64.div columnIndex 26)) 1 + 3)
     <= 2 * columnIndex + 3.
Proof.
  intros Hn. unfold Binary64.sub.
  pose proof (floor_div_bound columnIndex 26 Hn ltac:(lia)) as [Hf0 Hf].
  set (f := Binary64.floor (Binary64.div columnIndex 26)) in *. clearbody f.
  destruct (Z.eq_dec f 0) as [-> | Hne].
  - change (Binary64.of_Z (0 - 1)) with (-1). lia.
  - pose proof (of_Z_bound (f - 1) ltac:(lia)). lia.
Qed.

Lemma index_decreases columnIndex :
  0 <= columnIndex ->
  -1 <= Binary64.sub (Binary64.floor (Binary64.div columnIndex 26)) 1 < columnIndex.
Proof. intros H. pose proof (next_index_bound columnIndex H). lia. Qed.

(** Below [2^53] the arithmetic of the loop is exact. *)
Lemma next_index_exact columnIndex :
  0 <= columnIndex < 2 ^ 53 ->
  Binary64.sub (Binary64.floor (Binary64.div columnIndex 26)) 1 = columnIndex / 26 - 1.
Proof.
  intros Hn. unfold Binary64.sub. rewrite floor_div_exact by exact Hn.
  apply of_Z_small.
  pose proof (Z.div_pos columnIndex 26 ltac:(lia) ltac:(lia)).
  assert (columnIndex / 26 <= columnIndex) by (apply Z.div_le_upper_bound; lia).
  lia.
Qed.

(** Induction on the index along the iterations of the loop. *)
Lemma index_ind (P : Z -> Prop) :
  (forall i, i < 0 -> P i) ->
  (forall i, 0 <= i ->
             P (Binary64.sub (Binary64.floor (Binary64.div i 26)) 1) -> P i) ->
  forall i, P i.
Proof.
  intros Hneg Hstep i.
  destruct (Z_lt_le_dec i 0) as [Hi | Hi]; [auto |].
  revert i Hi. apply (Z_lt_induction P).
  intros x IH. destruct (Z_lt_le_dec x 0) as [Hx | Hx]; [auto |].
  apply Hstep; [assumption |].
  pose proof (index_decreases x Hx).
  destruct (Z_lt_le_dec (Binary64.sub (Binary64.floor (Binary64.div x 26)) 1) 0);
    [auto |].
  apply IH. lia.
Qed.

Lemma append_cons c (s t : string) : String c s +:+ t = String c (s +:+ t).
Proof. reflexivity. Qed.

Lemma append_assoc (s t u : string) : (s +:+ t) +:+ u = s +:+ (t +:+ u).
Proof.
  induction s as [| c s IH]; [reflexivity |].
  rewrite !append_cons. now rewrite IH.
Qed.

(** The accumulator is a suffix of the result. *)
Lemma columnLetter_loop_app columnIndex :
  forall columnLetter,
    columnLetter_loop columnIndex columnLetter =
    getExcelColumnLetter columnIndex +:+ columnLetter.
Proof.
  unfold getExcelColumnLetter.
  pattern columnIndex. apply index_ind; clear columnIndex.
  - intros i Hi acc. rewrite !columnLetter_loop_neg by assumption. reflexivity.
  - intros i Hi IH acc.
    rewrite (columnLetter_loop_nonneg i acc), (columnLetter_loop_nonneg i "") by assumption.
    rewrite IH. rewrite (IH (String _ "")).
    rewrite append_assoc. reflexivity.
Qed.

Lemma getExcelColumnLetter_neg columnIndex :
  columnIndex < 0 -> getExcelColumnLetter columnIndex = "".
Proof. apply columnLetter_loop_neg. Qed.

(** The name of an index is the name of the next index followed by the
    letter of the remainder. *)
Lemma getExcelColumnLetter_step columnIndex :
  0 <= columnIndex ->
  getExcelColumnLetter columnIndex =
  getExcelColumnLetter (Binary64.sub (Binary64.floor (Binary64.div columnIndex 26)) 1)
  +:+ String (fromCharCode (65 + columnIndex mod 26)) "".
Proof.
  intros H. unfold getExcelColumnLetter at 1.
  rewrite columnLetter_loop_nonneg by assumption.
  apply columnLetter_loop_app.
Qed.

(** Below [2^53]: the name of the quotient followed by the letter of the
    remainder. *)
Lemma getExcelColumnLetter_nonneg columnIndex :
  0 <= columnIndex < 2 ^ 53 ->
  getExcelColumnLetter columnIndex =
  getExcelColumnLetter (columnIndex / 26 - 1)
  +:+ String (fromCharCode (65 + columnIndex mod 26)) "".
Proof.
  intros H. rewrite getExcelColumnLetter_step by lia.
  now rewrite next_index_exact.
Qed.

Lemma list_ascii_app (s t : string) :
  list_ascii_of_string (s +:+ t) = list_ascii_of_string s ++ list_ascii_of_string t.
Proof.
  induction s as [| c s IH]; [reflexivity |].
  rewrite append_cons. simpl. now rewrite IH.
Qed.

Lemma column_number_snoc (s : string) (c : ascii) :
  column_number (s +:+ String c "") = column_number s * 26 + letter_digit c.
Proof.
  unfold column_number. rewrite list_ascii_app, fold_left_app. reflexivity.
Qed.

Lemma digit_of_remainder r :
  0 <= r < 26 ->
  letter_digit (fromCharCode (65 + r)) = r + 1 /\
  is_capital (fromCharCode (65 + r)) = true.
Proof.
  intros Hr. unfold letter_digit, is_capital, fromCharCode.
  rewrite nat_ascii_embedding by lia.
  rewrite Z2Nat.id by lia. split; [lia |].
  apply andb_true_iff. split; apply Z.leb_le; lia.
Qed.

Lemma column_number_of_index columnIndex :
  0 <= columnIndex < 2 ^ 53 ->
  column_number (getExcelColumnLetter columnIndex) = columnIndex + 1.
Proof.
  intros [Hlow Hhigh]. revert Hhigh. pattern columnIndex.
  apply Zlt_0_ind; [| exact Hlow]. clear columnIndex Hlow.
  intros i IH Hi Hbound.
  rewrite getExcelColumnLetter_nonneg, column_number_snoc by lia.
  assert (Hr : 0 <= i mod 26 < 26) by (apply Z.mod_pos_bound; lia).
  destruct (digit_of_remainder _ Hr) as [-> _].
  pose proof (Z.div_mod i 26 ltac:(lia)) as Hdm.
  assert (0 <= i / 26) by (apply Z.div_pos; lia).
  assert (i / 26 <= i) by (apply Z.div_le_upper_bound; lia).
  destruct (Z_lt_le_dec (i / 26 - 1) 0) as [Hq | Hq].
  - rewrite getExcelColumnLetter_neg by assumption.
    unfold column_number. simpl. lia.
  - rewrite IH by lia. lia.
Qed.

Lemma capitals_of_index columnIndex :
  forallb is_capital (list_ascii_of_string (getExcelColumnLetter columnIndex)) = true.
Proof.
  pattern columnIndex. apply index_ind; clear columnIndex.
  - intros i Hi. rewrite getExcelColumnLetter_neg by assumption. reflexivity.
  - intros i Hi IH.
    rewrite getExcelColumnLetter_step, list_ascii_app, forallb_app, IH by assumption.
    assert (Hr : 0 <= i mod 26 < 26) by (apply Z.mod_pos_bound; lia).
    destruct (digit_of_remainder _ Hr) as [_ Hc]. simpl. now rewrite Hc.
Qed.

Lemma name_of_index_nonempty columnIndex :
  0 <= columnIndex -> getExcelColumnLetter columnIndex <> "".
Proof.
  intros Hi. rewrite getExcelColumnLetter_step by assumption.
  destruct (getExcelColumnLetter _); discriminate.
Qed.

Lemma string_of_list_snoc (l : list ascii) (c : ascii) :
  string_of_list_ascii (l ++ [c]) = string_of_list_ascii l +:+ String c "".
Proof.
  induction l as [| a l IH]; [reflexivity |].
  simpl. rewrite append_cons. now rewrite IH.
Qed.

Lemma column_number_nonneg (l : list ascii) :
  forallb is_capital l = true ->
  0 <= fold_left (fun acc c => acc * 26 + letter_digit c) l 0.
Proof.
  induction l as [| c l IH] using rev_ind; [simpl; lia |].
  rewrite forallb_app, fold_left_app. simpl.
  intros [Hl [Hc _]%andb_true_iff]%andb_true_iff.
  specialize (IH Hl). unfold is_capital in Hc.
  apply andb_true_iff in Hc as [H1%Z.leb_le H2%Z.leb_le].
  assert (1 <= letter_digit c) by (unfold letter_digit; lia).
  lia.
Qed.

(** Every word of capital letters whose number is at most [2^53] is the
    name of the index one below its number. *)
Lemma index_of_column_number (l : list ascii) :
  forallb is_capital l = true ->
  column_number (string_of_list_ascii l) <= 2 ^ 53 ->
  getExcelColumnLetter (column_number (string_of_list_ascii l) - 1) =
  string_of_list_ascii l.
Proof.
  unfold column_number. rewrite list_ascii_of_string_of_list_ascii.
  induction l as [| c l IH] using rev_ind; [reflexivity |].
  rewrite forallb_app, fold_left_app. simpl.
  intros [Hl [Hc _]%andb_true_iff]%andb_true_iff Hbound.
  pose proof (column_number_nonneg l Hl) as Hn.
  unfold is_capital in Hc.
  apply andb_true_iff in Hc as [H1%Z.leb_le H2%Z.leb_le].
  unfold letter_digit in *.
  specialize (IH Hl ltac:(lia)).
  set (n := fold_left (fun acc c => acc * 26 + (Z.of_nat (nat_of_ascii c) - 64)) l 0) in *.
  set (k := Z.of_nat (nat_of_ascii c)) in *.
  assert (Hq : (n * 26 + (k - 64) - 1) / 26 = n).
  { symmetry. apply (Z.div_unique _ 26 n (k - 65)); lia. }
  assert (Hm : (n * 26 + (k - 64) - 1) mod 26 = k - 65).
  { symmetry. apply (Z.mod_unique _ 26 n (k - 65)); lia. }
  rewrite getExcelColumnLetter_nonneg by lia.
  rewrite Hq, Hm, IH, string_of_list_snoc.
  replace (65 + (k - 65)) with k by lia.
  unfold fromCharCode, k. now rewrite Nat2Z.id, ascii_nat_embedding.
Qed.

(** The loop exits within as many iterations as [2 * columnIndex + 3] has
    binary digits after the first (none for a negative index) and returns
    the value of [columnLetter_loop]. *)
Lemma columnLetter_run_exits columnIndex :
  forall (fuel : nat) (columnLetter : string),
    (Z.to_nat (Z.log2 (2 * columnIndex + 3)) <= fuel)%nat ->
    columnLetter_run fuel (columnIndex, columnLetter) =
    Some (columnLetter_loop columnIndex columnLetter).
Proof.
  pattern columnIndex. apply index_ind; clear columnIndex.
  - intros i Hi fuel acc _.
    rewrite columnLetter_loop_neg by assumption.
    destruct fuel; simpl; destruct (Z.leb_spec 0 i); try lia; reflexivity.
  - intros i Hi IH fuel acc Hfuel.
    rewrite columnLetter_loop_nonneg by assumption.
    pose proof (next_index_bound i Hi) as [Hlow Hup].
    apply Z.log2_le_mono in Hup. rewrite Z.log2_double in Hup by lia.
    pose proof (Z.log2_nonneg
                  (2 * Binary64.sub (Binary64.floor (Binary64.div i 26)) 1 + 3)).
    destruct fuel as [| fuel]; [lia |].
    simpl. destruct (Z.leb_spec 0 i); [| lia].
    apply IH. lia.
Qed.

End ColumnLetter.

(** At [2^55] the quotient by 26 is rounded up across an integer: the letters
    are not those of the index. *)
Lemma column_letter_is_rounded_at_2_55 :
  0 <= 2 ^ 55
  /\ Binary64.of_Z (2 ^ 55) = 2 ^ 55
  /\ getExcelColumnLetter (2 ^ 55) = "IUESHZICGSSY"
  /\ is_column_name "IUESHZICGSSY"
  /\ column_number (getExcelColumnLetter (2 ^ 55)) <> 2 ^ 55 + 1.
Proof.
  split; [lia |]. split; [reflexivity |].
  assert (H : getExcelColumnLetter (2 ^ 55) = "IUESHZICGSSY") by (vm_compute; reflexivity).
  split; [exact H |]. split; [split; [discriminate | reflexivity] |].
  rewrite H. vm_compute. discriminate.
Qed.

(** C5 (amended). [getExcelColumnLetter] names the columns as a spreadsheet
    does: index 0 is A, 25 is Z, 26 is AA, 27 is AB, 701 is ZZ; for every
    non-negative index below [2^53] the result is a word of capital letters
    whose number in bijective base 26 is the index plus one, and every such
    word whose number is at most [2^53] is the name of exactly the index one
    below its number. *)
Theorem column_letter_is_bijective_base26 :
  getExcelColumnLetter 0 = "A" /\
  getExcelColumnLetter 25 = "Z" /\
  getExcelColumnLetter 26 = "AA" /\
  getExcelColumnLetter 27 = "AB" /\
  getExcelColumnLetter 701 = "ZZ" /\
  (forall columnIndex : Z,
      0 <= columnIndex < 2 ^ 53 ->
      is_column_name (getExcelColumnLetter columnIndex) /\
      column_number (getExcelColumnLetter columnIndex) = columnIndex + 1) /\
  (forall name : string,
      is_column_name name ->
      column_number name <= 2 ^ 53 ->
      0 <= column_number name - 1 < 2 ^ 53 /\
      getExcelColumnLetter (column_number name - 1) = name).
Proof.
  repeat (split; [reflexivity |]).
  split.
  - intros i Hi. split; [split |].
    + apply name_of_index_nonempty. lia.
    + apply capitals_of_index.
    + now apply column_number_of_index.
  - intros name [Hne Hcap] Hbound.
    pose proof (index_of_column_number (list_ascii_of_string name) Hcap) as H.
    rewrite string_of_list_ascii_of_string in H. specialize (H Hbound).
    split; [| exact H].
    destruct (Z_lt_le_dec (column_number name - 1) 0) as [Hneg | Hpos]; [| lia].
    rewrite getExcelColumnLetter_neg in H by assumption. congruence.
Qed.

Lemma column_letter_is_bijective_base26_witness :
  (0 <= 701 < 2 ^ 53 /\ column_number (getExcelColumnLetter 701) = 701 + 1) /\
  (is_column_name "ZZ" /\ column_number "ZZ" <= 2 ^ 53
   /\ getExcelColumnLetter (column_number "ZZ" - 1) = "ZZ").
Proof.
  split.
  - split; [lia |].
    apply (proj1 (proj2 (proj2 (proj2 (proj2 (proj2 column_letter_is_bijective_base26))))) 701).
    lia.
  - assert (Hname : is_column_name "ZZ") by (split; [discriminate | reflexivity]).
    assert (Hbound : column_number "ZZ" <= 2 ^ 53) by (vm_compute; discriminate).
    split; [exact Hname |]. split; [exact Hbound |].
    apply (proj2 (proj2 (proj2 (proj2 (proj2 (proj2 column_letter_is_bijective_base26))))) "ZZ");
      assumption.
Defined.

(** C10. The loop of [getExcelColumnLetter] terminates on every integer: run
    for as many iterations as [2 * columnIndex + 3] has binary digits after
    the first (none when the index is negative) it has exited and returned
    the function's value; an iteration replaces the index by the number that
    [Math.floor(columnIndex / 26) - 1] computes, which is strictly smaller,
    and which below [2^53] is the integer [columnIndex / 26 - 1]; and the
    result for a negative index is the empty string. *)
Theorem column_letter_terminates (columnIndex : Z) :
  columnLetter_run (Z.to_nat (Z.log2 (2 * columnIndex + 3))) (columnIndex, "") =
    Some (getExcelColumnLetter columnIndex) /\
  (forall columnLetter next,
      columnLetter_step (columnIndex, columnLetter) = Some next ->
      fst next = Binary64.sub (Binary64.floor (Binary64.div columnIndex 26)) 1
      /\ fst next < columnIndex
      /\ (columnIndex < 2 ^ 53 -> fst next = columnIndex / 26 - 1)) /\
  (columnIndex < 0 -> getExcelColumnLetter columnIndex = "").
Proof.
  split; [| split].
  - apply columnLetter_run_exits. lia.
  - intros acc next. unfold columnLetter_step.
    destruct (Z.leb_spec 0 columnIndex) as [Hi | Hi]; [| discriminate].
    intros [= <-]. simpl. split; [reflexivity |].
    split; [apply (index_decreases columnIndex Hi) |].
    intros Hbound. apply next_index_exact. lia.
  - apply getExcelColumnLetter_neg.
Qed.

Lemma column_letter_terminates_witness :
  (columnLetter_step (27, "") = Some (0, "B") /\ 0 < 27 /\ 0 = 27 / 26 - 1) /\
  (columnLetter_step (2 ^ 55, "") = Some (1385722962267844, "Y")
   /\ 1385722962267844 < 2 ^ 55) /\
  (-5 < 0 /\ getExcelColumnLetter (-5) = "").
Proof.
  split; [| split].
  - split; [reflexivity |].
    destruct (proj1 (proj2 (column_letter_terminates 27)) "" (0, "B") eq_refl)
      as (_ & Hlt & Hexact).
    split; [exact Hlt | apply Hexact; lia].
  - assert (Hstep : columnLetter_step (2 ^ 55, "") = Some (1385722962267844, "Y"))
      by (vm_compute; reflexivity).
    split; [exact Hstep |].
    apply (proj1 (proj2 (column_letter_terminates (2 ^ 55))) "" _ Hstep).
  - split; [lia |]. apply (proj2 (proj2 (column_letter_terminates (-5)))). lia.
Defined.

(** ** Sign-in *)

Section SignIn.

Import AuthService.

Variable msal : Msal.

Lemma ensureInitialized_ready st :
  initialized st = true -> ensureInitialized msal st = (Ok tt, st).
Proof. intros H. unfold ensureInitialized, bind, get. now rewrite H. Qed.

(** Whatever the library answers, a sign-in that has to go interactive
    reaches its first interactive [await] with the flag set. *)
Lemma login_suspends_with_flag st st' :
  login_until_interaction msal st = (Ok NeedsInteraction, st') ->
  interactionInProgress st' = true.
Proof.
  unfold login_until_interaction, try_catch, bind.
  destruct (login_silent msal st) as [[[response |] | e] st1]; simpl.
  - intros [= ]. 
  - intros [= <-]. reflexivity.
  - unfold login_catch, bind, modify, throw. intros [= ].
Qed.

(** [login] is its run up to the interactive [await] followed by the
    interactive part under the same outer [catch]. *)
Lemma login_resumes st :
  login msal st =
  match login_until_interaction msal st with
  | (Ok (Silent response), st') => (Ok (Some response), st')
  | (Ok NeedsInteraction, st') => try_catch (login_interactive msal) login_catch st'
  | (Throw e, st') => (Throw e, st')
  end.
Proof.
  unfold login, login_until_interaction, try_catch, bind.
  destruct (login_silent msal st) as [[[response |] | e] st1]; reflexivity.
Qed.

(** The guard passes when the flag is clear: the sign-in goes interactive
    (or ends silently), it is not refused. *)
Lemma login_guard_passes st :
  initialized st = true ->
  interactionInProgress st = false ->
  fst (login_until_interaction msal st) <> Throw InteractionConflict.
Proof.
  intros Hinit Hflag.
  unfold login_until_interaction, login_silent, try_catch, bind, get.
  rewrite (ensureInitialized_ready st Hinit). rewrite Hflag.
  destruct (getAllAccounts msal) as [| a accounts]; simpl; [discriminate |].
  destruct (acquireTokenSilent msal); simpl; discriminate.
Qed.

End SignIn.

(** C8. A sign-in attempted while the interaction flag is set is refused at
    once with [InteractionConflict]; the refusal passes through the outer
    [catch] of [login], which clears the flag: the state it leaves is the
    state it found with [interactionInProgress] false, so the flag of the
    flow still in progress does not remain set. *)
Theorem second_login_is_refused_and_clears_flag
    (msal : AuthService.Msal) (st : AuthService.State) :
  AuthService.initialized st = true ->
  AuthService.interactionInProgress st = true ->
  AuthService.login msal st =
    (Throw AuthService.InteractionConflict,
     AuthService.set_interactionInProgress false st)
  /\ AuthService.isInteractionInProgress (snd (AuthService.login msal st)) = false.
Proof.
  intros Hinit Hflag.
  assert (H : AuthService.login msal st =
              (Throw AuthService.InteractionConflict,
               AuthService.set_interactionInProgress false st)).
  { unfold AuthService.login, AuthService.login_silent, try_catch, bind, get.
    rewrite (ensureInitialized_ready msal st Hinit). rewrite Hflag.
    reflexivity. }
  split; [exact H |]. rewrite H. reflexivity.
Qed.

Example first_flow_in_progress_reached :
  AuthService.login_until_interaction msal_popup_open
    {| AuthService.initialized := false;
       AuthService.interactionInProgress := false;
       AuthService.activeAccount := None |}
  = (Ok AuthService.NeedsInteraction, first_flow_in_progress).
Proof. reflexivity. Qed.

Lemma second_login_is_refused_and_clears_flag_witness :
  AuthService.login msal_popup_open first_flow_in_progress =
    (Throw AuthService.InteractionConflict,
     AuthService.set_interactionInProgress false first_flow_in_progress)
  /\ AuthService.isInteractionInProgress
       (snd (AuthService.login msal_popup_open first_flow_in_progress)) = false.
Proof.
  apply (second_login_is_refused_and_clears_flag msal_popup_open first_flow_in_progress);
    reflexivity.
Defined.

(** After the refused second attempt a third one is let through while the
    first flow is still waiting: two interactive flows are then in progress. *)
Example third_login_starts_second_interaction :
  let after_second := snd (AuthService.login msal_popup_open first_flow_in_progress) in
  AuthService.login_until_interaction msal_popup_open after_second
  = (Ok AuthService.NeedsInteraction, first_flow_in_progress).
Proof. reflexivity. Qed.

Section Frames.

(** A relation between the world before and after a step that holds across
    no step at all, composes, and holds across every logged line and
    accepted request. *)
Variable R : World -> World -> Prop.
Hypothesis R_refl : forall w, R w w.
Hypothesis R_trans : forall a b c, R a b -> R b c -> R a c.
Hypothesis R_emit : forall e w, is_attempt e = false -> R w (emit e w).

Lemma keeps_ret {A} (a : A) : keeps R (ret a).
Proof. intros w. apply R_refl. Qed.

Lemma keeps_throw {A} (e : exn) : keeps R (@throw World A e).
Proof. intros w. apply R_refl. Qed.

Lemma keeps_get : keeps R (@get World).
Proof. intros w. apply R_refl. Qed.

Lemma keeps_bind {A B} (m : M World A) (k : A -> M World B) :
  keeps R m -> (forall a, keeps R (k a)) -> keeps R (bind m k).
Proof.
  intros Hm Hk w. unfold bind. specialize (Hm w).
  destruct (m w) as [[a | e] w1]; simpl in *; [| assumption].
  eapply R_trans; [exact Hm | apply Hk].
Qed.

Lemma keeps_try_catch {A} (m : M World A) (h : exn -> M World A) :
  keeps R m -> (forall e, keeps R (h e)) -> keeps R (try_catch m h).
Proof.
  intros Hm Hh w. unfold try_catch. specialize (Hm w).
  destruct (m w) as [[a | e] w1]; simpl in *; [assumption |].
  eapply R_trans; [exact Hm | apply Hh].
Qed.

Lemma keeps_for_of {A} (xs : list A) (body : A -> M World unit) :
  (forall x, keeps R (body x)) -> keeps R (for_of xs body).
Proof.
  intros Hbody. induction xs as [| x xs IH]; simpl.
  - apply keeps_ret.
  - apply keeps_bind; [apply Hbody | intros _; exact IH].
Qed.

Lemma keeps_console_error message : keeps R (console_error message).
Proof. intros w. apply R_emit. reflexivity. Qed.

Variable env : Env.

Lemma keeps_api_get {A} client path (response : option A) :
  keeps R (api_get client path response).
Proof.
  unfold api_get. destruct client; [destruct response |];
    auto using @keeps_ret, @keeps_throw.
Qed.

Lemma keeps_api_patch client worksheetId address value :
  keeps R (api_patch env client worksheetId address value).
Proof.
  unfold api_patch. destruct client; [| apply keeps_throw].
  destruct (patchOk env worksheetId address); [| apply keeps_throw].
  intros w. apply R_emit. reflexivity.
Qed.

Lemma keeps_api_post client teamId channelId content :
  keeps R (api_post env client teamId channelId content).
Proof.
  unfold api_post. destruct client; [| apply keeps_throw].
  destruct (postOk env teamId channelId); [| apply keeps_throw].
  intros w. apply R_emit. reflexivity.
Qed.

Ltac keeps_step :=
  first
    [ apply keeps_ret | apply keeps_throw | apply keeps_get
    | apply keeps_console_error | apply keeps_api_get
    | apply keeps_api_patch | apply keeps_api_post
    | apply keeps_bind; [| intros ?]
    | apply keeps_try_catch; [| intros ?]
    | apply keeps_for_of; intros ?
    | match goal with
      | |- keeps _ (match ?x with _ => _ end) => destruct x
      end ].

Ltac keeps_all := cbv zeta; repeat keeps_step.

Lemma keeps_getAuthenticatedClient : keeps R (getAuthenticatedClient env).
Proof. unfold getAuthenticatedClient. keeps_all. Qed.

Lemma keeps_getExcelFileId : keeps R getExcelFileId.
Proof. unfold getExcelFileId. keeps_all. Qed.

Lemma keeps_getTeamId : keeps R (getTeamId env).
Proof.
  unfold getTeamId. apply keeps_try_catch; [| intros ?; keeps_all].
  apply keeps_bind; [apply keeps_getAuthenticatedClient | intros ?]. keeps_all.
Qed.

Lemma keeps_getChannelId teamId : keeps R (getChannelId env teamId).
Proof.
  unfold getChannelId. apply keeps_try_catch; [| intros ?; keeps_all].
  apply keeps_bind; [apply keeps_getAuthenticatedClient | intros ?]. keeps_all.
Qed.

Lemma keeps_todayColumn client worksheetId range :
  keeps R (todayColumn env client worksheetId range).
Proof. unfold todayColumn. keeps_all. Qed.

Lemma keeps_writeEmployee client worksheetId rows todayColumnIndex employee :
  keeps R (writeEmployee env client worksheetId rows todayColumnIndex employee).
Proof. unfold writeEmployee. keeps_all. Qed.

Lemma keeps_submitToExcel department employees :
  keeps R (submitToExcel env department employees).
Proof.
  unfold submitToExcel.
  apply keeps_bind; [apply keeps_getAuthenticatedClient | intros client].
  apply keeps_bind; [apply keeps_getExcelFileId | intros fileId].
  apply keeps_bind; [apply keeps_api_get | intros sheets].
  destruct (worksheet_for department sheets) as [worksheet |]; [| apply keeps_throw].
  apply keeps_bind; [apply keeps_api_get | intros range].
  apply keeps_bind; [apply keeps_todayColumn | intros todayColumnIndex].
  destruct (values range) as [rows |]; [| apply keeps_throw].
  apply keeps_bind; [| intros _; keeps_all].
  apply keeps_for_of. intros employee. apply keeps_writeEmployee.
Qed.

Lemma keeps_submissions_from_excel client departments :
  keeps R (submissions_from_excel env client departments).
Proof.
  induction departments as [| department rest IH]; simpl; [apply keeps_ret |].
  apply keeps_bind; [apply keeps_api_get | intros sheets].
  destruct (worksheet_for department sheets) as [worksheet |].
  - apply keeps_bind; [apply keeps_api_get | intros range].
    apply keeps_bind; [exact IH | intros more; apply keeps_ret].
  - apply keeps_bind; [exact IH | intros more; apply keeps_ret].
Qed.

Lemma keeps_submissions_from_storage : keeps R (submissions_from_storage env).
Proof. unfold submissions_from_storage. keeps_all. Qed.

Lemma keeps_collect_employees departmentSubmissions :
  forall allEmployees,
    keeps R (collect_employees env departmentSubmissions allEmployees).
Proof.
  induction departmentSubmissions as [| submission rest IH]; intros allEmployees; simpl.
  - apply keeps_ret.
  - destruct (s_submitted submission); [| apply IH].
    apply keeps_bind; [apply keeps_get | intros w].
    destruct (ls_attendance (localStorage w) !! _) as [[| | employees] |];
      try apply IH;
      (apply keeps_bind; [apply keeps_console_error | intros _; apply IH]).
Qed.

(** The inner [try] block of [sendAttendanceSummaryToTeams]. *)
Lemma keeps_send_to_teams departmentSubmissions :
  keeps R (client <- getAuthenticatedClient env ;;
         teamId <- getTeamId env ;;
         channelId <- getChannelId env teamId ;;
         allEmployees <- collect_employees env departmentSubmissions [] ;;
         api_post env client teamId channelId (summary_message env allEmployees)).
Proof.
  apply keeps_bind; [apply keeps_getAuthenticatedClient | intros client].
  apply keeps_bind; [apply keeps_getTeamId | intros teamId].
  apply keeps_bind; [apply keeps_getChannelId | intros channelId].
  apply keeps_bind; [apply keeps_collect_employees | intros allEmployees].
  apply keeps_api_post.
Qed.

End Frames.

(** ** Submitting attendance *)

Section Submission.

Lemma unchanged_refl w : unchanged w w.
Proof. split; reflexivity. Qed.

Lemma unchanged_trans a b c : unchanged a b -> unchanged b c -> unchanged a c.
Proof. intros [H1 H2] [H3 H4]. split; congruence. Qed.

Lemma attempts_app t u : attempts (t ++ u) = (attempts t + attempts u)%nat.
Proof. unfold attempts. now rewrite List.filter_app, length_app. Qed.

Lemma unchanged_emit e w : is_attempt e = false -> unchanged w (emit e w).
Proof.
  intros He. split; [reflexivity |]. simpl. rewrite attempts_app.
  unfold attempts at 2. simpl. rewrite He. simpl. lia.
Qed.

Lemma grows_refl w : grows w w.
Proof. exists []. now rewrite app_nil_r. Qed.

Lemma grows_trans a b c : grows a b -> grows b c -> grows a c.
Proof.
  intros [t Ht] [u Hu]. exists (t ++ u). rewrite Hu, Ht. now rewrite <- app_assoc.
Qed.

Lemma grows_emit e w : grows w (emit e w).
Proof. exists [e]. reflexivity. Qed.

Lemma grows_In e w w' : grows w w' -> In e (trace w) -> In e (trace w').
Proof. intros [t ->] H. apply in_or_app. now left. Qed.

Variable env : Env.

(** A block whose [catch] only logs returns normally. *)
Lemma caught_and_logged (body : M World unit) (message : string) w :
  keeps unchanged body -> keeps grows body ->
  exists w1,
    try_catch body (fun _ => console_error message) w = (Ok tt, w1)
    /\ unchanged w w1 /\ grows w w1.
Proof.
  intros Hu Hg. specialize (Hu w). specialize (Hg w). unfold try_catch.
  destruct (body w) as [[[] | e] w1]; simpl in *.
  - exists w1. auto.
  - eexists. split; [reflexivity |]. split.
    + eapply unchanged_trans; [exact Hu | now apply unchanged_emit].
    + eapply grows_trans; [exact Hg | apply grows_emit].
Qed.

(** The attempt on the spreadsheet never fails the submission and leaves
    storage as it is. *)
Lemma excel_attempt department employees w :
  exists w1,
    try_catch (submitToExcel env department employees)
              (fun _ => console_error "Error submitting to Excel:") w = (Ok tt, w1)
    /\ unchanged w w1 /\ grows w w1.
Proof.
  apply caught_and_logged.
  - apply keeps_submitToExcel;
      [apply unchanged_refl | apply unchanged_trans | apply unchanged_emit].
  - apply keeps_submitToExcel;
      [apply grows_refl | apply grows_trans | intros e0 w0 _; apply grows_emit].
Qed.

(** The summary send returns normally whatever happens, leaves storage as
    it is and counts as one attempt. *)
Lemma summary_send departmentSubmissions w :
  exists w1,
    sendAttendanceSummaryToTeams env departmentSubmissions w = (Ok tt, w1)
    /\ localStorage w1 = localStorage w
    /\ attempts (trace w1) = S (attempts (trace w))
    /\ grows w w1.
Proof.
  unfold sendAttendanceSummaryToTeams.
  set (first := emit (SummaryAttempt departmentSubmissions) w).
  unfold try_catch at 1. unfold bind at 1. unfold modify at 1. fold first.
  match goal with
  | |- context [try_catch ?body (fun _ => console_error ?msg) first] =>
      destruct (caught_and_logged body msg first) as (w1 & -> & [Hs Ha] & Hg)
  end.
  - apply keeps_send_to_teams;
      [apply unchanged_refl | apply unchanged_trans | apply unchanged_emit].
  - apply keeps_send_to_teams;
      [apply grows_refl | apply grows_trans | intros e0 w0 _; apply grows_emit].
  - exists w1. repeat split; try assumption.
    + rewrite Ha. unfold first. simpl. rewrite attempts_app. unfold attempts at 2.
      simpl. lia.
    + eapply grows_trans; [apply (grows_emit (SummaryAttempt departmentSubmissions)) |].
      exact Hg.
Qed.

Lemma read_submissions_run w :
  read_submissions env w =
  match stored_submissions env w with
  | Some NonArray => (Throw (TypeError "submissions.findIndex is not a function"), w)
  | stored => (Ok (submissions_read stored), w)
  end.
Proof.
  unfold read_submissions, stored_submissions, bind, get.
  destruct (ls_submissions (localStorage w) !! submissions_key (today env))
    as [[| | submissions] |]; reflexivity.
Qed.

(** What a submission does when the stored submissions can be read. *)
Lemma submitAttendance_run department employees w :
  stored_submissions env w <> Some NonArray ->
  let submissions :=
    mark_submitted env department (submissions_read (stored_submissions env w)) in
  exists w',
    submitAttendance env department employees w = (Ok true, w')
    /\ ls_attendance (localStorage w') =
       <[attendance_key department (today env) := Arr employees]>
         (ls_attendance (localStorage w))
    /\ ls_submissions (localStorage w') =
       <[submissions_key (today env) := Arr submissions]>
         (ls_submissions (localStorage w))
    /\ ls_mockUser (localStorage w') = ls_mockUser (localStorage w)
    /\ attempts (trace w') =
       (attempts (trace w) + if forallb s_submitted submissions then 1 else 0)%nat.
Proof.
  intros Hstored submissions.
  destruct (excel_attempt department employees w) as (w1 & Hexcel & [Hs1 Ha1] & _).
  unfold submitAttendance.
  unfold try_catch at 1. unfold bind at 1. rewrite Hexcel.
  unfold bind at 1. unfold modify at 1.
  set (w2 := setItem_attendance _ _ w1).
  assert (Hsame : stored_submissions env w2 = stored_submissions env w).
  { unfold stored_submissions, w2. simpl. now rewrite Hs1. }
  unfold bind at 1. rewrite read_submissions_run, Hsame.
  destruct (stored_submissions env w) as [[| | stored] |] eqn:Hread;
    try congruence; simpl submissions_read in *; cbv zeta;
    fold submissions;
    unfold bind at 1; unfold modify at 1;
    set (w3 := setItem_submissions _ _ w2);
    unfold bind at 1;
    (destruct (forallb s_submitted submissions) eqn:Hall;
     [ destruct (summary_send (map revive submissions) w3) as (w4 & -> & Hs4 & Ha4 & _);
       exists w4; simpl; rewrite Hs4, Ha4; unfold w3, w2; simpl; rewrite Hs1, Ha1;
       repeat split; lia
     | exists w3; simpl; unfold w3, w2; simpl; rewrite Hs1, Ha1;
       repeat split; lia ]).
Qed.

(** What it does when the stored value is not an array: the attendance is
    stored, then the submission fails. *)
Lemma submitAttendance_not_an_array department employees w :
  stored_submissions env w = Some NonArray ->
  exists w',
    submitAttendance env department employees w =
      (Throw (TypeError "submissions.findIndex is not a function"), w')
    /\ ls_attendance (localStorage w') =
       <[attendance_key department (today env) := Arr employees]>
         (ls_attendance (localStorage w))
    /\ ls_submissions (localStorage w') = ls_submissions (localStorage w).
Proof.
  intros Hstored.
  destruct (excel_attempt department employees w) as (w1 & Hexcel & [Hs1 Ha1] & _).
  unfold submitAttendance.
  unfold try_catch at 1. unfold bind at 1. rewrite Hexcel.
  unfold bind at 1. unfold modify at 1.
  set (w2 := setItem_attendance _ _ w1).
  assert (Hsame : stored_submissions env w2 = stored_submissions env w).
  { unfold stored_submissions, w2. simpl. now rewrite Hs1. }
  unfold bind at 1. rewrite read_submissions_run, Hsame, Hstored.
  eexists. split; [reflexivity |]. simpl. rewrite Hs1. split; reflexivity.
Qed.

Lemma submitAttendance_stores_attendance department employees w :
  stored_attendance env department (snd (submitAttendance env department employees w))
  = Some (Arr employees).
Proof.
  unfold stored_attendance.
  destruct (stored_submissions env w) as [[| | stored] |] eqn:Hread.
  2: { destruct (submitAttendance_not_an_array department employees w Hread)
         as (w' & Hrun & Hatt & _).
       rewrite Hrun. simpl. rewrite Hatt. apply lookup_insert_eq. }
  all: destruct (submitAttendance_run department employees w) as (w' & Hrun & Hatt & _);
    [congruence | rewrite Hrun; simpl; rewrite Hatt; apply lookup_insert_eq].
Qed.

End Submission.

(** ** The list of submissions of the day *)

Section Marking.

Variable env : Env.

Lemma department_eqb_true a b : department_eqb a b = true <-> a = b.
Proof. unfold department_eqb. apply bool_decide_eq_true. Qed.

Lemma department_eqb_false a b : department_eqb a b = false <-> a <> b.
Proof. unfold department_eqb. apply bool_decide_eq_false. Qed.

Lemma mark_submitted_nil department :
  mark_submitted env department [] = [submitted_now env department].
Proof. reflexivity. Qed.

(** [mark_submitted] follows the list up to the first entry of the
    department. *)
Lemma mark_submitted_cons department s submissions :
  mark_submitted env department (s :: submissions) =
  if department_eqb (s_department s) department
  then submitted_now env department :: submissions
  else s :: mark_submitted env department submissions.
Proof.
  unfold mark_submitted. simpl.
  destruct (department_eqb (s_department s) department) eqn:Hs.
  - apply department_eqb_true in Hs. simpl. now rewrite Hs.
  - destruct (findIndex _ submissions); reflexivity.
Qed.

Lemma mark_submitted_reports department submissions :
  reports_submitted department (mark_submitted env department submissions).
Proof.
  induction submissions as [| s submissions IH].
  - exists (submitted_now env department). simpl. auto.
  - rewrite mark_submitted_cons.
    destruct (department_eqb (s_department s) department).
    + exists (submitted_now env department). simpl. auto.
    + destruct IH as (x & Hin & Hx). exists x. split; [now right | exact Hx].
Qed.

Lemma mark_submitted_nonempty department submissions :
  mark_submitted env department submissions <> [].
Proof.
  destruct submissions as [| s submissions]; [discriminate |].
  rewrite mark_submitted_cons. destruct (department_eqb _ _); discriminate.
Qed.

Lemma mark_submitted_entries department submissions :
  entries_of department (mark_submitted env department submissions) =
  Nat.max 1 (entries_of department submissions).
Proof.
  unfold entries_of.
  induction submissions as [| s submissions IH].
  - simpl. unfold department_eqb. now rewrite bool_decide_eq_true_2.
  - rewrite mark_submitted_cons.
    destruct (department_eqb (s_department s) department) eqn:Hs; simpl.
    + rewrite Hs. unfold department_eqb at 1. rewrite bool_decide_eq_true_2 by reflexivity.
      simpl. lia.
    + rewrite Hs. exact IH.
Qed.

Lemma mark_submitted_length department submissions :
  (1 <= entries_of department submissions)%nat ->
  length (mark_submitted env department submissions) = length submissions.
Proof.
  unfold entries_of.
  induction submissions as [| s submissions IH]; simpl; [lia |].
  rewrite mark_submitted_cons.
  destruct (department_eqb (s_department s) department); simpl; [reflexivity |].
  intros H. now rewrite IH.
Qed.

Lemma mark_submitted_in_place department submissions :
  (1 <= entries_of department submissions)%nat ->
  map s_department (mark_submitted env department submissions)
  = map s_department submissions.
Proof.
  unfold entries_of.
  induction submissions as [| s submissions IH]; simpl; [lia |].
  rewrite mark_submitted_cons.
  destruct (department_eqb (s_department s) department) eqn:Hs; simpl.
  - intros _. apply department_eqb_true in Hs. now rewrite Hs.
  - intros H. now rewrite IH.
Qed.

Lemma entries_of_none department submissions s :
  entries_of department submissions = 0%nat ->
  In s submissions -> s_department s <> department.
Proof.
  unfold entries_of. induction submissions as [| x submissions IH]; simpl; [tauto |].
  destruct (department_eqb (s_department x) department) eqn:Hx; simpl; [discriminate |].
  intros H0 [<- | Hin]; [now apply department_eqb_false | auto].
Qed.

(** With at most one entry of the department before, the entry after is
    the one just written. *)
Lemma mark_submitted_entry department submissions s :
  (entries_of department submissions <= 1)%nat ->
  In s (mark_submitted env department submissions) ->
  s_department s = department ->
  s = submitted_now env department.
Proof.
  induction submissions as [| x submissions IH].
  - simpl. intros _ [<- | []] _. reflexivity.
  - rewrite mark_submitted_cons. unfold entries_of. simpl.
    destruct (department_eqb (s_department x) department) eqn:Hx; simpl.
    + intros Hle [<- | Hin] Hs; [reflexivity |].
      exfalso. apply (entries_of_none department submissions s); auto.
      unfold entries_of. lia.
    + intros Hle [<- | Hin] Hs.
      * apply department_eqb_false in Hx. contradiction.
      * apply IH; assumption.
Qed.

Lemma entries_of_NoDup department submissions :
  NoDup (map s_department submissions) ->
  (entries_of department submissions <= 1)%nat.
Proof.
  unfold entries_of. induction submissions as [| x submissions IH]; simpl; [lia |].
  intros Hnd. apply NoDup_cons in Hnd as [Hx Hnd]. specialize (IH Hnd).
  destruct (department_eqb (s_department x) department) eqn:Hd; simpl; [| exact IH].
  apply department_eqb_true in Hd.
  destruct (List.filter _ submissions) as [| y rest] eqn:Hf; [simpl; lia |].
  exfalso. apply Hx. apply list_elem_of_In.
  assert (Hy : In y (List.filter (fun s => department_eqb (s_department s) department)
                                 submissions)) by (rewrite Hf; now left).
  apply List.filter_In in Hy as [Hy Hyd]. apply department_eqb_true in Hyd.
  rewrite Hd, <- Hyd. now apply in_map.
Qed.

Lemma mark_submitted_departments department submissions :
  map s_department (mark_submitted env department submissions) =
  if existsb (fun s => department_eqb (s_department s) department) submissions
  then map s_department submissions
  else map s_department submissions ++ [department].
Proof.
  induction submissions as [| s submissions IH]; [reflexivity |].
  rewrite mark_submitted_cons. simpl.
  destruct (department_eqb (s_department s) department) eqn:Hs; simpl.
  - apply department_eqb_true in Hs. now rewrite Hs.
  - rewrite IH. now destruct (existsb _ submissions).
Qed.

(** Marking keeps the list free of duplicate departments. *)
Lemma mark_submitted_NoDup department submissions :
  NoDup (map s_department submissions) ->
  NoDup (map s_department (mark_submitted env department submissions)).
Proof.
  intros Hnd. rewrite mark_submitted_departments.
  destruct (existsb _ submissions) eqn:Hex; [exact Hnd |].
  apply NoDup_app. repeat split; [exact Hnd | | apply NoDup_singleton].
  intros d Hd Hd'. apply list_elem_of_In in Hd, Hd'.
  destruct Hd' as [Heq | []]. subst d.
  apply in_map_iff in Hd as (s & Hs & Hin).
  assert (existsb (fun s => department_eqb (s_department s) department) submissions
          = true).
  { apply existsb_exists. exists s. split; [exact Hin | now apply department_eqb_true]. }
  congruence.
Qed.

Lemma mark_submitted_all department submissions :
  forallb s_submitted submissions = true ->
  forallb s_submitted (mark_submitted env department submissions) = true.
Proof.
  induction submissions as [| s submissions IH]; [reflexivity |].
  rewrite mark_submitted_cons. simpl.
  intros [Hs Hrest]%andb_true_iff.
  destruct (department_eqb (s_department s) department); simpl; [exact Hrest |].
  rewrite Hs. now apply IH.
Qed.

Lemma revive_reports department submissions :
  reports_submitted department submissions ->
  reports_submitted department (map revive submissions).
Proof.
  intros (s & Hin & Hd & Hs). exists (revive s).
  split; [now apply in_map | split; assumption].
Qed.

(** The local tier serves a stored, non-empty list as it is. *)
Lemma getDepartmentSubmissions_from_storage w s submissions :
  stored_submissions env w = Some (Arr (s :: submissions)) ->
  getDepartmentSubmissions env w = (Ok (map revive (s :: submissions)), w).
Proof.
  unfold stored_submissions. intros H.
  assert (Hlocal : submissions_from_storage env w
                   = (Ok (Some (map revive (s :: submissions))), w)).
  { unfold submissions_from_storage, bind, get. now rewrite H. }
  unfold getDepartmentSubmissions, try_catch, bind. now rewrite Hlocal.
Qed.

End Marking.

(** ** The properties of the specification *)

(** Run without interruption, the method is its part up to the first wait
    followed by its part from there on. *)
Lemma getDepartmentSubmissions_resumes (env : Env) (w : World) :
  getDepartmentSubmissions env w =
  match getDepartmentSubmissions_until_await env w with
  | (Ok (Served submissions), w1) => (Ok submissions, w1)
  | (Ok (Waiting mockUserJson), w1) => getDepartmentSubmissions_resumed env mockUserJson w1
  | (Throw e, w1) => (Throw e, w1)
  end.
Proof.
  cbv beta iota delta
    [getDepartmentSubmissions getDepartmentSubmissions_until_await
     getDepartmentSubmissions_resumed getAuthenticatedClient
     getAuthenticatedClient_resumed submissions_from_storage
     try_catch bind get ret].
  destruct (ls_submissions (localStorage w) !! submissions_key (today env))
    as [[| | [| s l]] |]; reflexivity.
Qed.

(** A call of [getDepartmentSubmissions] that is waiting for the workbook
    while a submission completes stores, when it goes on, the list that the
    workbook shows: the entry that the submission had stored is gone, and a
    call made after that does not report the department. *)
Lemma submission_is_erased_by_a_poll_in_flight :
  let poll := getDepartmentSubmissions_until_await online signed_in in
  let submitted := submitAttendance read_only Animation [john] (snd poll) in
  let resumed := getDepartmentSubmissions_resumed online None (snd submitted) in
  fst poll = Ok (Waiting None)
  /\ today online = today read_only
  /\ fst submitted = Ok true
  /\ (exists submissions,
        fst (getDepartmentSubmissions online (snd submitted)) = Ok submissions
        /\ reports_submitted Animation submissions)
  /\ ~ (exists submissions,
          fst (getDepartmentSubmissions online (snd resumed)) = Ok submissions
          /\ reports_submitted Animation submissions).
Proof.
  cbv zeta. split; [reflexivity |]. split; [reflexivity |]. split; [reflexivity |].
  split.
  - eexists. split; [vm_compute; reflexivity |].
    eexists. split; [left; reflexivity |]. split; reflexivity.
  - intros (submissions & Hrun & s & Hin & Hdepartment & Hsubmitted).
    vm_compute in Hrun. injection Hrun as <-.
    simpl in Hin.
    repeat (destruct Hin as [<- | Hin]; [discriminate |]).
    exact Hin.
Qed.

(** C1 (amended). Once [submitAttendance] has completed for a department, a
    call of [getDepartmentSubmissions] made after it on the same day, in any
    state in which the day's list is still the one that the submission
    stored, reports that department as submitted, whatever the remote
    service did during the submission (in particular when every request to
    it fails): the submission is mirrored into local storage and the query
    serves the stored, non-empty list, leaving it as it is. The submission
    completes whenever the value stored under the day's submissions key is
    absent, unparseable or an array. *)
Theorem submitted_department_is_reported
    (env env' : Env) (department : Department) (employees : list Employee) (w : World) :
  today env' = today env ->
  (stored_submissions env w <> Some NonArray ->
   fst (submitAttendance env department employees w) = Ok true)
  /\ (completes (submitAttendance env department employees w) ->
      forall later,
        stored_submissions env' later
        = stored_submissions env' (snd (submitAttendance env department employees w)) ->
        exists submissions,
          getDepartmentSubmissions env' later = (Ok submissions, later)
          /\ reports_submitted department submissions).
Proof.
  intros Hday. split.
  - intros Hstored.
    destruct (submitAttendance_run env department employees w Hstored) as (w' & -> & _).
    reflexivity.
  - intros [b Hb] later.
    assert (Hstored : stored_submissions env w <> Some NonArray).
    { intros Hbad.
      destruct (submitAttendance_not_an_array env department employees w Hbad)
        as (w' & Hrun & _).
      rewrite Hrun in Hb. discriminate. }
    destruct (submitAttendance_run env department employees w Hstored)
      as (w' & Hrun & _ & Hsubs & _).
    rewrite Hrun. simpl. intros Hlater.
    pose proof (mark_submitted_nonempty env department
                  (submissions_read (stored_submissions env w))) as Hne.
    pose proof (mark_submitted_reports env department
                  (submissions_read (stored_submissions env w))) as Hrep.
    destruct (mark_submitted env department _) as [| s rest] eqn:Hmark; [congruence |].
    assert (Hlook : stored_submissions env' w' = Some (Arr (s :: rest))).
    { unfold stored_submissions. rewrite Hday, Hsubs. apply lookup_insert_eq. }
    rewrite <- Hlater in Hlook.
    rewrite (getDepartmentSubmissions_from_storage env' later s rest Hlook).
    eexists. split; [reflexivity |]. now apply revive_reports.
Qed.

Lemma submitted_department_is_reported_witness :
  today offline_later = today offline
  /\ fst (submitAttendance offline Animation [john] fresh_day) = Ok true
  /\ exists submissions,
       getDepartmentSubmissions offline_later
         (snd (submitAttendance offline Animation [john] fresh_day))
       = (Ok submissions, snd (submitAttendance offline Animation [john] fresh_day))
       /\ reports_submitted Animation submissions.
Proof.
  pose proof (submitted_department_is_reported offline offline_later Animation [john]
                fresh_day eq_refl) as [Hcompletes Hreported].
  assert (Hok : fst (submitAttendance offline Animation [john] fresh_day) = Ok true).
  { apply Hcompletes. vm_compute. discriminate. }
  split; [reflexivity | split; [exact Hok |]].
  apply Hreported; [exists true; exact Hok | reflexivity].
Defined.

(** [allSubmitted] agrees with the specification on a list that has one
    entry for each department. *)
Lemma allSubmitted_on_complete_list (submissions : list DepartmentSubmission) :
  NoDup (map s_department submissions) ->
  (forall department, In department (map s_department submissions)) ->
  SubmissionTracker.allSubmitted submissions = true <->
  every_department_submitted submissions.
Proof.
  intros Hnd Hall. unfold SubmissionTracker.allSubmitted. rewrite forallb_forall. split.
  - intros Hsub department.
    destruct (proj1 (in_map_iff _ _ _) (Hall department)) as (s & Hs & Hin).
    exists s. auto.
  - intros Hevery s Hin.
    destruct (Hevery (s_department s)) as (s' & Hin' & Hd & Hs').
    assert (s' = s); [| congruence].
    clear - Hnd Hin Hin' Hd.
    induction submissions as [| x submissions IH]; [destruct Hin |].
    simpl in Hnd. apply NoDup_cons in Hnd as [Hx Hnd].
    assert (Hmem : forall y, In y submissions ->
                             s_department y ∈ map s_department submissions).
    { intros y Hy. apply list_elem_of_In. now apply in_map. }
    destruct Hin as [-> | Hin], Hin' as [-> | Hin']; auto.
    + exfalso. apply Hx. rewrite <- Hd. auto.
    + exfalso. apply Hx. rewrite Hd. auto.
Qed.

(** C2. [allSubmitted] is [submissions.every(s => s.submitted)] over the
    entries that are listed, whichever departments those are. After the
    first submission of a day whose stored list is absent, the list served
    to the tracker has the single entry of the submitting department:
    [allSubmitted] is true there although four departments have no
    submitted entry. *)
Theorem allSubmitted_with_departments_missing
    (env env' : Env) (department : Department) (employees : list Employee) (w : World) :
  today env' = today env ->
  stored_submissions env w = None ->
  let shown :=
    SubmissionTracker.submissions
      (fst (SubmissionTracker.fetchSubmissions env' SubmissionTracker.initial
              (snd (submitAttendance env department employees w)))) in
  shown = [revive (submitted_now env department)]
  /\ SubmissionTracker.allSubmitted shown = true
  /\ ~ every_department_submitted shown.
Proof.
  intros Hday Hnone shown.
  assert (Hshown : shown = [revive (submitted_now env department)]).
  { unfold shown, SubmissionTracker.fetchSubmissions.
    destruct (submitAttendance_run env department employees w)
      as (w' & Hrun & _ & Hsubs & _); [congruence |].
    rewrite Hrun. simpl. rewrite Hnone in Hsubs. simpl in Hsubs.
    rewrite (getDepartmentSubmissions_from_storage env' w'
               (submitted_now env department) []); [reflexivity |].
    unfold stored_submissions. rewrite Hday, Hsubs. apply lookup_insert_eq. }
  split; [exact Hshown |]. rewrite Hshown. split; [reflexivity |].
  intros Hevery.
  destruct (Hevery (if department_eqb department Animation then Other else Animation))
    as (s & [<- | []] & Hd & _).
  simpl in Hd. destruct department; discriminate.
Qed.

Lemma allSubmitted_with_departments_missing_witness :
  let shown :=
    SubmissionTracker.submissions
      (fst (SubmissionTracker.fetchSubmissions offline_later SubmissionTracker.initial
              (snd (submitAttendance offline Animation [john] fresh_day)))) in
  shown = [revive (submitted_now offline Animation)]
  /\ SubmissionTracker.allSubmitted shown = true
  /\ ~ every_department_submitted shown.
Proof.
  apply (allSubmitted_with_departments_missing offline offline_later Animation [john]
           fresh_day); reflexivity.
Defined.

(** A submission onto a list whose entries are all submitted attempts a
    summary, whether or not the list names every department. *)
Lemma summary_attempted_when_all_marked
    (env : Env) (department : Department) (employees : list Employee) (w : World) :
  all_marked (stored_submissions env w) ->
  let w' := snd (submitAttendance env department employees w) in
  attempts (trace w') = S (attempts (trace w))
  /\ all_marked (stored_submissions env w').
Proof.
  intros Hmarked w'.
  assert (Hstored : stored_submissions env w <> Some NonArray).
  { intros Hbad. rewrite Hbad in Hmarked. exact Hmarked. }
  destruct (submitAttendance_run env department employees w Hstored)
    as (w1 & Hrun & _ & Hsubs & _ & Hattempts).
  unfold w'. rewrite Hrun. simpl.
  assert (Hall : forallb s_submitted
                   (mark_submitted env department
                      (submissions_read (stored_submissions env w))) = true).
  { apply mark_submitted_all.
    destruct (stored_submissions env w) as [[| | submissions] |]; simpl in *; auto. }
  rewrite Hall in Hattempts. split; [lia |].
  unfold stored_submissions. rewrite Hsubs, lookup_insert_eq. exact Hall.
Qed.

Lemma attempts_of_submit_each (day : string)
    (steps : list (Env * Department * list Employee)) :
  Forall (on_day day) steps ->
  forall w,
    all_marked (ls_submissions (localStorage w) !! submissions_key day) ->
    attempts (trace (submit_each steps w)) = (attempts (trace w) + length steps)%nat.
Proof.
  induction 1 as [| [[env department] employees] steps Hstep Hsteps IH]; intros w Hw.
  - simpl. lia.
  - unfold on_day in Hstep. simpl in Hstep. subst day.
    destruct (summary_attempted_when_all_marked env department employees w Hw)
      as (Hattempts & Hmarked).
    unfold submit_each. simpl. fold (submit_each steps).
    rewrite IH by exact Hmarked. rewrite Hattempts. simpl. lia.
Qed.

(** C3. On a day whose stored list is absent, every submission attempts a
    summary: after any series of submissions of that day the number of
    attempts has grown by the number of submissions. After four of the five
    departments four summaries have been attempted, and with the fifth a
    fifth one, not a single one at completion. *)
Theorem summary_attempted_at_every_submission
    (day : string) (steps : list (Env * Department * list Employee)) (w : World) :
  Forall (on_day day) steps ->
  ls_submissions (localStorage w) !! submissions_key day = None ->
  attempts (trace (submit_each steps w)) = (attempts (trace w) + length steps)%nat.
Proof.
  intros Hsteps Hnone. apply (attempts_of_submit_each day steps Hsteps w).
  rewrite Hnone. exact I.
Qed.

Lemma summary_attempted_at_every_submission_witness :
  attempts (trace (submit_each four_departments fresh_day)) = 4%nat
  /\ attempts (trace (submit_each (four_departments ++ [(offline_later, Other, [])])
                                  fresh_day)) = 5%nat.
Proof.
  split.
  - apply (summary_attempted_at_every_submission "2025-03-14" four_departments fresh_day).
    + repeat constructor.
    + reflexivity.
  - apply (summary_attempted_at_every_submission "2025-03-14"
             (four_departments ++ [(offline_later, Other, [])]) fresh_day).
    + repeat constructor.
    + reflexivity.
Defined.

(** C4. Submitting twice for a department on the same day leaves one entry
    for it: on a stored list without duplicate departments (or with nothing
    usable stored) both submissions complete, the list has exactly one entry
    of the department after the first and after the second, the second adds
    and moves no entry, and the entry, marked as submitted, carries the time
    of the first submission after the first and the time of the second
    after the second. *)
Theorem resubmission_keeps_one_entry
    (env env' : Env) (department : Department) (employees employees' : list Employee)
    (w : World) :
  today env' = today env ->
  well_kept (stored_submissions env w) ->
  let w1 := snd (submitAttendance env department employees w) in
  let w2 := snd (submitAttendance env' department employees' w1) in
  fst (submitAttendance env department employees w) = Ok true
  /\ fst (submitAttendance env' department employees' w1) = Ok true
  /\ exists first second,
       stored_submissions env w1 = Some (Arr first)
       /\ stored_submissions env w2 = Some (Arr second)
       /\ entries_of department first = 1%nat
       /\ entries_of department second = 1%nat
       /\ length second = length first
       /\ map s_department second = map s_department first
       /\ (forall s, In s first -> s_department s = department ->
                     s_submitted s = true /\ s_submittedAt s = Some (now env))
       /\ (forall s, In s second -> s_department s = department ->
                     s_submitted s = true /\ s_submittedAt s = Some (now env')).
Proof.
  intros Hday Hkept w1 w2.
  assert (Hstored : stored_submissions env w <> Some NonArray).
  { intros Hbad. rewrite Hbad in Hkept. exact Hkept. }
  set (before := submissions_read (stored_submissions env w)).
  assert (Hnd : NoDup (map s_department before)).
  { unfold before. destruct (stored_submissions env w) as [[| | submissions] |];
      simpl in *; auto; constructor. }
  destruct (submitAttendance_run env department employees w Hstored)
    as (v1 & Hrun1 & _ & Hsubs1 & _). fold before in Hsubs1.
  set (first := mark_submitted env department before) in *.
  assert (Hw1 : w1 = v1) by (unfold w1; now rewrite Hrun1). 
  assert (Hlook1 : stored_submissions env' w1 = Some (Arr first)).
  { unfold stored_submissions. rewrite Hw1, Hday, Hsubs1. apply lookup_insert_eq. }
  assert (Hstored1 : stored_submissions env' w1 <> Some NonArray) by (rewrite Hlook1; discriminate).
  destruct (submitAttendance_run env' department employees' w1 Hstored1)
    as (v2 & Hrun2 & _ & Hsubs2 & _).
  rewrite Hlook1 in Hsubs2. simpl in Hsubs2.
  set (second := mark_submitted env' department first) in *.
  assert (Hfirst : entries_of department first = 1%nat).
  { unfold first. rewrite mark_submitted_entries.
    pose proof (entries_of_NoDup department before Hnd). lia. }
  rewrite Hrun1. split; [reflexivity |]. rewrite Hrun2. split; [reflexivity |].
  exists first, second. repeat split.
  - unfold stored_submissions in *. now rewrite <- Hday.
  - unfold stored_submissions, w2. rewrite Hrun2. simpl. rewrite <- Hday, Hsubs2.
    apply lookup_insert_eq.
  - exact Hfirst.
  - unfold second. rewrite mark_submitted_entries. lia.
  - unfold second. apply mark_submitted_length. lia.
  - unfold second. apply mark_submitted_in_place. lia.
  - rewrite (mark_submitted_entry env department before s); auto.
    pose proof (entries_of_NoDup department before Hnd). lia.
  - rewrite (mark_submitted_entry env department before s); auto.
    pose proof (entries_of_NoDup department before Hnd). lia.
  - rewrite (mark_submitted_entry env' department first s); auto. lia.
  - rewrite (mark_submitted_entry env' department first s); auto. lia.
Qed.

Lemma resubmission_keeps_one_entry_witness :
  let w1 := snd (submitAttendance offline Animation [john] fresh_day) in
  let w2 := snd (submitAttendance offline_later Animation [] w1) in
  exists first second,
    stored_submissions offline w1 = Some (Arr first)
    /\ stored_submissions offline w2 = Some (Arr second)
    /\ entries_of Animation first = 1%nat
    /\ entries_of Animation second = 1%nat
    /\ length second = length first
    /\ map s_department second = map s_department first
    /\ (forall s, In s first -> s_department s = Animation ->
                  s_submitted s = true /\ s_submittedAt s = Some "2025-03-14T08:30:00.000Z")
    /\ (forall s, In s second -> s_department s = Animation ->
                  s_submitted s = true /\ s_submittedAt s = Some "2025-03-14T09:45:00.000Z").
Proof.
  apply (resubmission_keeps_one_entry offline offline_later Animation [john] []
           fresh_day eq_refl).
  exact I.
Defined.

(** ** The summary send *)

Lemma bind_ok {S A B} (m : M S A) (k : A -> M S B) (s s' : S) (b : B) :
  bind m k s = (Ok b, s') ->
  exists a s1, m s = (Ok a, s1) /\ k a s1 = (Ok b, s').
Proof.
  unfold bind. destruct (m s) as [[a | e] s1]; [| discriminate].
  intros H. exists a, s1. auto.
Qed.

Lemma grows_of_run {A} (m : M World A) (w w' : World) (r : result A) :
  keeps grows m -> m w = (r, w') -> grows w w'.
Proof. intros Hm Hrun. specialize (Hm w). now rewrite Hrun in Hm. Qed.

Ltac grows_frame :=
  first [apply grows_refl | apply grows_trans | intros ? ? _; apply grows_emit].

(** What a summary send leaves in the trace: its entry, and last either the
    message accepted by the channel or the line logged by the [catch]. *)
Lemma summary_send_trace (env : Env) (departmentSubmissions : list DepartmentSubmission)
    (w : World) :
  exists t e,
    trace (snd (sendAttendanceSummaryToTeams env departmentSubmissions w)) =
      trace w ++ SummaryAttempt departmentSubmissions :: t ++ [e]
    /\ (e = ConsoleError "Error sending to Teams:"
        \/ exists teamId channelId content, e = PostMessage teamId channelId content).
Proof.
  unfold sendAttendanceSummaryToTeams.
  set (first := emit (SummaryAttempt departmentSubmissions) w).
  unfold try_catch at 1. unfold bind at 1. unfold modify at 1. fold first.
  unfold try_catch at 1.
  match goal with
  | |- context [bind ?m ?k first] => destruct (bind m k first) as [[[] | err] w1] eqn:Hbody
  end.
  - apply bind_ok in Hbody as (client & wa & Ha & Hbody).
    apply bind_ok in Hbody as (teamId & wb & Hb & Hbody).
    apply bind_ok in Hbody as (channelId & wc & Hc & Hbody).
    apply bind_ok in Hbody as (allEmployees & wd & Hd & Hpost).
    assert (Hgrow : grows first wd).
    { apply grows_of_run in Ha; [| apply keeps_getAuthenticatedClient; grows_frame].
      apply grows_of_run in Hb; [| apply keeps_getTeamId; grows_frame].
      apply grows_of_run in Hc; [| apply keeps_getChannelId; grows_frame].
      apply grows_of_run in Hd; [| apply keeps_collect_employees; grows_frame].
      eauto using grows_trans. }
    destruct Hgrow as [t Ht].
    unfold api_post in Hpost. destruct client; [| discriminate].
    destruct (postOk env teamId channelId); [| discriminate].
    injection Hpost as <-.
    exists t, (PostMessage teamId channelId (summary_message env allEmployees)).
    split; [| right; eauto].
    simpl. rewrite Ht. unfold first. simpl. now rewrite <- !app_assoc.
  - apply grows_of_run in Hbody; [| apply keeps_send_to_teams; grows_frame].
    destruct Hbody as [t Ht].
    exists t, (ConsoleError "Error sending to Teams:"). split; [| now left].
    simpl. rewrite Ht. unfold first. simpl. now rewrite <- !app_assoc.
Qed.

(** What [submitAttendance] returns depends on the day and on storage only,
    not on anything the remote service or the channel answers. *)
Lemma submitAttendance_outcome (env env' : Env) (department : Department)
    (employees : list Employee) (w : World) :
  today env' = today env ->
  fst (submitAttendance env' department employees w)
  = fst (submitAttendance env department employees w).
Proof.
  intros Hday.
  assert (Hsame : forall v, stored_submissions env w = v -> stored_submissions env' w = v)
    by (unfold stored_submissions; now rewrite Hday).
  destruct (stored_submissions env w) as [[| | stored] |] eqn:Hread;
    specialize (Hsame _ eq_refl).
  2: { destruct (submitAttendance_not_an_array env department employees w Hread)
         as (w1 & -> & _).
       destruct (submitAttendance_not_an_array env' department employees w Hsame)
         as (w2 & -> & _).
       reflexivity. }
  all: destruct (submitAttendance_run env department employees w) as (w1 & -> & _);
    [congruence |];
    destruct (submitAttendance_run env' department employees w) as (w2 & -> & _);
    [congruence | reflexivity].
Qed.

(** C9. [sendAttendanceSummaryToTeams] returns normally for every input and
    every behaviour of the channel, leaving storage as it is; the last thing
    it does is to post the message or, when that was not possible, to log
    the failure. A submission stores the attendance record and returns the
    same whatever the channel (or any other remote party) answers: [true]
    whenever the stored submissions can be read. *)
Theorem summary_failure_is_swallowed
    (env env' : Env) (departmentSubmissions : list DepartmentSubmission)
    (department : Department) (employees : list Employee) (w : World) :
  (fst (sendAttendanceSummaryToTeams env departmentSubmissions w) = Ok tt
   /\ localStorage (snd (sendAttendanceSummaryToTeams env departmentSubmissions w))
      = localStorage w
   /\ exists t e,
        trace (snd (sendAttendanceSummaryToTeams env departmentSubmissions w)) =
          trace w ++ SummaryAttempt departmentSubmissions :: t ++ [e]
        /\ (e = ConsoleError "Error sending to Teams:"
            \/ exists teamId channelId content, e = PostMessage teamId channelId content))
  /\ stored_attendance env department
       (snd (submitAttendance env department employees w)) = Some (Arr employees)
  /\ (today env' = today env ->
      fst (submitAttendance env' department employees w)
      = fst (submitAttendance env department employees w))
  /\ (stored_submissions env w <> Some NonArray ->
      fst (submitAttendance env department employees w) = Ok true).
Proof.
  split; [| split; [| split]].
  - destruct (summary_send env departmentSubmissions w) as (w1 & Hrun & Hs & _).
    split; [now rewrite Hrun |]. split; [now rewrite Hrun |].
    apply summary_send_trace.
  - apply submitAttendance_stores_attendance.
  - apply submitAttendance_outcome.
  - intros Hstored.
    destruct (submitAttendance_run env department employees w Hstored) as (w' & -> & _).
    reflexivity.
Qed.

Lemma summary_failure_is_swallowed_witness :
  (today online = today offline
   /\ fst (submitAttendance online Animation [john] fresh_day)
      = fst (submitAttendance offline Animation [john] fresh_day))
  /\ (stored_submissions offline fresh_day <> Some NonArray
      /\ fst (submitAttendance offline Animation [john] fresh_day) = Ok true).
Proof.
  pose proof (summary_failure_is_swallowed offline online [] Animation [john] fresh_day)
    as (_ & _ & Hsame & Hreturns).
  assert (H : stored_submissions offline fresh_day <> Some NonArray)
    by (vm_compute; discriminate).
  split; [split; [reflexivity | apply Hsame; reflexivity] |].
  split; [exact H | apply Hreturns; exact H].
Defined.

(** ** The roster of a department *)

Lemma getExcelFileId_run (w : World) :
  getExcelFileId w = (Ok "ESbU_CR_4X1OhCzh55FkDC0BwNUv9K7qYxQk7s5DRmU0Og", w).
Proof. reflexivity. Qed.

(** The client is null with a mock user stored or without a token. *)
Lemma getAuthenticatedClient_run (env : Env) (w : World) :
  exists client w1,
    getAuthenticatedClient env w = (Ok client, w1)
    /\ (client = None \/ w1 = w)
    /\ ((exists mockUserJson, ls_mockUser (localStorage w) = Some mockUserJson
                              /\ truthy mockUserJson = true) -> client = None)
    /\ (getToken env = None -> client = None).
Proof.
  unfold getAuthenticatedClient, try_catch, bind, get.
  destruct (ls_mockUser (localStorage w)) as [mockUserJson |] eqn:Hmock;
    [destruct (truthy mockUserJson) eqn:Htruthy |];
    destruct (getToken env) as [token |] eqn:Htoken; simpl;
    eexists; eexists; (split; [reflexivity |]);
    repeat split; auto; try discriminate.
  all: intros (m & [= <-] & Hm); congruence.
Qed.

(** A failing fetch is answered from the mock roster. *)
Lemma roster_falls_back (env : Env) (department : Department) (w w1 : World)
    (client : option Client) :
  getAuthenticatedClient env w = (Ok client, w1) ->
  is_ok (fst (fetchEmployees env client department w1)) = false ->
  fst (getEmployeesByDepartment env department w) = Ok (getMockEmployees department).
Proof.
  intros Hclient Hfetch. unfold getEmployeesByDepartment.
  unfold try_catch at 1. unfold bind at 1. rewrite Hclient.
  unfold try_catch at 1.
  destruct (fetchEmployees env client department w1) as [[l | e] w2]; [discriminate |].
  reflexivity.
Qed.

Lemma getMockEmployees_shape (department : Department) :
  length (getMockEmployees department) = 4%nat
  /\ Forall (fun e => e_department e = department) (getMockEmployees department).
Proof. destruct department; split; [reflexivity | repeat constructor ..]. Qed.

(** C7. When the remote read fails (a mock user is stored, no token can be
    had, the worksheets request fails, the worksheet of the department is
    missing or its used range cannot be read), [getEmployeesByDepartment]
    does not fail: it returns the built-in roster of the department, which
    has four employees, each of that department. *)
Theorem roster_falls_back_to_mock (env : Env) (department : Department) (w : World) :
  remote_failure env w department ->
  fst (getEmployeesByDepartment env department w) = Ok (getMockEmployees department)
  /\ length (getMockEmployees department) = 4%nat
  /\ Forall (fun e => e_department e = department) (getMockEmployees department).
Proof.
  intros Hfail. split; [| apply getMockEmployees_shape].
  destruct (getAuthenticatedClient_run env w) as (client & w1 & Hrun & _ & Hmock & Htoken).
  apply (roster_falls_back env department w w1 client Hrun).
  unfold fetchEmployees. unfold bind at 1. rewrite getExcelFileId_run.
  destruct Hfail as [mockUserJson Hstored Htruthy | Hnone | Hsheets
                     | sheets Hsheets Hmissing | sheets worksheet Hsheets Hfound Hrange].
  - rewrite Hmock by eauto. reflexivity.
  - rewrite (Htoken Hnone). reflexivity.
  - rewrite Hsheets. now destruct client.
  - rewrite Hsheets. destruct client; [| reflexivity].
    unfold bind, api_get, ret. now rewrite Hmissing.
  - rewrite Hsheets. destruct client; [| reflexivity].
    unfold bind at 1. unfold api_get at 1. unfold ret at 1. rewrite Hfound.
    unfold bind, api_get. now rewrite Hrange.
Qed.

Lemma roster_falls_back_to_mock_witness :
  fst (getEmployeesByDepartment offline XRDevelopment fresh_day)
  = Ok (getMockEmployees XRDevelopment)
  /\ length (getMockEmployees XRDevelopment) = 4%nat
  /\ Forall (fun e => e_department e = XRDevelopment) (getMockEmployees XRDevelopment).
Proof.
  apply (roster_falls_back_to_mock offline XRDevelopment fresh_day).
  apply (MockUser offline fresh_day XRDevelopment "{name:user,email:user@example.com}");
    reflexivity.
Defined.

(** ** The status recorded by the form *)

Lemma withStatus_concrete (employees : list Employee) :
  Forall (fun e => e_status e <> None) (map AttendanceForm.withStatus employees).
Proof.
  apply Forall_forall. intros e (x & <- & _)%list_elem_of_In%in_map_iff.
  simpl. destruct (e_status x); discriminate.
Qed.

Lemma handleSubmit_stores (env : Env) (department : Department)
    (employees : list Employee) (w : World) :
  stored_attendance env department
    (snd (AttendanceForm.handleSubmit env department employees w))
  = Some (Arr (map AttendanceForm.withStatus employees)).
Proof.
  pose proof (submitAttendance_stores_attendance env department
                (map AttendanceForm.withStatus employees) w) as H.
  unfold AttendanceForm.handleSubmit, try_catch, bind. cbv zeta.
  destruct (submitAttendance env department _ w) as [[b | e] w1]; exact H.
Qed.

(** [submitAttendance] stores the list it is given: for an employee passed
    with the status unset, the record stored for the day does not hold
    "absent". *)
Lemma unset_status_is_stored_unset :
  In john [john]
  /\ e_status john = None
  /\ ~ (exists stored,
          stored_attendance offline Animation
            (snd (submitAttendance offline Animation [john] fresh_day))
          = Some (Arr stored)
          /\ forall recorded,
               In recorded stored -> e_id recorded = e_id john ->
               e_status recorded = Some absent).
Proof.
  split; [now left |]. split; [reflexivity |].
  intros (stored & Hstored & Habsent).
  rewrite submitAttendance_stores_attendance in Hstored.
  injection Hstored as <-.
  specialize (Habsent john (or_introl eq_refl) eq_refl). discriminate.
Qed.

(** The submission of the example, as the remote service sees it: the header
    of the new column, the cell of the employee, the marker row. *)
Example submission_requests :
  List.filter (fun e => negb (is_attempt e))
    (firstn 4 (trace (snd (submitAttendance online Animation [john] signed_in))))
  = [Patch "sheet-1" "C1" "2025-03-14";
     Patch "sheet-1" "C2" "absent";
     Patch "sheet-1" "A3" "Submission Status";
     Patch "sheet-1" "C3" "2025-03-14T08:30:00.000Z"].
Proof. vm_compute. reflexivity. Qed.

(** ** The stored list stays free of duplicates *)

Lemma bind_throw {S A B} (m : M S A) (k : A -> M S B) (s s' : S) (e : exn) :
  bind m k s = (Throw e, s') ->
  m s = (Throw e, s') \/ exists a s1, m s = (Ok a, s1) /\ k a s1 = (Throw e, s').
Proof.
  unfold bind. destruct (m s) as [[a | e'] s1]; [| intros [= <- <-]; now left].
  intros H. right. exists a, s1. auto.
Qed.

Lemma submission_in_range_department (env : Env) (department : Department)
    (range : UsedRange) :
  s_department (submission_in_range env department range) = department.
Proof. unfold submission_in_range. repeat case_match; reflexivity. Qed.

Lemma submissions_from_excel_departments (env : Env) (client : option Client)
    (departments : list Department) :
  forall w w' submissions,
    submissions_from_excel env client departments w = (Ok submissions, w') ->
    map s_department submissions = departments.
Proof.
  induction departments as [| department rest IH]; intros w w' submissions; simpl.
  - intros [= <- _]. reflexivity.
  - intros (sheets & w1 & _ & Hrun)%bind_ok.
    destruct (worksheet_for department sheets) as [worksheet |].
    + apply bind_ok in Hrun as (range & w2 & _ & Hrun).
      apply bind_ok in Hrun as (more & w3 & Hmore & [= <- _]).
      simpl. rewrite submission_in_range_department. f_equal. eauto.
    + apply bind_ok in Hrun as (more & w3 & Hmore & [= <- _]).
      simpl. f_equal. eauto.
Qed.

Ltac unchanged_frame :=
  first [apply unchanged_refl | apply unchanged_trans | apply unchanged_emit].

Lemma storage_of_run {A} (m : M World A) (w w' : World) (r : result A) :
  keeps unchanged m -> m w = (r, w') -> localStorage w' = localStorage w.
Proof. intros Hm Hrun. specialize (Hm w). rewrite Hrun in Hm. apply Hm. Qed.

(** [getDepartmentSubmissions] leaves storage as it is, or stores under the
    day's key a list with one entry for each department in turn. *)
Lemma getDepartmentSubmissions_storage (env : Env) (w : World) :
  let w' := snd (getDepartmentSubmissions env w) in
  localStorage w' = localStorage w
  \/ exists submissions,
       map s_department submissions = DEPARTMENTS
       /\ ls_submissions (localStorage w') =
          <[submissions_key (today env) := Arr submissions]>
            (ls_submissions (localStorage w)).
Proof.
  intros w'. subst w'.
  destruct (getDepartmentSubmissions env w) as [r w0] eqn:Hrun. simpl.
  unfold getDepartmentSubmissions in Hrun.
  unfold try_catch at 1 in Hrun. unfold bind at 1 in Hrun.
  destruct (submissions_from_storage env w) as [[stored | e] w1] eqn:Hlocal;
    apply storage_of_run in Hlocal as Hw1;
    try (apply keeps_submissions_from_storage; unchanged_frame).
  2: { left. injection Hrun as _ <-. exact Hw1. }
  destruct stored as [submissions |].
  { left. injection Hrun as _ <-. exact Hw1. }
  unfold try_catch at 1 in Hrun.
  match type of Hrun with
  | context [bind ?m ?k w1] => destruct (bind m k w1) as [[submissions | e] w2] eqn:Hexcel
  end.
  - right. injection Hrun as _ <-.
    apply bind_ok in Hexcel as (client & wa & Ha & Hexcel).
    apply bind_ok in Hexcel as (fileId & wb & Hb & Hexcel).
    apply bind_ok in Hexcel as (found & wc & Hc & Hexcel).
    apply bind_ok in Hexcel as ([] & wd & [= <-] & [= _ <-]).
    exists found. split; [eapply submissions_from_excel_departments; exact Hc |].
    apply storage_of_run in Ha; [| apply keeps_getAuthenticatedClient; unchanged_frame].
    apply storage_of_run in Hb; [| apply keeps_getExcelFileId; unchanged_frame].
    apply storage_of_run in Hc; [| apply keeps_submissions_from_excel; unchanged_frame].
    simpl. now rewrite Hc, Hb, Ha, Hw1.
  - left. injection Hrun as _ <-. simpl. rewrite <- Hw1.
    apply bind_throw in Hexcel as [Ha | (client & wa & Ha & Hexcel)];
      [eapply storage_of_run;
       [apply keeps_getAuthenticatedClient; unchanged_frame | exact Ha] |].
    apply storage_of_run in Ha; [| apply keeps_getAuthenticatedClient; unchanged_frame].
    apply bind_throw in Hexcel as [Hb | (fileId & wb & Hb & Hexcel)];
      [apply storage_of_run in Hb;
       [congruence | apply keeps_getExcelFileId; unchanged_frame] |].
    apply storage_of_run in Hb; [| apply keeps_getExcelFileId; unchanged_frame].
    apply bind_throw in Hexcel as [Hc | (found & wc & Hc & Hexcel)];
      [apply storage_of_run in Hc;
       [congruence | apply keeps_submissions_from_excel; unchanged_frame] |].
    unfold bind, modify, ret in Hexcel. discriminate.
Qed.

(** Both operations that write the day's list keep it free of duplicate
    departments. *)
Lemma getDepartmentSubmissions_keeps_list (env env' : Env) (w : World) :
  well_kept (stored_submissions env w) ->
  well_kept (stored_submissions env (snd (getDepartmentSubmissions env' w))).
Proof.
  intros Hkept. unfold stored_submissions in *.
  destruct (getDepartmentSubmissions_storage env' w) as [-> | (l & Hl & ->)];
    [exact Hkept |].
  rewrite lookup_insert. case_decide; [| exact Hkept].
  simpl. rewrite Hl. apply NoDup_ListNoDup.
  repeat constructor; simpl; intuition discriminate.
Qed.

Lemma submitAttendance_keeps_list (env env' : Env) (department : Department)
    (employees : list Employee) (w : World) :
  well_kept (stored_submissions env w) ->
  well_kept (stored_submissions env' w) ->
  well_kept (stored_submissions env
               (snd (submitAttendance env' department employees w))).
Proof.
  intros Hkept Hkept'.
  assert (Hstored : stored_submissions env' w <> Some NonArray).
  { intros Hbad. rewrite Hbad in Hkept'. exact Hkept'. }
  destruct (submitAttendance_run env' department employees w Hstored)
    as (w' & -> & _ & Hsubs & _).
  unfold stored_submissions in *. simpl. rewrite Hsubs, lookup_insert.
  case_decide; [| exact Hkept].
  simpl. apply mark_submitted_NoDup.
  destruct (ls_submissions (localStorage w) !! submissions_key (today env'))
    as [[| | stored] |]; simpl in *; auto; apply NoDup_nil_2.
Qed.

(** On a stored list that names every department, the summary is attempted
    with the submission that completes the day and not before. *)
Example summary_once_on_complete_list :
  let listed := snd (getDepartmentSubmissions online signed_in) in
  let after_four := submit_each four_departments listed in
  let after_five := submit_each [(offline_later, Other, [])] after_four in
  stored_submissions online listed = Some (Arr (map unsubmitted DEPARTMENTS))
  /\ attempts (trace after_four) = 0%nat
  /\ attempts (trace after_five) = 1%nat.
Proof. vm_compute. repeat split; reflexivity. Qed.

(** ** Further properties of the column letter *)

(** X1. Distinct non-negative column indices below [2^53], where the
    arithmetic of the loop is exact, get distinct column letters. *)
Theorem column_letters_are_distinct (i j : Z) :
  0 <= i < 2 ^ 53 -> 0 <= j < 2 ^ 53 -> i <> j ->
  getExcelColumnLetter i <> getExcelColumnLetter j.
Proof.
  intros Hi Hj Hne Heq. apply Hne.
  pose proof (column_number_of_index i Hi) as Hni.
  pose proof (column_number_of_index j Hj) as Hnj.
  rewrite Heq in Hni. lia.
Qed.

Lemma column_letters_are_distinct_witness :
  getExcelColumnLetter 26 <> getExcelColumnLetter 701.
Proof. apply (column_letters_are_distinct 26 701); lia. Defined.

(** ** Further properties of the tracker *)

Lemma submittedCount_le_totalCount (submissions : list DepartmentSubmission) :
  (SubmissionTracker.submittedCount submissions
   <= SubmissionTracker.totalCount submissions)%nat.
Proof.
  unfold SubmissionTracker.submittedCount, SubmissionTracker.totalCount.
  induction submissions as [| s l IH]; simpl; [lia |].
  destruct (s_submitted s); simpl; lia.
Qed.

(** X2. The counts shown by the tracker: never more submitted than listed, and
    [allSubmitted] exactly when the two counts agree. *)
Theorem tracker_counts (submissions : list DepartmentSubmission) :
  (SubmissionTracker.submittedCount submissions
   <= SubmissionTracker.totalCount submissions)%nat
  /\ (SubmissionTracker.allSubmitted submissions = true <->
      SubmissionTracker.submittedCount submissions
      = SubmissionTracker.totalCount submissions).
Proof.
  split; [apply submittedCount_le_totalCount |].
  unfold SubmissionTracker.allSubmitted, SubmissionTracker.submittedCount,
    SubmissionTracker.totalCount.
  induction submissions as [| s l IH]; simpl; [tauto |].
  pose proof (submittedCount_le_totalCount l) as Hle.
  unfold SubmissionTracker.submittedCount, SubmissionTracker.totalCount in Hle.
  destruct (s_submitted s); simpl.
  - rewrite IH. split; [congruence | intros [= H]; exact H].
  - split; [discriminate | lia].
Qed.

(** ** The three tiers of [getDepartmentSubmissions] *)

Lemma submissions_from_storage_run (env : Env) (w : World) :
  exists w1,
    submissions_from_storage env w =
      (Ok (match stored_submissions env w with
           | Some (Arr (s :: l)) => Some (map revive (s :: l))
           | _ => None
           end), w1)
    /\ localStorage w1 = localStorage w
    /\ (served_locally (stored_submissions env w) = true -> w1 = w).
Proof.
  unfold submissions_from_storage, stored_submissions, bind, get.
  destruct (ls_submissions (localStorage w) !! submissions_key (today env))
    as [[| | [| s l]] |]; simpl; eexists; repeat split; try reflexivity; discriminate.
Qed.

Lemma submissions_from_excel_null (env : Env) (departments : list Department) (w : World) :
  departments <> [] ->
  is_ok (fst (submissions_from_excel env None departments w)) = false.
Proof. destruct departments; [congruence | reflexivity]. Qed.

Lemma getMockDepartmentSubmissions_run (env : Env) (w : World) :
  getMockDepartmentSubmissions env w = (Ok (mock_submissions env w), w).
Proof. reflexivity. Qed.

Lemma mock_submissions_departments (env : Env) (w : World) :
  map s_department (mock_submissions env w) = DEPARTMENTS.
Proof. unfold mock_submissions. simpl. repeat case_match; reflexivity. Qed.

Lemma mock_submissions_storage (env : Env) (w w' : World) :
  localStorage w' = localStorage w -> mock_submissions env w' = mock_submissions env w.
Proof. unfold mock_submissions. now intros ->. Qed.

(** How a call of [getDepartmentSubmissions] is answered: from storage, by
    the remote service (whose answer is then stored), or from the attendance
    stored for the day. *)
Lemma getDepartmentSubmissions_run (env : Env) (w : World) :
  (exists s l,
      stored_submissions env w = Some (Arr (s :: l))
      /\ getDepartmentSubmissions env w = (Ok (map revive (s :: l)), w))
  \/ (served_locally (stored_submissions env w) = false
      /\ exists submissions w',
           getDepartmentSubmissions env w = (Ok submissions, w')
           /\ map s_department submissions = DEPARTMENTS
           /\ ((~ mock_mode w
                /\ getToken env <> None
                /\ localStorage w' =
                   {| ls_attendance := ls_attendance (localStorage w);
                      ls_submissions :=
                        <[submissions_key (today env) := Arr submissions]>
                          (ls_submissions (localStorage w));
                      ls_mockUser := ls_mockUser (localStorage w) |})
               \/ (localStorage w' = localStorage w
                   /\ submissions = mock_submissions env w))).
Proof.
  destruct (submissions_from_storage_run env w) as (w1 & Hlocal & Hw1 & Hsame).
  destruct (stored_submissions env w) as [[| | [| s l]] |] eqn:Hstored.
  4: { left. exists s, l. split; [reflexivity |].
       now apply (getDepartmentSubmissions_from_storage env w s l). }
  all: right; split; [reflexivity |];
    unfold getDepartmentSubmissions;
    unfold try_catch at 1; unfold bind at 1; rewrite Hlocal;
    unfold try_catch at 1;
    match goal with
    | |- context [bind ?m ?k ?x] => destruct (bind m k x) as [[found | e] w2] eqn:Hexcel
    end.
  all: try (
    (* answered by the remote service *)
    apply bind_ok in Hexcel as (client & wa & Ha & Hexcel);
    apply bind_ok in Hexcel as (fileId & wb & Hb & Hexcel);
    apply bind_ok in Hexcel as (listed & wc & Hc & Hexcel);
    apply bind_ok in Hexcel as ([] & wd & [= <-] & [= <- <-]);
    exists listed; eexists; split; [reflexivity |];
    split; [eapply submissions_from_excel_departments; exact Hc |];
    left;
    destruct (getAuthenticatedClient_run env w1)
      as (client' & wa' & Hrun & _ & Hmock & Htoken);
    rewrite Hrun in Ha; injection Ha as -> ->;
    assert (Hclient : client <> None)
      by (intros ->;
          pose proof (submissions_from_excel_null env DEPARTMENTS wb ltac:(discriminate))
            as Hnull;
          rewrite Hc in Hnull; discriminate);
    apply storage_of_run in Hrun;
      [| apply keeps_getAuthenticatedClient; unchanged_frame];
    apply storage_of_run in Hb; [| apply keeps_getExcelFileId; unchanged_frame];
    apply storage_of_run in Hc; [| apply keeps_submissions_from_excel; unchanged_frame];
    split; [intros (j & Hj & Htruthy); apply Hclient, Hmock; exists j;
            rewrite Hw1; auto |];
    split; [intros Hnone; auto |];
    simpl; now rewrite Hc, Hb, Hrun, Hw1).
  all: (* answered from the attendance stored for the day *)
    exists (mock_submissions env
              (emit (ConsoleError "Error getting department submissions:")
                 (emit (ConsoleError "Error getting department submissions from Excel:")
                    w2)));
    eexists; split; [reflexivity |];
    assert (Hw2 : localStorage w2 = localStorage w1);
    [ apply bind_throw in Hexcel as [Ha | (client & wa & Ha & Hexcel)];
      [eapply storage_of_run;
       [apply keeps_getAuthenticatedClient; unchanged_frame | exact Ha] |];
      apply storage_of_run in Ha; [| apply keeps_getAuthenticatedClient; unchanged_frame];
      apply bind_throw in Hexcel as [Hb | (fileId & wb & Hb & Hexcel)];
      [apply storage_of_run in Hb;
       [congruence | apply keeps_getExcelFileId; unchanged_frame] |];
      apply storage_of_run in Hb; [| apply keeps_getExcelFileId; unchanged_frame];
      apply bind_throw in Hexcel as [Hc | (listed & wc & Hc & Hexcel)];
      [apply storage_of_run in Hc;
       [congruence | apply keeps_submissions_from_excel; unchanged_frame] |];
      unfold bind, modify, ret in Hexcel; discriminate
    | split; [apply mock_submissions_departments |]; right; simpl; split; [congruence |];
      apply mock_submissions_storage; simpl; congruence ].
Qed.

(** ** What the service sends *)

Section Emits.

Variable I : World -> Prop.
Variable P : Event -> Prop.
Hypothesis I_emit : forall e w, I w -> I (emit e w).
Hypothesis P_console : forall message, P (ConsoleError message).

Lemma emits_ret {A} (Q : A -> Prop) (a : A) : Q a -> emits I P Q (ret a).
Proof.
  intros Ha w Hw. simpl. split; [exact Hw |].
  split; [exists []; split; [now rewrite app_nil_r | constructor] |].
  now intros ? [= <-].
Qed.

Lemma emits_throw {A} (Q : A -> Prop) (e : exn) : emits I P Q (throw e).
Proof.
  intros w Hw. simpl. split; [exact Hw |].
  split; [exists []; split; [now rewrite app_nil_r | constructor] | discriminate].
Qed.

Lemma emits_get : emits I P I get.
Proof.
  intros w Hw. simpl. split; [exact Hw |].
  split; [exists []; split; [now rewrite app_nil_r | constructor] |].
  now intros ? [= <-].
Qed.

Lemma emits_weaken {A} (Q Q' : A -> Prop) (m : M World A) :
  (forall a, Q a -> Q' a) -> emits I P Q m -> emits I P Q' m.
Proof.
  intros Himp Hm w Hw. destruct (Hm w Hw) as (Hi & Hadded & Hq). auto.
Qed.

Lemma emits_bind {A B} (Q : A -> Prop) (Q' : B -> Prop) (m : M World A)
    (k : A -> M World B) :
  emits I P Q m -> (forall a, Q a -> emits I P Q' (k a)) -> emits I P Q' (bind m k).
Proof.
  intros Hm Hk w Hw. destruct (Hm w Hw) as (Hi & (t & Ht & Hpt) & Hq).
  unfold bind. destruct (m w) as [[a | e] w1]; simpl in *.
  - destruct (Hk a (Hq a eq_refl) w1 Hi) as (Hi' & (u & Hu & Hpu) & Hq').
    split; [exact Hi' |]. split; [| exact Hq'].
    exists (t ++ u). rewrite Hu, Ht, <- app_assoc. split; [reflexivity |].
    apply Forall_app; auto.
  - split; [exact Hi |]. split; [eauto | discriminate].
Qed.

Lemma emits_try_catch {A} (Q : A -> Prop) (m : M World A) (h : exn -> M World A) :
  emits I P Q m -> (forall e, emits I P Q (h e)) -> emits I P Q (try_catch m h).
Proof.
  intros Hm Hh w Hw. destruct (Hm w Hw) as (Hi & (t & Ht & Hpt) & Hq).
  unfold try_catch. destruct (m w) as [[a | e] w1]; simpl in *.
  - split; [exact Hi |]. split; [eauto | exact Hq].
  - destruct (Hh e w1 Hi) as (Hi' & (u & Hu & Hpu) & Hq').
    split; [exact Hi' |]. split; [| exact Hq'].
    exists (t ++ u). rewrite Hu, Ht, <- app_assoc. split; [reflexivity |].
    apply Forall_app; auto.
Qed.

Lemma emits_for_of {A} (xs : list A) (body : A -> M World unit) :
  (forall x, emits I P any (body x)) -> emits I P any (for_of xs body).
Proof.
  intros Hbody. induction xs as [| x xs IH]; simpl.
  - now apply emits_ret.
  - eapply emits_bind; [apply Hbody | intros _ _; exact IH].
Qed.

Lemma emits_event (e : Event) : P e -> emits I P any (modify (emit e)).
Proof.
  intros He w Hw. simpl. split; [now apply I_emit |].
  split; [exists [e]; split; [reflexivity | now constructor] | intros; exact Logic.I].
Qed.

Lemma emits_console_error (message : string) : emits I P any (console_error message).
Proof. apply emits_event, P_console. Qed.

Lemma emits_store (f : World -> World) :
  (forall w, trace (f w) = trace w) -> (forall w, I w -> I (f w)) ->
  emits I P any (modify f).
Proof.
  intros Htrace Hf w Hw. simpl. split; [now apply Hf |].
  split; [exists []; rewrite Htrace, app_nil_r; split; [reflexivity | constructor] |].
  intros; exact Logic.I.
Qed.

Lemma emits_api_get {A} (client : option Client) (path : string) (response : option A) :
  emits I P (fun r => response = Some r /\ client <> None)
        (api_get client path response).
Proof.
  unfold api_get. destruct client; [destruct response |].
  - apply emits_ret. split; [reflexivity | discriminate].
  - apply emits_throw.
  - apply emits_throw.
Qed.

Variable env : Env.

Lemma emits_api_patch (client : option Client) (worksheetId address value : string) :
  (client <> None -> P (Patch worksheetId address value)) ->
  emits I P any (api_patch env client worksheetId address value).
Proof.
  intros Hp. unfold api_patch. destruct client; [| apply emits_throw].
  destruct (patchOk env worksheetId address); [| apply emits_throw].
  apply emits_event, Hp. discriminate.
Qed.

Lemma emits_api_post (client : option Client) (teamId channelId content : string) :
  (client <> None -> P (PostMessage teamId channelId content)) ->
  emits I P any (api_post env client teamId channelId content).
Proof.
  intros Hp. unfold api_post. destruct client; [| apply emits_throw].
  destruct (postOk env teamId channelId); [| apply emits_throw].
  apply emits_event, Hp. discriminate.
Qed.

(** What is known of the client that [getAuthenticatedClient] returns. *)
Variable C : option Client -> Prop.
Hypothesis client_known : emits I P C (getAuthenticatedClient env).

Variable department : Department.
Hypothesis P_patch :
  forall client worksheetId address value,
    C client -> client <> None -> sheet_of env department worksheetId ->
    P (Patch worksheetId address value).
Hypothesis P_post :
  forall client teamId channelId content,
    C client -> client <> None ->
    rollcall_team env teamId -> attendance_channel env teamId channelId ->
    P (PostMessage teamId channelId content).
Hypothesis P_attempt : forall submissions, P (SummaryAttempt submissions).
Hypothesis I_attendance : forall key v w, I w -> I (setItem_attendance key v w).
Hypothesis I_submissions : forall key v w, I w -> I (setItem_submissions key v w).

Lemma emits_getExcelFileId : emits I P any getExcelFileId.
Proof.
  unfold getExcelFileId. apply emits_try_catch.
  - cbv zeta. destruct (truthy _); [now apply emits_ret | apply emits_throw].
  - intros e. eapply emits_bind; [apply emits_console_error | intros; apply emits_throw].
Qed.

Lemma emits_getTeamId : emits I P (rollcall_team env) (getTeamId env).
Proof.
  unfold getTeamId. apply emits_try_catch.
  - eapply emits_bind; [apply client_known | intros client _].
    eapply emits_bind; [apply emits_api_get | intros teams [Hteams _]].
    destruct (find _ teams) as [team |] eqn:Hfind; [| apply emits_throw].
    apply emits_ret. exists teams, team. auto.
  - intros e. eapply emits_bind; [apply emits_console_error | intros; apply emits_throw].
Qed.

Lemma emits_getChannelId (teamId : string) :
  emits I P (attendance_channel env teamId) (getChannelId env teamId).
Proof.
  unfold getChannelId. apply emits_try_catch.
  - eapply emits_bind; [apply client_known | intros client _].
    eapply emits_bind; [apply emits_api_get | intros found [Hfound _]].
    destruct (find _ found) as [channel |] eqn:Hfind; [| apply emits_throw].
    apply emits_ret. exists found, channel. auto.
  - intros e. eapply emits_bind; [apply emits_console_error | intros; apply emits_throw].
Qed.

Lemma emits_collect_employees (departmentSubmissions : list DepartmentSubmission) :
  forall allEmployees,
    emits I P any (collect_employees env departmentSubmissions allEmployees).
Proof.
  induction departmentSubmissions as [| submission rest IH]; intros allEmployees; simpl.
  - now apply emits_ret.
  - destruct (s_submitted submission); [| apply IH].
    eapply emits_bind; [apply emits_get | intros w _].
    destruct (ls_attendance (localStorage w) !! _) as [[| | employees] |];
      try apply IH;
      (eapply emits_bind; [apply emits_console_error | intros; apply IH]).
Qed.

Lemma emits_sendAttendanceSummaryToTeams
    (departmentSubmissions : list DepartmentSubmission) :
  emits I P any (sendAttendanceSummaryToTeams env departmentSubmissions).
Proof.
  unfold sendAttendanceSummaryToTeams.
  apply emits_try_catch; [| intros; apply emits_console_error].
  eapply emits_bind; [apply emits_event, P_attempt | intros _ _].
  apply emits_try_catch; [| intros; apply emits_console_error].
  eapply emits_bind; [apply client_known | intros client Hclient].
  eapply emits_bind; [apply emits_getTeamId | intros teamId Hteam].
  eapply emits_bind; [apply emits_getChannelId | intros channelId Hchannel].
  eapply emits_bind; [apply emits_collect_employees | intros allEmployees _].
  apply emits_api_post. intros Hsome. eapply P_post; eauto.
Qed.

Lemma emits_submitToExcel (employees : list Employee) :
  emits I P any (submitToExcel env department employees).
Proof.
  unfold submitToExcel.
  eapply emits_bind; [apply client_known | intros client Hclient].
  eapply emits_bind; [apply emits_getExcelFileId | intros fileId _].
  eapply emits_bind; [apply emits_api_get | intros sheets [Hsheets Hsome]].
  destruct (worksheet_for department sheets) as [worksheet |] eqn:Hfound;
    [| apply emits_throw].
  assert (Hpatch : forall address value, P (Patch (ws_id worksheet) address value)).
  { intros address value. apply (P_patch client); auto.
    exists sheets, worksheet. auto. }
  eapply emits_bind; [apply emits_api_get | intros range _].
  eapply emits_bind with (Q := any).
  { unfold todayColumn.
    destruct (match values range with
              | Some (headerRow :: _) => findIndex (cell_is (today env)) headerRow
              | _ => None
              end); [now apply emits_ret |].
    destruct (values range) as [[| headerRow rows] |]; try apply emits_throw.
    cbv zeta. eapply emits_bind; [apply emits_api_patch; auto | intros; now apply emits_ret]. }
  intros todayColumnIndex _.
  destruct (values range) as [rows |]; [| apply emits_throw].
  eapply emits_bind.
  { apply emits_for_of. intros employee. unfold writeEmployee.
    destruct (employeeRowIndex (e_name employee) rows);
      [cbv zeta; apply emits_api_patch; auto | apply emits_console_error]. }
  intros _ _. cbv zeta.
  eapply emits_bind; [apply emits_api_patch; auto | intros _ _].
  apply emits_api_patch; auto.
Qed.

(** A submission sends what its attempt on the spreadsheet sends and what
    the summary sends. *)
Lemma emits_submitAttendance_after (employees : list Employee) :
  emits I P any (submitToExcel env department employees) ->
  emits I P any (submitAttendance env department employees).
Proof.
  intros Hexcel.
  unfold submitAttendance. apply emits_try_catch.
  2: { intros e. eapply emits_bind; [apply emits_console_error | intros; apply emits_throw]. }
  eapply emits_bind with (Q := any).
  { apply emits_try_catch; [exact Hexcel | intros; apply emits_console_error]. }
  intros _ _.
  eapply emits_bind; [apply emits_store; [reflexivity | intros; now apply I_attendance] |].
  intros _ _.
  eapply emits_bind with (Q := any).
  { unfold read_submissions. eapply emits_bind; [apply emits_get | intros w _].
    destruct (ls_submissions (localStorage w) !! _) as [[| | stored] |];
      (now apply emits_ret) || apply emits_throw. }
  intros stored _. cbv zeta.
  eapply emits_bind; [apply emits_store; [reflexivity | intros; now apply I_submissions] |].
  intros _ _.
  eapply emits_bind with (Q := any); [| intros; now apply emits_ret].
  destruct (forallb s_submitted _);
    [apply emits_sendAttendanceSummaryToTeams | now apply emits_ret].
Qed.

Lemma emits_submitAttendance (employees : list Employee) :
  emits I P any (submitAttendance env department employees).
Proof. apply emits_submitAttendance_after, emits_submitToExcel. Qed.

Lemma emits_getEmployeesByDepartment (d : Department) :
  emits I P any (getEmployeesByDepartment env d).
Proof.
  unfold getEmployeesByDepartment. apply emits_try_catch.
  2: { intros e. eapply emits_bind; [apply emits_console_error | intros; now apply emits_ret]. }
  eapply emits_bind; [apply client_known | intros client _].
  apply emits_try_catch.
  2: { intros e. eapply emits_bind; [apply emits_console_error | intros; apply emits_throw]. }
  unfold fetchEmployees.
  eapply emits_bind; [apply emits_getExcelFileId | intros fileId _].
  eapply emits_bind; [apply emits_api_get | intros sheets _].
  destruct (worksheet_for d sheets); [| apply emits_throw].
  eapply emits_bind; [apply emits_api_get | intros range _].
  destruct (values range) as [[| header [| row1 rows]] |]; now apply emits_ret.
Qed.

Lemma emits_submissions_from_excel (client : option Client) (departments : list Department) :
  emits I P any (submissions_from_excel env client departments).
Proof.
  induction departments as [| d rest IH]; simpl; [now apply emits_ret |].
  eapply emits_bind; [apply emits_api_get | intros sheets _].
  destruct (worksheet_for d sheets).
  - eapply emits_bind; [apply emits_api_get | intros range _].
    eapply emits_bind; [exact IH | intros; now apply emits_ret].
  - eapply emits_bind; [exact IH | intros; now apply emits_ret].
Qed.

Lemma emits_getDepartmentSubmissions :
  emits I P any (getDepartmentSubmissions env).
Proof.
  unfold getDepartmentSubmissions. apply emits_try_catch.
  2: { intros e. eapply emits_bind; [apply emits_console_error | intros _ _].
       unfold getMockDepartmentSubmissions.
       eapply emits_bind; [apply emits_get | intros; now apply emits_ret]. }
  eapply emits_bind with (Q := any).
  { unfold submissions_from_storage. eapply emits_bind; [apply emits_get | intros w _].
    destruct (ls_submissions (localStorage w) !! _) as [[| | [| s l]] |];
      try (now apply emits_ret).
    eapply emits_bind; [apply emits_console_error | intros; now apply emits_ret]. }
  intros [submissions |] _; [now apply emits_ret |].
  apply emits_try_catch.
  2: { intros e. eapply emits_bind; [apply emits_console_error | intros; apply emits_throw]. }
  eapply emits_bind; [apply client_known | intros client _].
  eapply emits_bind; [apply emits_getExcelFileId | intros fileId _].
  eapply emits_bind; [apply emits_submissions_from_excel | intros found _].
  eapply emits_bind; [apply emits_store; [reflexivity | intros; now apply I_submissions] |].
  intros; now apply emits_ret.
Qed.

End Emits.

Lemma emits_client_any (env : Env) (P : Event -> Prop) :
  (forall message, P (ConsoleError message)) ->
  emits (fun _ => True) P any (getAuthenticatedClient env).
Proof.
  intros Hconsole. unfold getAuthenticatedClient.
  apply emits_try_catch.
  - eapply emits_bind; [apply emits_get | intros w _].
    destruct (ls_mockUser (localStorage w)) as [mockUserJson |];
      [destruct (truthy mockUserJson); [apply emits_throw |] |];
      (destruct (getToken env); [now apply emits_ret | apply emits_throw]).
  - intros e. eapply emits_bind; [apply emits_console_error; auto |].
    intros; now apply emits_ret.
Qed.

(** The state in which no client can be had: a mock user is stored or
    [authService.getToken()] rejects. *)
Lemma emits_client_null (env : Env) (P : Event -> Prop) :
  (forall message, P (ConsoleError message)) ->
  emits (fun w => mock_mode w \/ getToken env = None) P (fun client => client = None)
        (getAuthenticatedClient env).
Proof.
  intros Hconsole. unfold getAuthenticatedClient.
  apply emits_try_catch.
  - eapply emits_bind; [apply emits_get | intros w Hw].
    destruct (ls_mockUser (localStorage w)) as [mockUserJson |] eqn:Hstored;
      [destruct (truthy mockUserJson) eqn:Htruthy; [apply emits_throw |] |];
      (destruct (getToken env) eqn:Htoken; [| apply emits_throw]);
      exfalso; destruct Hw as [(j & Hj & Hjt) | Hnone]; congruence.
  - intros e. eapply emits_bind; [apply emits_console_error; auto |].
    intros; now apply emits_ret.
Qed.

(** X3. With a mock user stored, or when no token can be had, the service
    sends nothing to the remote service: submitting attendance, sending the
    summary, listing the employees and reading the submissions append no
    accepted request to the trace. *)
Theorem nothing_is_sent_without_a_client
    (env : Env) (department : Department) (employees : list Employee)
    (departmentSubmissions : list DepartmentSubmission) (w : World) :
  mock_mode w \/ getToken env = None ->
  (exists added,
      trace (snd (submitAttendance env department employees w)) = trace w ++ added
      /\ Forall (fun e => is_request e = false) added)
  /\ (exists added,
        trace (snd (sendAttendanceSummaryToTeams env departmentSubmissions w))
        = trace w ++ added
        /\ Forall (fun e => is_request e = false) added)
  /\ (exists added,
        trace (snd (getEmployeesByDepartment env department w)) = trace w ++ added
        /\ Forall (fun e => is_request e = false) added)
  /\ (exists added,
        trace (snd (getDepartmentSubmissions env w)) = trace w ++ added
        /\ Forall (fun e => is_request e = false) added).
Proof.
  intros Hw.
  set (I := fun w => mock_mode w \/ getToken env = None).
  set (P := fun e => is_request e = false).
  assert (Hemit : forall e w, I w -> I (emit e w)) by (intros e v Hv; exact Hv).
  assert (Hconsole : forall message, P (ConsoleError message)) by reflexivity.
  assert (Hclient : emits I P (fun client => client = None) (getAuthenticatedClient env))
    by (apply emits_client_null; exact Hconsole).
  assert (Hpatch : forall (client : option Client) worksheetId address value,
             client = None -> client <> None -> sheet_of env department worksheetId ->
             P (Patch worksheetId address value)) by (intros; congruence).
  assert (Hpost : forall (client : option Client) teamId channelId content,
             client = None -> client <> None ->
             rollcall_team env teamId -> attendance_channel env teamId channelId ->
             P (PostMessage teamId channelId content)) by (intros; congruence).
  assert (Hattempt : forall submissions, P (SummaryAttempt submissions)) by reflexivity.
  assert (Hatt : forall key v w, I w -> I (setItem_attendance key v w))
    by (intros key v u Hu; exact Hu).
  assert (Hsub : forall key v w, I w -> I (setItem_submissions key v w))
    by (intros key v u Hu; exact Hu).
  repeat split.
  - apply (emits_submitAttendance I P Hemit Hconsole env _ Hclient department
             Hpatch Hpost Hattempt Hatt Hsub employees w Hw).
  - apply (emits_sendAttendanceSummaryToTeams I P Hemit Hconsole env _ Hclient
             Hpost Hattempt departmentSubmissions w Hw).
  - apply (emits_getEmployeesByDepartment I P Hemit Hconsole env _ Hclient
             department w Hw).
  - apply (emits_getDepartmentSubmissions I P Hemit Hconsole env _ Hclient
             Hsub w Hw).
Qed.

Lemma nothing_is_sent_without_a_client_witness :
  exists added,
    trace (snd (submitAttendance online Animation [john] fresh_day)) = [] ++ added
    /\ Forall (fun e => is_request e = false) added.
Proof.
  apply (nothing_is_sent_without_a_client online Animation [john] [] fresh_day).
  left. exists "{name:user,email:user@example.com}". split; reflexivity.
Defined.

(** X4. Every request the service sends while attendance is submitted for a
    department is addressed as configured: a cell write goes to the
    worksheet named after that department, a message goes to the channel
    named "Attendance" of the joined team named "Rollcall". *)
Theorem requests_are_addressed
    (env : Env) (department : Department) (employees : list Employee) (w : World) :
  exists added,
    trace (snd (submitAttendance env department employees w)) = trace w ++ added
    /\ Forall (addressed env department) added.
Proof.
  set (I := fun _ : World => True).
  set (P := addressed env department).
  assert (Hconsole : forall message, P (ConsoleError message)) by (intros; exact Logic.I).
  refine (proj1 (proj2 (emits_submitAttendance I P _ Hconsole env any _ department
                          _ _ _ _ _ employees w Logic.I))); unfold I, P; simpl; auto.
  apply emits_client_any. exact Hconsole.
Qed.

(** ** The status written for an employee *)

Lemma for_of_app {A B} (xs ys : list A) (body : A -> M World unit)
    (k : unit -> M World B) (w : World) :
  bind (for_of (xs ++ ys) body) k w
  = bind (for_of xs body) (fun _ => bind (for_of ys body) k) w.
Proof.
  revert w. induction xs as [| x xs IH]; intros w; simpl.
  - reflexivity.
  - unfold bind in *.
    destruct (body x w) as [[[] | e] w1]; [apply IH | reflexivity].
Qed.

(** From the attempt on the spreadsheet on, a submission only appends to
    the trace, whether the attempt succeeded or not. *)
Lemma submitAttendance_keeps_trace (env : Env) (department : Department)
    (employees : list Employee) (w w1 : World) (r : result unit) :
  submitToExcel env department employees w = (r, w1) ->
  grows w1 (snd (submitAttendance env department employees w)).
Proof.
  intros Hexcel. unfold submitAttendance.
  unfold try_catch at 1. unfold bind at 1. unfold try_catch at 1. rewrite Hexcel.
  assert (Hlogged : exists w1',
            (match r with
             | Ok a => (Ok a, w1)
             | Throw _ => console_error "Error submitting to Excel:" w1
             end) = (Ok tt, w1') /\ grows w1 w1').
  { destruct r as [[] | e].
    - exists w1. split; [reflexivity | apply grows_refl].
    - eexists. split; [reflexivity | apply grows_emit]. }
  destruct Hlogged as (w1' & -> & Hg1).
  apply (grows_trans _ _ _ Hg1).
  unfold bind at 1. unfold modify at 1.
  set (w2 := setItem_attendance _ _ w1').
  unfold bind at 1. rewrite read_submissions_run.
  assert (Hw2 : grows w1' w2) by (exists []; simpl; now rewrite app_nil_r).
  destruct (stored_submissions env w2) as [[| | stored] |].
  2: { simpl. eapply grows_trans; [exact Hw2 | apply grows_emit]. }
  all: cbv zeta; unfold bind at 1; unfold modify at 1;
    match goal with
    | |- context [setItem_submissions ?k ?v ?x] => set (w3 := setItem_submissions k v x)
    end;
    assert (Hw3 : grows w1' w3) by (exists []; simpl; now rewrite app_nil_r);
    unfold bind at 1;
    match goal with
    | |- context [forallb s_submitted ?l] => destruct (forallb s_submitted l)
    end;
    [ match goal with
      | |- context [sendAttendanceSummaryToTeams ?e ?subs ?x] =>
          destruct (summary_send e subs x) as (w4 & -> & _ & _ & Hw4)
      end; simpl; eapply grows_trans; [exact Hw3 | exact Hw4]
    | simpl; exact Hw3 ].
Qed.

Section StatusWritten.

Variable env : Env.
Variable department : Department.
Variable sheets : list Worksheet.
Variable worksheet : Worksheet.
Variable headerRow : list cell.
Variable rows : list (list cell).

(** The workbook answers with the sheet of the department and its rows. *)
Hypothesis sheets_answered : worksheets env = Some sheets.
Hypothesis sheet_found : worksheet_for department sheets = Some worksheet.
Hypothesis range_answered :
  usedRange env (ws_id worksheet) = Some {| values := Some (headerRow :: rows) |}.

(** Every write that the attempt on the spreadsheet makes is one of the
    writes of a submission, whichever of them the remote service accepts. *)
Lemma submitToExcel_sends employees :
  emits (fun _ => True)
        (submission_event env (ws_id worksheet) (headerRow :: rows) employees)
        any
        (submitToExcel env department employees).
Proof.
  set (P := submission_event env (ws_id worksheet) (headerRow :: rows) employees).
  assert (I_emit : forall (e : Event) (w : World), True -> True) by auto.
  assert (P_console : forall message, P (ConsoleError message)) by (intros; exact Logic.I).
  unfold submitToExcel.
  eapply emits_bind; [apply emits_client_any; exact P_console | intros client _].
  eapply emits_bind; [apply emits_getExcelFileId; auto | intros fileId _].
  eapply emits_bind; [apply emits_api_get | intros sheets' [Hsheets Hsome]].
  assert (sheets' = sheets) as -> by congruence.
  rewrite sheet_found.
  eapply emits_bind; [apply emits_api_get | intros range [Hrange _]].
  assert (range = {| values := Some (headerRow :: rows) |}) as -> by congruence.
  eapply emits_bind with (Q := fun index => index = column_of_today env headerRow).
  { unfold todayColumn, column_of_today. cbn [values].
    destruct (findIndex (cell_is (today env)) headerRow) as [todayColumnIndex |] eqn:Hfound.
    - now apply emits_ret.
    - cbv zeta. eapply emits_bind; [| intros _ _; now apply emits_ret].
      apply emits_api_patch; [exact I_emit |].
      intros _. split; [reflexivity |]. left.
      unfold today_letter, column_of_today. rewrite Hfound. auto. }
  intros todayColumnIndex ->. cbn [values].
  eapply emits_bind with (Q := any).
  { assert (Hloop : forall listed,
              incl listed employees ->
              emits (fun _ => True) P any
                    (for_of listed
                       (writeEmployee env client (ws_id worksheet) (headerRow :: rows)
                                      (column_of_today env headerRow)))).
    { induction listed as [| employee listed IH]; intros Hincl; simpl.
      - now apply emits_ret.
      - eapply emits_bind with (Q := any);
          [| intros _ _; apply IH; intros x Hx; apply Hincl; now right].
        unfold writeEmployee.
        destruct (employeeRowIndex (e_name employee) (headerRow :: rows)) as [r |] eqn:Hrow.
        + cbv zeta. apply emits_api_patch; [exact I_emit |].
          intros _. split; [reflexivity |]. right; left.
          exists employee, r. split; [apply Hincl; now left |]. auto.
        + apply emits_console_error; auto. }
    apply Hloop. apply incl_refl. }
  intros _ _. cbv zeta.
  eapply emits_bind with (Q := any).
  { apply emits_api_patch; [exact I_emit |].
    intros _. split; [reflexivity |]. right; right; left. auto. }
  intros _ _.
  apply emits_api_patch; [exact I_emit |].
  intros _. split; [reflexivity |]. right; right; right. auto.
Qed.

Lemma submitAttendance_sends employees :
  emits (fun _ => True)
        (submission_event env (ws_id worksheet) (headerRow :: rows) employees)
        any
        (submitAttendance env department employees).
Proof.
  set (P := submission_event env (ws_id worksheet) (headerRow :: rows) employees).
  assert (P_console : forall message, P (ConsoleError message)) by (intros; exact Logic.I).
  refine (emits_submitAttendance_after (fun _ => True) P _ P_console env any _
            department _ _ _ _ employees (submitToExcel_sends employees));
    try (intros; exact Logic.I).
  apply emits_client_any. exact P_console.
Qed.

Variable token : string.

(** The column of today's date is found, or made when the header write is
    accepted. *)
Lemma todayColumn_run w :
  (findIndex (cell_is (today env)) headerRow = None ->
   patchOk env (ws_id worksheet) (today_letter env headerRow +:+ "1") = true) ->
  exists w1,
    todayColumn env (Some token) (ws_id worksheet)
                {| values := Some (headerRow :: rows) |} w
    = (Ok (column_of_today env headerRow), w1)
    /\ grows w w1.
Proof.
  intros Haccepted. unfold todayColumn, column_of_today, today_letter in *. cbn [values].
  unfold column_of_today in Haccepted.
  destruct (findIndex (cell_is (today env)) headerRow) as [i |].
  - exists w. split; [reflexivity | apply grows_refl].
  - unfold bind, api_patch. rewrite (Haccepted eq_refl).
    eexists. split; [reflexivity | apply grows_emit].
Qed.

(** While the writes are accepted the loop over the employees goes on. *)
Lemma employees_written before :
  (forall listed r,
      In listed before ->
      employeeRowIndex (e_name listed) (headerRow :: rows) = Some r ->
      patchOk env (ws_id worksheet) (today_letter env headerRow +:+ pretty r) = true) ->
  forall w,
  exists w1,
    for_of before
           (writeEmployee env (Some token) (ws_id worksheet) (headerRow :: rows)
                          (column_of_today env headerRow)) w
    = (Ok tt, w1)
    /\ grows w w1.
Proof.
  induction before as [| x before IH]; intros Haccepted w.
  - exists w. split; [reflexivity | apply grows_refl].
  - simpl. unfold bind at 1.
    assert (Hx : exists wx,
               writeEmployee env (Some token) (ws_id worksheet) (headerRow :: rows)
                             (column_of_today env headerRow) x w = (Ok tt, wx)
               /\ grows w wx).
    { unfold writeEmployee.
      destruct (employeeRowIndex (e_name x) (headerRow :: rows)) as [r |] eqn:Hrow.
      - cbv zeta. unfold api_patch.
        fold (today_letter env headerRow).
        rewrite (Haccepted x r (or_introl eq_refl) Hrow).
        eexists. split; [reflexivity | apply grows_emit].
      - eexists. split; [reflexivity | apply grows_emit]. }
    destruct Hx as (wx & -> & Hgx).
    destruct (IH (fun listed r Hin => Haccepted listed r (or_intror Hin)) wx)
      as (w1 & Hrun & Hg1).
    exists w1. split; [exact Hrun | eapply grows_trans; eassumption].
Qed.

(** With a token and the writes up to the cell of an employee accepted,
    that cell is written, with the status chosen or "absent". *)
Lemma submitToExcel_writes before employee after r w :
  ls_mockUser (localStorage w) = None ->
  getToken env = Some token ->
  employeeRowIndex (e_name employee) (headerRow :: rows) = Some r ->
  (findIndex (cell_is (today env)) headerRow = None ->
   patchOk env (ws_id worksheet) (today_letter env headerRow +:+ "1") = true) ->
  (forall listed r',
      In listed before ->
      employeeRowIndex (e_name listed) (headerRow :: rows) = Some r' ->
      patchOk env (ws_id worksheet) (today_letter env headerRow +:+ pretty r') = true) ->
  patchOk env (ws_id worksheet) (today_letter env headerRow +:+ pretty r) = true ->
  In (Patch (ws_id worksheet) (today_letter env headerRow +:+ pretty r)
            (status_or_absent employee))
     (trace (snd (submitToExcel env department (before ++ employee :: after) w))).
Proof.
  intros Hmock Htoken Hrow Hheader Hbefore Hcell.
  unfold submitToExcel.
  assert (Hclient : getAuthenticatedClient env w = (Ok (Some token), w)).
  { unfold getAuthenticatedClient, try_catch, bind, get. now rewrite Hmock, Htoken. }
  unfold bind at 1. rewrite Hclient.
  unfold bind at 1. rewrite getExcelFileId_run.
  unfold bind at 1. unfold api_get at 1. rewrite sheets_answered. unfold ret at 1.
  rewrite sheet_found.
  unfold bind at 1. unfold api_get at 1. rewrite range_answered. unfold ret at 1.
  destruct (todayColumn_run w Hheader) as (wa & Hcol & _).
  unfold bind at 1. rewrite Hcol. cbn [values].
  rewrite for_of_app.
  destruct (employees_written before Hbefore wa) as (wb & Hloop & _).
  unfold bind at 1. rewrite Hloop.
  cbn [for_of]. unfold bind at 1. unfold bind at 1.
  unfold writeEmployee at 1. rewrite Hrow. cbv zeta.
  unfold api_patch at 1. fold (today_letter env headerRow). rewrite Hcell.
  unfold modify at 1.
  set (written := emit _ wb).
  assert (Hin : In (Patch (ws_id worksheet) (today_letter env headerRow +:+ pretty r)
                          (status_or_absent employee)) (trace written)).
  { unfold written. simpl. apply in_or_app. right. now left. }
  assert (Hrest : forall rest : M World unit,
            keeps grows rest ->
            In (Patch (ws_id worksheet) (today_letter env headerRow +:+ pretty r)
                      (status_or_absent employee))
               (trace (snd (rest written)))).
  { intros rest Hkeeps. eapply grows_In; [apply Hkeeps | exact Hin]. }
  refine (Hrest (bind (for_of after _)
                      (fun _ => bind (api_patch env _ _ _ _)
                                     (fun _ => api_patch env _ _ _ _))) _).
  apply keeps_bind; try grows_frame.
  - apply keeps_for_of; try grows_frame.
    intros x. apply keeps_writeEmployee; grows_frame.
  - intros _. apply keeps_bind; try grows_frame.
    + apply keeps_api_patch; grows_frame.
    + intros _. apply keeps_api_patch; grows_frame.
Qed.

End StatusWritten.

(** C6 (amended). An employee whose status is unset is recorded as "absent"
    by a submission made through the attendance form: [handleSubmit] gives
    every employee without a status the status [absent] before it calls
    [submitAttendance], so the record stored for the day holds "absent" for
    that employee and a concrete status for every employee. On its own,
    [submitAttendance] stores the list it was given as it is, and applies
    the default to the cell it writes for an employee found in the
    worksheet: whatever the remote service accepts, every write it makes is
    the header of today's column, the cell of a listed employee in today's
    column and in the row of that employee, carrying the status chosen or
    "absent", or one of the two cells of the marker row; and the cell of the
    employee is written, with "absent", once the writes before it and its
    own are accepted. *)
Theorem unset_status_is_recorded_absent
    (env : Env) (department : Department) (employees : list Employee)
    (employee : Employee) (w : World) :
  In employee employees ->
  e_status employee = None ->
  (exists stored,
      stored_attendance env department
        (snd (AttendanceForm.handleSubmit env department employees w)) = Some (Arr stored)
      /\ In (AttendanceForm.withStatus employee) stored
      /\ e_status (AttendanceForm.withStatus employee) = Some absent
      /\ Forall (fun e => e_status e <> None) stored)
  /\ stored_attendance env department
       (snd (submitAttendance env department employees w)) = Some (Arr employees)
  /\ (forall sheets worksheet headerRow rows,
         worksheets env = Some sheets ->
         worksheet_for department sheets = Some worksheet ->
         usedRange env (ws_id worksheet)
           = Some {| values := Some (headerRow :: rows) |} ->
         (exists added,
             trace (snd (submitAttendance env department employees w))
             = trace w ++ added
             /\ Forall (submission_event env (ws_id worksheet) (headerRow :: rows)
                                         employees) added)
         /\ forall token r before after,
              employees = before ++ employee :: after ->
              ls_mockUser (localStorage w) = None ->
              getToken env = Some token ->
              employeeRowIndex (e_name employee) (headerRow :: rows) = Some r ->
              (findIndex (cell_is (today env)) headerRow = None ->
               patchOk env (ws_id worksheet) (today_letter env headerRow +:+ "1") = true) ->
              (forall listed r',
                  In listed before ->
                  employeeRowIndex (e_name listed) (headerRow :: rows) = Some r' ->
                  patchOk env (ws_id worksheet)
                          (today_letter env headerRow +:+ pretty r') = true) ->
              patchOk env (ws_id worksheet) (today_letter env headerRow +:+ pretty r)
              = true ->
              In (Patch (ws_id worksheet) (today_letter env headerRow +:+ pretty r)
                        "absent")
                 (trace (snd (submitAttendance env department employees w)))).
Proof.
  intros Hin Hunset. split; [| split].
  - exists (map AttendanceForm.withStatus employees).
    split; [apply handleSubmit_stores |].
    split; [now apply in_map |].
    split; [simpl; now rewrite Hunset | apply withStatus_concrete].
  - apply submitAttendance_stores_attendance.
  - intros sheets worksheet headerRow rows Hsheets Hfound Hrange. split.
    + exact (proj1 (proj2 (submitAttendance_sends env department sheets worksheet
                             headerRow rows Hsheets Hfound Hrange employees w Logic.I))).
    + intros token r before after Hsplit Hmock Htoken Hrow Hheader Hbefore Hcell.
      pose proof (submitToExcel_writes env department sheets worksheet headerRow rows
                    Hsheets Hfound Hrange token before employee after r w
                    Hmock Htoken Hrow Hheader Hbefore Hcell) as Hwritten.
      rewrite <- Hsplit in Hwritten.
      unfold status_or_absent in Hwritten. rewrite Hunset in Hwritten.
      destruct (submitToExcel env department employees w) as [res w1] eqn:Hexcel.
      eapply grows_In; [eapply submitAttendance_keeps_trace; exact Hexcel |].
      exact Hwritten.
Qed.

Lemma unset_status_is_recorded_absent_witness :
  (exists stored,
      stored_attendance online Animation
        (snd (AttendanceForm.handleSubmit online Animation [john] signed_in))
      = Some (Arr stored)
      /\ In (AttendanceForm.withStatus john) stored
      /\ e_status (AttendanceForm.withStatus john) = Some absent
      /\ Forall (fun e => e_status e <> None) stored)
  /\ stored_attendance online Animation
       (snd (submitAttendance online Animation [john] signed_in)) = Some (Arr [john])
  /\ today_letter online [CStr "Name"; CStr "2025-03-13"] = "C"
  /\ In (Patch "sheet-1" "C2" "absent")
        (trace (snd (submitAttendance online Animation [john] signed_in))).
Proof.
  destruct (unset_status_is_recorded_absent online Animation [john] john signed_in)
    as (Hlocal & Hstored & Hremote); [now left | reflexivity |].
  split; [exact Hlocal |]. split; [exact Hstored |]. split; [reflexivity |].
  destruct (Hremote [animation_sheet] animation_sheet
              [CStr "Name"; CStr "2025-03-13"] [[CStr "John Smith"; CStr "present"]]
              eq_refl eq_refl eq_refl) as [_ Hcell].
  apply (Hcell "token" 2%nat [] []); reflexivity.
Defined.

(** ** Reading the submissions of the day *)

Lemma department_submissions_are_always_listed_aux (env : Env) (w : World) :
  exists submissions,
    fst (getDepartmentSubmissions env w) = Ok submissions /\ submissions <> [].
Proof.
  destruct (getDepartmentSubmissions_run env w)
    as [(s & l & Hstored & ->) | (Hnot & submissions & w' & -> & Hdeps & _)].
  - eexists. split; [reflexivity | discriminate].
  - exists submissions. split; [reflexivity | intros ->; discriminate].
Qed.

(** X5. [getDepartmentSubmissions] never fails and never returns an empty
    list: it returns the stored list when a non-empty array is stored for
    the day, and otherwise a list with one entry for each of the five
    departments, in the order of [DEPARTMENTS]. *)
Theorem department_submissions_are_always_listed (env : Env) (w : World) :
  exists submissions,
    fst (getDepartmentSubmissions env w) = Ok submissions
    /\ submissions <> []
    /\ ((exists stored,
            stored_submissions env w = Some (Arr stored)
            /\ submissions = map revive stored)
        \/ (served_locally (stored_submissions env w) = false
            /\ map s_department submissions = DEPARTMENTS)).
Proof.
  destruct (getDepartmentSubmissions_run env w)
    as [(s & l & Hstored & ->) | (Hnot & submissions & w' & -> & Hdeps & _)].
  - eexists. split; [reflexivity |]. split; [discriminate |]. left. eauto.
  - exists submissions. split; [reflexivity |].
    split; [intros ->; discriminate | right; auto].
Qed.

(** X6. A list answered by the remote service is stored: when a call has
    written the day's submissions, the next call of that day returns the
    same list and leaves everything as it is, whatever the remote service
    would answer by then. *)
Theorem remote_answer_is_served_again (env env' : Env) (w : World) :
  today env' = today env ->
  ls_submissions (localStorage (snd (getDepartmentSubmissions env w)))
    <> ls_submissions (localStorage w) ->
  exists submissions,
    fst (getDepartmentSubmissions env w) = Ok submissions
    /\ map s_department submissions = DEPARTMENTS
    /\ getDepartmentSubmissions env' (snd (getDepartmentSubmissions env w))
       = (Ok (map revive submissions), snd (getDepartmentSubmissions env w)).
Proof.
  intros Hday Hwritten.
  destruct (getDepartmentSubmissions_run env w)
    as [(s & l & Hstored & Hrun)
       | (Hnot & submissions & w' & Hrun & Hdeps & [(_ & _ & Hw') | (Hw' & _)])];
    rewrite Hrun in *; simpl in *.
  - contradiction.
  - exists submissions. split; [reflexivity |]. split; [exact Hdeps |].
    destruct submissions as [| s l]; [discriminate |].
    apply getDepartmentSubmissions_from_storage.
    unfold stored_submissions. rewrite Hday, Hw'. simpl. apply lookup_insert_eq.
  - rewrite Hw' in Hwritten. contradiction.
Qed.

Lemma remote_answer_is_served_again_witness :
  exists submissions,
    fst (getDepartmentSubmissions online signed_in) = Ok submissions
    /\ map s_department submissions = DEPARTMENTS
    /\ getDepartmentSubmissions offline (snd (getDepartmentSubmissions online signed_in))
       = (Ok (map revive submissions), snd (getDepartmentSubmissions online signed_in)).
Proof.
  apply (remote_answer_is_served_again online offline signed_in eq_refl).
  intros H. apply (f_equal (fun m => m !! submissions_key (today online))) in H.
  vm_compute in H. discriminate.
Defined.

Lemma mock_submissions_reports (env : Env) (w : World) (department : Department) :
  reports_submitted department (mock_submissions env w) <->
  stored_attendance env department w <> None.
Proof.
  unfold stored_attendance, mock_submissions. split.
  - intros (s & Hin & Hd & Hs). apply in_map_iff in Hin as (d & <- & _).
    destruct (ls_attendance (localStorage w) !! attendance_key d (today env)) eqn:Hd';
      simpl in *; [| discriminate].
    subst d. now rewrite Hd'.
  - intros Hstored.
    destruct (ls_attendance (localStorage w) !! attendance_key department (today env))
      as [v |] eqn:Hd; [| congruence].
    exists {| s_department := department; s_submitted := true;
              s_submittedAt := Some (mockSubmittedAt env department) |}.
    split; [| auto]. apply in_map_iff. exists department. rewrite Hd.
    split; [reflexivity |]. destruct department; simpl; auto 6.
Qed.

(** X7. With no usable list stored for the day and no client to be had (a
    mock user is stored or no token can be had), the submissions are read
    off the attendance stored for the day: a department is reported as
    submitted exactly when attendance is stored for it, and storage is left
    as it is. *)
Theorem fallback_submissions_follow_attendance
    (env : Env) (w : World) (department : Department) :
  served_locally (stored_submissions env w) = false ->
  mock_mode w \/ getToken env = None ->
  getDepartmentSubmissions env w
    = (Ok (mock_submissions env w), snd (getDepartmentSubmissions env w))
  /\ localStorage (snd (getDepartmentSubmissions env w)) = localStorage w
  /\ (reports_submitted department (mock_submissions env w) <->
      stored_attendance env department w <> None).
Proof.
  intros Hnot Hclient.
  destruct (getDepartmentSubmissions_run env w)
    as [(s & l & Hstored & Hrun)
       | (_ & submissions & w' & Hrun & Hdeps
          & [(Hmock & Htoken & _) | (Hw' & ->)])].
  - rewrite Hstored in Hnot. discriminate.
  - destruct Hclient; contradiction.
  - rewrite Hrun. simpl. split; [reflexivity |]. split; [exact Hw' |].
    apply mock_submissions_reports.
Qed.

Lemma fallback_submissions_follow_attendance_witness :
  (reports_submitted Animation
     (mock_submissions offline
        (setItem_attendance (attendance_key Animation "2025-03-14") (Arr [john])
                            fresh_day))
   <-> stored_attendance offline Animation
         (setItem_attendance (attendance_key Animation "2025-03-14") (Arr [john])
                             fresh_day) <> None).
Proof.
  apply (fallback_submissions_follow_attendance offline
           (setItem_attendance (attendance_key Animation "2025-03-14") (Arr [john])
                               fresh_day) Animation).
  - reflexivity.
  - right. reflexivity.
Defined.

(** X8. [fetchSubmissions] of the tracker always ends with a non-empty list
    to show, no error and neither [loading] nor [refreshing] set: its error
    branch cannot be reached, since the service answers from one of its
    three tiers. *)
Theorem tracker_fetch_never_errs
    (env : Env) (st : SubmissionTracker.State) (w : World) :
  let st' := fst (SubmissionTracker.fetchSubmissions env st w) in
  SubmissionTracker.error st' = None
  /\ SubmissionTracker.loading st' = false
  /\ SubmissionTracker.refreshing st' = false
  /\ SubmissionTracker.submissions st' <> []
  /\ fst (getDepartmentSubmissions env w) = Ok (SubmissionTracker.submissions st').
Proof.
  destruct (department_submissions_are_always_listed_aux env w)
    as (submissions & Hrun & Hne).
  unfold SubmissionTracker.fetchSubmissions.
  destruct (getDepartmentSubmissions env w) as [[l | e] w'] eqn:Hcall;
    simpl in Hrun; [| discriminate].
  injection Hrun as ->. simpl. auto.
Qed.

(** ** What a submission leaves alone *)

Lemma attendance_key_inj (d d' : Department) (day day' : string) :
  attendance_key d day = attendance_key d' day' -> d = d' /\ day = day'.
Proof.
  unfold attendance_key. intros H.
  destruct d, d'; vm_compute in H; try discriminate; inversion H; auto.
Qed.

Lemma submissions_key_inj (day day' : string) :
  submissions_key day = submissions_key day' -> day = day'.
Proof. unfold submissions_key. intros H. vm_compute in H. now inversion H. Qed.

Lemma mark_submitted_others (env : Env) (department : Department)
    (submissions : list DepartmentSubmission) :
  List.filter (fun s => negb (department_eqb (s_department s) department))
              (mark_submitted env department submissions)
  = List.filter (fun s => negb (department_eqb (s_department s) department)) submissions.
Proof.
  induction submissions as [| s l IH].
  - simpl. unfold department_eqb. now rewrite bool_decide_eq_true_2.
  - rewrite mark_submitted_cons.
    destruct (department_eqb (s_department s) department) eqn:Hs; simpl.
    + rewrite Hs. unfold department_eqb at 1.
      now rewrite bool_decide_eq_true_2.
    + rewrite Hs. simpl. now rewrite IH.
Qed.

Lemma mark_submitted_keeps_reports (env : Env) (department other : Department)
    (submissions : list DepartmentSubmission) :
  reports_submitted other submissions ->
  reports_submitted other (mark_submitted env department submissions).
Proof.
  intros (s & Hin & Hd & Hs).
  destruct (decide (other = department)) as [-> | Hne];
    [apply mark_submitted_reports |].
  exists s. split; [| auto].
  assert (Hkeep : negb (department_eqb (s_department s) department) = true).
  { apply negb_true_iff, department_eqb_false. congruence. }
  assert (Hf : In s (List.filter
                       (fun s => negb (department_eqb (s_department s) department))
                       submissions)) by (apply List.filter_In; auto).
  rewrite <- (mark_submitted_others env) in Hf.
  now apply List.filter_In in Hf.
Qed.

(** X9. A submission touches only what belongs to its department and day:
    the attendance stored for any other department or day, the submissions
    stored for any other day and the mock user are as before; in the day's
    list the entries of the other departments are the same, in the same
    order, and no department that was reported as submitted ceases to be. *)
Theorem submission_leaves_the_rest_alone
    (env : Env) (department : Department) (employees : list Employee) (w : World) :
  stored_submissions env w <> Some NonArray ->
  let w' := snd (submitAttendance env department employees w) in
  (forall other day,
      other <> department \/ day <> today env ->
      ls_attendance (localStorage w') !! attendance_key other day
      = ls_attendance (localStorage w) !! attendance_key other day)
  /\ (forall day,
         day <> today env ->
         ls_submissions (localStorage w') !! submissions_key day
         = ls_submissions (localStorage w) !! submissions_key day)
  /\ ls_mockUser (localStorage w') = ls_mockUser (localStorage w)
  /\ exists after,
       stored_submissions env w' = Some (Arr after)
       /\ List.filter (fun s => negb (department_eqb (s_department s) department)) after
          = List.filter (fun s => negb (department_eqb (s_department s) department))
                        (submissions_read (stored_submissions env w))
       /\ forall other,
            reports_submitted other (submissions_read (stored_submissions env w)) ->
            reports_submitted other after.
Proof.
  intros Hstored w'.
  destruct (submitAttendance_run env department employees w Hstored)
    as (v & Hrun & Hatt & Hsubs & Hmock & _).
  unfold w'. rewrite Hrun. simpl. repeat split.
  - intros other day Hother. rewrite Hatt. apply lookup_insert_ne.
    intros [Hd Hday]%attendance_key_inj. destruct Hother; congruence.
  - intros day Hday. rewrite Hsubs. apply lookup_insert_ne.
    intros Heq%submissions_key_inj. congruence.
  - exact Hmock.
  - eexists. split; [unfold stored_submissions; rewrite Hsubs; apply lookup_insert_eq |].
    split; [apply mark_submitted_others |].
    intros other. apply mark_submitted_keeps_reports.
Qed.

Lemma submission_leaves_the_rest_alone_witness :
  let w := snd (submitAttendance offline eLearning [] fresh_day) in
  let w' := snd (submitAttendance offline_later Animation [john] w) in
  stored_submissions offline_later w <> Some NonArray
  /\ ls_attendance (localStorage w') !! attendance_key eLearning "2025-03-14"
     = ls_attendance (localStorage w) !! attendance_key eLearning "2025-03-14"
  /\ exists after,
       stored_submissions offline_later w' = Some (Arr after)
       /\ reports_submitted eLearning after.
Proof.
  intros w w'.
  assert (Hstored : stored_submissions offline_later w <> Some NonArray)
    by (vm_compute; discriminate).
  destruct (submission_leaves_the_rest_alone offline_later Animation [john] w Hstored)
    as (Hatt & _ & _ & after & Hafter & _ & Hkeeps).
  split; [exact Hstored |]. split; [apply Hatt; left; discriminate |].
  exists after. split; [exact Hafter |]. apply Hkeeps.
  exists (submitted_now offline eLearning). vm_compute. auto.
Defined.

(** ** The roster of a department, continued *)

Lemma employees_from_shape (department : Department) (rows : list (list cell)) :
  forall i,
    Forall (fun e =>
              e_department e = department /\ e_status e = None /\ e_name e <> ""
              /\ exists j, (i <= j)%nat
                           /\ e_id e = department_name department +:+ "-" +:+ pretty j)
           (employees_from department i rows).
Proof.
  induction rows as [| row rows IH]; intros i; simpl; [constructor |].
  assert (Hrest : Forall (fun e =>
              e_department e = department /\ e_status e = None /\ e_name e <> ""
              /\ exists j, (i <= j)%nat
                           /\ e_id e = department_name department +:+ "-" +:+ pretty j)
           (employees_from department (S i) rows)).
  { eapply Forall_impl; [apply (IH (S i)) |].
    intros e (Hd & Hs & Hn & j & Hj & Hid). repeat split; auto.
    exists j. split; [lia | auto]. }
  destruct row as [| [name | n | b] cells]; try exact Hrest.
  destruct (truthy name) eqn:Htruthy; simpl; [| exact Hrest].
  destruct (blank name); simpl; [exact Hrest |].
  constructor; [| exact Hrest]. simpl. repeat split.
  - intros ->. discriminate.
  - exists i. split; [lia | reflexivity].
Qed.

Lemma employees_from_ids (department : Department) (rows : list (list cell)) :
  forall i, NoDup (map e_id (employees_from department i rows)).
Proof.
  induction rows as [| row rows IH]; intros i; simpl; [constructor |].
  destruct row as [| [name | n | b] cells]; try apply IH.
  destruct (truthy name && negb (blank name)); [| apply IH].
  simpl. apply NoDup_cons. split; [| apply IH].
  intros Hin. apply list_elem_of_In, in_map_iff in Hin as (e & Hid & Hin).
  pose proof (employees_from_shape department rows (S i)) as Hshape.
  rewrite Forall_forall in Hshape.
  destruct (Hshape e) as (_ & _ & _ & j & Hj & Hid'); [now apply list_elem_of_In |].
  rewrite Hid' in Hid.
  apply (inj (String.app (department_name department))) in Hid.
  apply (inj (String.app "-")) in Hid.
  apply (inj pretty) in Hid. lia.
Qed.

Lemma getMockEmployees_ids (department : Department) :
  NoDup (map e_id (getMockEmployees department))
  /\ Forall (fun e => e_status e = None /\ e_name e <> "") (getMockEmployees department).
Proof.
  split.
  - apply NoDup_ListNoDup.
    destruct department; vm_compute; repeat constructor; simpl; intuition discriminate.
  - destruct department; vm_compute; repeat constructor; discriminate.
Qed.

(** What [getEmployeesByDepartment] returns: the mock roster, or the
    employees read off the rows below the header. *)
Lemma getEmployeesByDepartment_run (env : Env) (department : Department) (w : World) :
  exists employees,
    fst (getEmployeesByDepartment env department w) = Ok employees
    /\ (employees = getMockEmployees department
        \/ employees = []
        \/ exists rows, employees = employees_from department 1 rows).
Proof.
  destruct (getAuthenticatedClient_run env w) as (client & w1 & Hclient & _).
  unfold getEmployeesByDepartment.
  unfold try_catch at 1. unfold bind at 1. rewrite Hclient.
  unfold try_catch at 1.
  destruct (fetchEmployees env client department w1) as [[employees | e] w2] eqn:Hfetch.
  - exists employees. split; [reflexivity |]. right.
    unfold fetchEmployees in Hfetch.
    apply bind_ok in Hfetch as (fileId & wa & _ & Hfetch).
    apply bind_ok in Hfetch as (sheets & wb & _ & Hfetch).
    destruct (worksheet_for department sheets); [| discriminate].
    apply bind_ok in Hfetch as (range & wc & _ & Hfetch).
    destruct (values range) as [[| header [| row1 rows]] |];
      injection Hfetch as <- _;
      [now left | now left | right; exists (row1 :: rows); reflexivity | now left].
  - eexists. split; [reflexivity | now left].
Qed.

(** X10. [getEmployeesByDepartment] never fails, and in whichever way it is
    answered every employee it returns belongs to the department asked for,
    has no status yet and a non-empty name, and no two of them share an id. *)
Theorem roster_is_well_formed (env : Env) (department : Department) (w : World) :
  exists employees,
    fst (getEmployeesByDepartment env department w) = Ok employees
    /\ Forall (fun e => e_department e = department
                        /\ e_status e = None
                        /\ e_name e <> "") employees
    /\ NoDup (map e_id employees).
Proof.
  destruct (getEmployeesByDepartment_run env department w)
    as (employees & Hrun & [-> | [-> | (rows & ->)]]);
    eexists; (split; [exact Hrun |]).
  - destruct (getMockEmployees_shape department) as [_ Hdep].
    destruct (getMockEmployees_ids department) as [Hids Hrest].
    split; [| exact Hids].
    rewrite Forall_forall in *. intros e He.
    destruct (Hrest e He). split; [apply Hdep; exact He | auto].
  - split; constructor.
  - split; [| apply employees_from_ids].
    eapply Forall_impl; [apply employees_from_shape |].
    intros e (Hd & Hs & Hn & _). auto.
Qed.

(** ** The summary message *)

Lemma names_with_summarised (status : AttendanceStatus) (p : Employee -> bool)
    (allEmployees : list Employee) :
  status <> onsite ->
  names_with status (List.filter p (List.filter summarised allEmployees))
  = names_with status (List.filter p allEmployees).
Proof.
  intros Hstatus. unfold names_with. do 2 f_equal.
  induction allEmployees as [| e l IH]; [reflexivity |].
  simpl. destruct (summarised e) eqn:Hsum; simpl.
  - destruct (p e); simpl; [| exact IH]. now rewrite IH.
  - destruct (p e); simpl; [| exact IH].
    assert (Hnot : status_is status e = false).
    { unfold status_is, summarised in *. apply bool_decide_eq_false.
      destruct (e_status e) as [[] |]; try discriminate; congruence. }
    now rewrite Hnot.
Qed.

Lemma department_section_summarised (allEmployees : list Employee)
    (department : Department) :
  department_section (List.filter summarised allEmployees) department
  = department_section allEmployees department.
Proof.
  unfold department_section. cbv zeta.
  now rewrite !names_with_summarised by discriminate.
Qed.

(** X11. The summary message has a line for present, late, absent, on leave
    and sick only: employees recorded as on-site, or without a status, are
    named nowhere in it. Leaving them out of the list changes nothing. *)
Theorem summary_names_five_statuses_only (env : Env) (allEmployees : list Employee) :
  summary_message env (List.filter summarised allEmployees)
  = summary_message env allEmployees.
Proof.
  unfold summary_message, DEPARTMENTS. cbn [fold_left].
  now rewrite !department_section_summarised.
Qed.

(** ** The attendance form, continued *)

Lemma handleStatusChange_twice (employeeId : string) (first second : AttendanceStatus)
    (employees : list Employee) :
  AttendanceForm.handleStatusChange employeeId second
    (AttendanceForm.handleStatusChange employeeId first employees)
  = AttendanceForm.handleStatusChange employeeId second employees.
Proof.
  unfold AttendanceForm.handleStatusChange. rewrite map_map.
  apply map_ext. intros e. destruct (String.eqb (e_id e) employeeId) eqn:He; simpl;
    now rewrite He.
Qed.

(** X12. [handleStatusChange] sets the status of the employees with the given
    id and of no one else: ids, names and departments are as before, in the
    same order; every employee with that id has the new status; every other
    employee is unchanged; and a later choice for the same id replaces the
    earlier one. *)
Theorem status_change_is_local (employeeId : string) (status earlier : AttendanceStatus)
    (employees : list Employee) :
  let changed := AttendanceForm.handleStatusChange employeeId status employees in
  map e_id changed = map e_id employees
  /\ map e_name changed = map e_name employees
  /\ map e_department changed = map e_department employees
  /\ (forall e, In e changed -> e_id e = employeeId -> e_status e = Some status)
  /\ List.filter (fun e => negb (String.eqb (e_id e) employeeId)) changed
     = List.filter (fun e => negb (String.eqb (e_id e) employeeId)) employees
  /\ AttendanceForm.handleStatusChange employeeId status
       (AttendanceForm.handleStatusChange employeeId earlier employees) = changed.
Proof.
  intros changed. unfold changed, AttendanceForm.handleStatusChange.
  repeat split.
  - rewrite map_map. apply map_ext. intros e. now destruct (String.eqb _ _).
  - rewrite map_map. apply map_ext. intros e. now destruct (String.eqb _ _).
  - rewrite map_map. apply map_ext. intros e. now destruct (String.eqb _ _).
  - intros e (x & <- & _)%in_map_iff.
    destruct (String.eqb (e_id x) employeeId) eqn:Hx; simpl; [reflexivity |].
    intros Hid. apply String.eqb_neq in Hx. contradiction.
  - induction employees as [| e l IH]; [reflexivity |]. simpl.
    destruct (String.eqb (e_id e) employeeId) eqn:He; simpl; rewrite He; simpl;
      [exact IH | now rewrite IH].
  - apply handleStatusChange_twice.
Qed.

Lemma withStatus_chosen (e : Employee) :
  e_status e <> None -> AttendanceForm.withStatus e = e.
Proof. destruct e as [id name d [s |]]; simpl; [reflexivity | congruence]. Qed.

(** X13. [handleSubmit] never throws: it returns no error exactly when the
    stored submissions can be read. The record it stores keeps every status
    chosen in the form: an employee whose status was chosen is stored as it
    is, and in particular the employees whose status was just changed are
    stored with the new status. *)
Theorem chosen_status_is_stored
    (env : Env) (department : Department) (employees : list Employee)
    (employeeId : string) (status : AttendanceStatus) (w : World) :
  let changed := AttendanceForm.handleStatusChange employeeId status employees in
  let run := AttendanceForm.handleSubmit env department changed w in
  (exists shown, fst run = Ok shown
                 /\ (shown = None <-> stored_submissions env w <> Some NonArray))
  /\ exists stored,
       stored_attendance env department (snd run) = Some (Arr stored)
       /\ length stored = length employees
       /\ (forall e, In e changed -> e_status e <> None -> In e stored)
       /\ (forall e, In e stored -> e_id e = employeeId -> e_status e = Some status).
Proof.
  intros changed run. split.
  - unfold run, AttendanceForm.handleSubmit, try_catch, bind. cbv zeta.
    destruct (stored_submissions env w) as [[| | stored] |] eqn:Hstored.
    2: { destruct (submitAttendance_not_an_array env department
                     (map AttendanceForm.withStatus changed) w Hstored) as (w' & -> & _).
         eexists. split; [reflexivity |]. split; [discriminate | congruence]. }
    all: destruct (submitAttendance_run env department
                     (map AttendanceForm.withStatus changed) w) as (w' & -> & _);
      [congruence |];
      eexists; (split; [reflexivity |]); split; [discriminate | reflexivity].
  - exists (map AttendanceForm.withStatus changed).
    split; [apply handleSubmit_stores |].
    split; [unfold changed, AttendanceForm.handleStatusChange; now rewrite !length_map |].
    split.
    + intros e Hin Hchosen. rewrite <- (withStatus_chosen e Hchosen). now apply in_map.
    + intros e (x & <- & Hx)%in_map_iff Hid. simpl in Hid.
      unfold changed, AttendanceForm.handleStatusChange in Hx.
      apply in_map_iff in Hx as (y & <- & _).
      destruct (String.eqb (e_id y) employeeId) eqn:Hy; simpl in *; [reflexivity |].
      apply String.eqb_neq in Hy. contradiction.
Qed.

(** ** Sign-in: outcomes of [login] *)

Section LoginOutcomes.

Import AuthService.

Variable msal : Msal.

Lemma initialize_run b st :
  exists st',
    initialize msal b st = ((if b then Ok tt else Throw (Rejected "msalInstance.initialize")), st')
    /\ initialized st' = b
    /\ interactionInProgress st' = interactionInProgress st.
Proof.
  unfold initialize, try_catch, bind, get, modify, throw, ret.
  destruct b; simpl.
  - destruct (handleRedirectPromise msal), (activeAccount st), (getAllAccounts msal);
      simpl; eexists; repeat split; reflexivity.
  - eexists; repeat split; reflexivity.
Qed.

(** [ensureInitialized] either leaves the service initialised, or fails with
    the rejection of the library's [initialize]; the interaction flag is not
    touched. *)
Lemma ensureInitialized_run st :
  exists st',
    interactionInProgress st' = interactionInProgress st
    /\ ((ensureInitialized msal st = (Ok tt, st') /\ initialized st' = true)
        \/ (ensureInitialized msal st = (Throw (Rejected "msalInstance.initialize"), st')
            /\ initialized st = false
            /\ initPromise msal = false
            /\ reinitialize msal = false)).
Proof.
  unfold ensureInitialized, bind, get.
  destruct (initialized st) eqn:Hinit.
  - exists st. split; [reflexivity | left; split; [reflexivity | exact Hinit]].
  - unfold try_catch.
    destruct (initialize_run (initPromise msal) st) as (st1 & Hrun1 & Hinit1 & Hflag1).
    rewrite Hrun1.
    destruct (initPromise msal) eqn:Hfirst.
    + exists st1. split; [exact Hflag1 | left; split; [reflexivity | exact Hinit1]].
    + destruct (initialize_run (reinitialize msal) st1) as (st2 & Hrun2 & Hinit2 & Hflag2).
      rewrite Hrun2.
      destruct (reinitialize msal) eqn:Hsecond.
      * exists st2. split; [congruence | left; split; [reflexivity | exact Hinit2]].
      * exists st2. split; [congruence | right; repeat split; reflexivity].
Qed.

Lemma login_interactive_flag st :
  interactionInProgress (snd (login_interactive msal st)) = false.
Proof.
  unfold login_interactive, try_finally.
  destruct (try_catch _ _ st) as [r st']. reflexivity.
Qed.

Lemma login_interactive_initialized st :
  initialized (snd (login_interactive msal st)) = initialized st.
Proof.
  unfold login_interactive, try_finally, try_catch, bind, modify, throw, ret.
  destruct (loginRedirect msal); simpl; [reflexivity |].
  destruct (loginPopup msal) as [response |]; simpl; [| reflexivity].
  destruct (account response); reflexivity.
Qed.

End LoginOutcomes.

(** X14. However [login] ends (silently, by redirect, by popup, refused or
    failed), the interaction flag of the service is clear afterwards. *)
Theorem login_leaves_the_flag_clear (msal : AuthService.Msal) (st : AuthService.State) :
  AuthService.interactionInProgress (snd (AuthService.login msal st)) = false.
Proof.
  unfold AuthService.login, AuthService.login_silent, try_catch.
  unfold bind at 1 2.
  destruct (ensureInitialized_run msal st) as (st1 & Hflag & [[Hrun Hinit] | (Hrun & _)]);
    rewrite Hrun; [| reflexivity].
  unfold bind at 1, get.
  destruct (AuthService.interactionInProgress st1) eqn:Hflag1; [reflexivity |].
  assert (Hinteractive : forall st2,
            AuthService.interactionInProgress
              (snd (let (r, st3) := AuthService.login_interactive msal st2 in
                    match r with
                    | Ok a => (Ok a, st3)
                    | Throw e => AuthService.login_catch e st3
                    end)) = false).
  { intros st2. pose proof (login_interactive_flag msal st2) as H.
    destruct (AuthService.login_interactive msal st2) as [[a | e] st3]; simpl in *;
      [exact H | reflexivity]. }
  destruct (AuthService.getAllAccounts msal) as [| a accounts].
  - unfold ret, bind, modify. apply Hinteractive.
  - unfold bind, modify, ret.
    destruct (AuthService.acquireTokenSilent msal) as [response |].
    + simpl. exact Hflag1.
    + apply Hinteractive.
Qed.

(** X15. [login] fails in three ways only: refused because the flag was set,
    with the rejection of the library's [initialize] when both attempts to
    initialise failed, or with the rejection of the popup when the redirect
    had failed before it. *)
Theorem login_fails_in_three_ways (msal : AuthService.Msal) (st : AuthService.State)
    (e : exn) :
  fst (AuthService.login msal st) = Throw e ->
  (e = AuthService.InteractionConflict
   /\ AuthService.interactionInProgress st = true)
  \/ (e = Rejected "msalInstance.initialize"
      /\ AuthService.initialized st = false
      /\ AuthService.initPromise msal = false
      /\ AuthService.reinitialize msal = false)
  \/ (e = Rejected "loginPopup"
      /\ AuthService.interactionInProgress st = false
      /\ AuthService.loginRedirect msal = false
      /\ AuthService.loginPopup msal = None).
Proof.
  unfold AuthService.login, AuthService.login_silent, try_catch.
  unfold bind at 1 2.
  destruct (ensureInitialized_run msal st)
    as (st1 & Hflag & [[Hrun Hinit] | (Hrun & Hinit & Hfirst & Hsecond)]);
    rewrite Hrun.
  - unfold bind at 1, get.
    destruct (AuthService.interactionInProgress st1) eqn:Hflag1.
    + simpl. intros [= <-]. left. split; [reflexivity | congruence].
    + assert (Hinteractive : forall st2,
                fst (let (r, st3) := AuthService.login_interactive msal st2 in
                     match r with
                     | Ok a => (Ok a, st3)
                     | Throw e0 => AuthService.login_catch e0 st3
                     end) = Throw e ->
                e = Rejected "loginPopup"
                /\ AuthService.loginRedirect msal = false
                /\ AuthService.loginPopup msal = None).
      { intros st2.
        unfold AuthService.login_interactive, try_finally, try_catch, bind, modify,
          throw, ret, AuthService.login_catch.
        destruct (AuthService.loginRedirect msal); simpl; [discriminate |].
        destruct (AuthService.loginPopup msal) as [response |]; simpl.
        - destruct (AuthService.account response); simpl; discriminate.
        - intros [= <-]. repeat split. }
      destruct (AuthService.getAllAccounts msal) as [| a accounts].
      * unfold ret, bind, modify.
        intros H. apply Hinteractive in H. right; right. intuition congruence.
      * unfold bind, modify, ret.
        destruct (AuthService.acquireTokenSilent msal) as [response |].
        -- simpl. discriminate.
        -- intros H. apply Hinteractive in H. right; right. intuition congruence.
  - simpl. intros [= <-]. right; left. repeat split; assumption.
Qed.

Lemma login_fails_in_three_ways_witness :
  (AuthService.InteractionConflict = AuthService.InteractionConflict
   /\ AuthService.interactionInProgress first_flow_in_progress = true)
  \/ (AuthService.InteractionConflict = Rejected "msalInstance.initialize"
      /\ AuthService.initialized first_flow_in_progress = false
      /\ AuthService.initPromise msal_popup_open = false
      /\ AuthService.reinitialize msal_popup_open = false)
  \/ (AuthService.InteractionConflict = Rejected "loginPopup"
      /\ AuthService.interactionInProgress first_flow_in_progress = false
      /\ AuthService.loginRedirect msal_popup_open = false
      /\ AuthService.loginPopup msal_popup_open = None).
Proof.
  apply (login_fails_in_three_ways msal_popup_open first_flow_in_progress
           AuthService.InteractionConflict).
  reflexivity.
Defined.

(** X16. What a completed [login] returned tells how it went: no result
    means that the redirect was started; a result is either the answer of the
    silent request for the first known account, which is then the active
    account, or the answer of the popup after a failed redirect, whose
    account, if it has one, is then the active account. In each case the
    service is initialised. *)
Theorem login_result_tells_the_flow (msal : AuthService.Msal) (st : AuthService.State)
    (r : option AuthService.AuthenticationResult) :
  fst (AuthService.login msal st) = Ok r ->
  let st' := snd (AuthService.login msal st) in
  AuthService.initialized st' = true
  /\ match r with
     | None => AuthService.loginRedirect msal = true
     | Some response =>
         (exists a accounts,
            AuthService.getAllAccounts msal = a :: accounts
            /\ AuthService.acquireTokenSilent msal = Some response
            /\ AuthService.activeAccount st' = Some a)
         \/ (AuthService.loginRedirect msal = false
             /\ AuthService.loginPopup msal = Some response
             /\ forall a, AuthService.account response = Some a ->
                          AuthService.activeAccount st' = Some a)
     end.
Proof.
  intros H. cbv zeta. revert H.
  unfold AuthService.login, AuthService.login_silent, try_catch, bind, get.
  destruct (ensureInitialized_run msal st)
    as (st1 & Hflag & [[Hrun Hinit] | (Hrun & Hinit & Hfirst & Hsecond)]);
    rewrite Hrun; [| simpl; discriminate].
  destruct (AuthService.interactionInProgress st1) eqn:Hflag1; [simpl; discriminate |].
  assert (Hinteractive : forall st2,
            AuthService.initialized st2 = true ->
            fst (let (r0, st3) := AuthService.login_interactive msal st2 in
                 match r0 with
                 | Ok a => (Ok a, st3)
                 | Throw e0 => AuthService.login_catch e0 st3
                 end) = Ok r ->
            AuthService.initialized
              (snd (let (r0, st3) := AuthService.login_interactive msal st2 in
                    match r0 with
                    | Ok a => (Ok a, st3)
                    | Throw e0 => AuthService.login_catch e0 st3
                    end)) = true
            /\ match r with
               | None => AuthService.loginRedirect msal = true
               | Some response =>
                   AuthService.loginRedirect msal = false
                   /\ AuthService.loginPopup msal = Some response
                   /\ forall a, AuthService.account response = Some a ->
                        AuthService.activeAccount
                          (snd (let (r0, st3) := AuthService.login_interactive msal st2 in
                                match r0 with
                                | Ok a => (Ok a, st3)
                                | Throw e0 => AuthService.login_catch e0 st3
                                end)) = Some a
               end).
  { intros st2 Hinit2.
    unfold AuthService.login_interactive, try_finally, try_catch, bind, modify,
      throw, ret, AuthService.login_catch.
    destruct (AuthService.loginRedirect msal); simpl.
    - intros [= <-]. split; [exact Hinit2 | reflexivity].
    - destruct (AuthService.loginPopup msal) as [response |]; simpl; [| discriminate].
      destruct (AuthService.account response) as [a |] eqn:Haccount; simpl;
        intros [= <-]; (split; [exact Hinit2 |]); repeat split;
        intros a' Ha'; congruence. }
  destruct (AuthService.getAllAccounts msal) as [| a accounts].
  - unfold ret, modify. intros H.
    assert (Hinit2 : AuthService.initialized
              (AuthService.set_interactionInProgress true st1) = true) by exact Hinit.
    destruct (Hinteractive _ Hinit2 H) as [Hi Hr]. split; [exact Hi |].
    destruct r; [right; exact Hr | exact Hr].
  - unfold modify, ret.
    destruct (AuthService.acquireTokenSilent msal) as [response |].
    + simpl. intros [= <-]. split; [exact Hinit |].
      left. exists a, accounts. repeat split.
    + intros H.
      assert (Hinit2 : AuthService.initialized
                (AuthService.set_interactionInProgress true
                   (AuthService.setActiveAccount a st1)) = true) by exact Hinit.
      destruct (Hinteractive _ Hinit2 H) as [Hi Hr]. split; [exact Hi |].
      destruct r; [right; exact Hr | exact Hr].
Qed.

Lemma login_result_tells_the_flow_witness :
  AuthService.initialized (snd (AuthService.login msal_known_account not_started)) = true
  /\ ((exists a accounts,
         AuthService.getAllAccounts msal_known_account = a :: accounts
         /\ AuthService.acquireTokenSilent msal_known_account
            = Some {| AuthService.account := Some alex;
                      AuthService.accessToken := "token-1" |}
         /\ AuthService.activeAccount
              (snd (AuthService.login msal_known_account not_started)) = Some a)
      \/ (AuthService.loginRedirect msal_known_account = false
          /\ AuthService.loginPopup msal_known_account
             = Some {| AuthService.account := Some alex;
                       AuthService.accessToken := "token-1" |}
          /\ forall a, Some alex = Some a ->
                       AuthService.activeAccount
                         (snd (AuthService.login msal_known_account not_started))
                       = Some a)).
Proof.
  apply (login_result_tells_the_flow msal_known_account not_started
           (Some {| AuthService.account := Some alex;
                    AuthService.accessToken := "token-1" |})).
  reflexivity.
Defined.

(** ** The session: tokens, the fallback account and sign-out *)

Section SessionRuns.

Import AuthService AuthSession.

Variable env : Surroundings.

Lemma in_service_ensureInitialized_run s :
  exists s1,
    browser s1 = browser s
    /\ interactionInProgress (service s1) = interactionInProgress (service s)
    /\ ((in_service (ensureInitialized (msal env)) s = (Ok tt, s1)
         /\ initialized (service s1) = true)
        \/ (in_service (ensureInitialized (msal env)) s
              = (Throw (Rejected "msalInstance.initialize"), s1)
            /\ initialized (service s) = false
            /\ initPromise (msal env) = false
            /\ reinitialize (msal env) = false)).
Proof.
  unfold in_service.
  destruct (ensureInitialized_run (msal env) (service s))
    as (st1 & Hflag & [[Hrun Hinit] | (Hrun & Hinit & Hfirst & Hsecond)]);
    rewrite Hrun;
    exists {| service := st1; browser := browser s |};
    (split; [reflexivity |]); (split; [exact Hflag |]).
  - left. split; [reflexivity | exact Hinit].
  - right. repeat split; assumption.
Qed.

(** [getAccount] does not fail and touches neither the storage nor the flags
    of the service. *)
Lemma getAccount_run s :
  exists s',
    getAccount env s
    = (Ok (if negb (initialized (service s)) then None
           else match activeAccount (service s) with
                | Some a => Some a
                | None =>
                    match getAllAccounts (msal env) with
                    | a :: _ => Some a
                    | [] =>
                        match mockAccount (browser s) with
                        | Some (Some m) => Some (account_of_mock m)
                        | _ => None
                        end
                    end
                end), s')
    /\ browser s' = browser s
    /\ interactionInProgress (service s') = interactionInProgress (service s)
    /\ initialized (service s') = initialized (service s).
Proof.
  unfold getAccount, bind, get, ret, in_service, modify.
  destruct (initialized (service s)) eqn:Hinit; simpl;
    [| eexists; repeat split; exact Hinit].
  destruct (activeAccount (service s)); [eexists; repeat split; exact Hinit |].
  destruct (getAllAccounts (msal env)); [| eexists; repeat split; exact Hinit].
  destruct (mockAccount (browser s)) as [[m |] |]; eexists; repeat split; exact Hinit.
Qed.

Lemma getToken_interactive_run s :
  getToken_interactive env s
  = (match acquireTokenPopup env with
     | Some response => Ok (accessToken response)
     | None => Throw (Rejected "acquireTokenPopup")
     end, set_flag false s).
Proof.
  unfold getToken_interactive, try_finally, try_catch, bind, throw, ret.
  destruct (acquireTokenRedirect env), (acquireTokenPopup env); reflexivity.
Qed.

Lemma logout_account_run s :
  logout_account env s
  = ((if logoutRedirect env || logoutPopup env then Ok tt
      else Throw (Rejected "logoutPopup")),
     set_flag false (clearCache env (set_flag true s))).
Proof.
  unfold logout_account, try_finally, try_catch, bind, modify, throw, ret.
  destruct (logoutRedirect env), (logoutPopup env); reflexivity.
Qed.


End SessionRuns.

Lemma getToken_interactive_redirect env b s :
  AuthSession.getToken_interactive (AuthSession.with_acquireTokenRedirect b env) s
  = AuthSession.getToken_interactive env s.
Proof. rewrite !getToken_interactive_run. reflexivity. Qed.

Lemma getAccount_redirect env b s :
  AuthSession.getAccount (AuthSession.with_acquireTokenRedirect b env) s
  = AuthSession.getAccount env s.
Proof. reflexivity. Qed.

(** X17. In [getToken] the outcome of the redirect is of no consequence:
    whether [acquireTokenRedirect] resolves or rejects, the popup is asked
    next, and result and final state are the same. *)
Theorem getToken_redirect_is_of_no_consequence (env : AuthSession.Surroundings)
    (b : bool) (s : AuthSession.Session) :
  AuthSession.getToken (AuthSession.with_acquireTokenRedirect b env) s
  = AuthSession.getToken env s.
Proof.
  unfold AuthSession.getToken, try_catch, bind.
  change (AuthSession.msal (AuthSession.with_acquireTokenRedirect b env))
    with (AuthSession.msal env).
  change (AuthSession.interactionRequired (AuthSession.with_acquireTokenRedirect b env))
    with (AuthSession.interactionRequired env).
  destruct (AuthSession.in_service _ s) as [[[] | e] s1]; [| reflexivity].
  rewrite getAccount_redirect.
  destruct (AuthSession.getAccount env s1) as [[[a |] | e] s2]; try reflexivity.
  destruct (AuthService.acquireTokenSilent (AuthSession.msal env)); [reflexivity |].
  unfold throw at 1 3.
  destruct (AuthSession.interactionRequired env); simpl; [| reflexivity].
  destruct (AuthService.interactionInProgress (AuthSession.service s2)); [reflexivity |].
  unfold modify. rewrite getToken_interactive_redirect. reflexivity.
Qed.

Lemma session_flag_after_logout env s :
  AuthService.interactionInProgress
    (AuthSession.service (snd (AuthSession.logout env s))) = false.
Proof.
  unfold AuthSession.logout, try_catch, bind, get, modify, throw, ret.
  destruct (in_service_ensureInitialized_run env s)
    as (s1 & Hb & Hflag & [[Hrun Hinit] | (Hrun & _)]); rewrite Hrun;
    [| reflexivity].
  destruct (AuthService.interactionInProgress (AuthSession.service s1)) eqn:Hflag1;
    [reflexivity |].
  destruct (getAccount_run env s1) as (s2 & Hacc & Hb2 & Hflag2 & Hinit2).
  rewrite Hacc.
  destruct (if negb _ then _ else _) as [a |].
  - rewrite logout_account_run.
    destruct (_ || _); reflexivity.
  - simpl. congruence.
Qed.

(** X18. [loginWithCredentials] and [logout] always leave the interaction
    flag clear. [getToken] leaves it set only when it was set before and the
    token was obtained silently: after [getToken] the flag is the
    conjunction of the flag before and of success. *)
Theorem session_operations_release_the_flag (env : AuthSession.Surroundings)
    (s : AuthSession.Session) :
  (forall email password,
     AuthService.interactionInProgress
       (AuthSession.service (snd (AuthSession.loginWithCredentials env email password s)))
     = false)
  /\ AuthService.interactionInProgress
       (AuthSession.service (snd (AuthSession.logout env s))) = false
  /\ AuthService.interactionInProgress
       (AuthSession.service (snd (AuthSession.getToken env s)))
     = AuthService.interactionInProgress (AuthSession.service s)
       && is_ok (fst (AuthSession.getToken env s)).
Proof.
  split; [| split].
  - intros email password.
    unfold AuthSession.loginWithCredentials, try_finally.
    destruct (try_catch _ _ s) as [r s']. reflexivity.
  - apply session_flag_after_logout.
  - unfold AuthSession.getToken, try_catch, bind, get, modify, throw, ret.
    destruct (in_service_ensureInitialized_run env s)
      as (s1 & Hb & Hflag & [[Hrun Hinit] | (Hrun & _)]); rewrite Hrun;
      [| simpl; now rewrite andb_false_r].
    destruct (getAccount_run env s1) as (s2 & Hacc & Hb2 & Hflag2 & Hinit2).
    rewrite Hacc.
    destruct (if negb _ then _ else _) as [a |];
      [| simpl; now rewrite andb_false_r].
    destruct (AuthService.acquireTokenSilent (AuthSession.msal env)) as [response |].
    + simpl. rewrite andb_true_r. congruence.
    + destruct (AuthSession.interactionRequired env); simpl;
        [| now rewrite andb_false_r].
      destruct (AuthService.interactionInProgress (AuthSession.service s2)) eqn:Hflag3;
        simpl; [now rewrite andb_false_r |].
      rewrite getToken_interactive_run.
      destruct (AuthSession.acquireTokenPopup env); simpl;
        rewrite <- Hflag, <- Hflag2; reflexivity.
Qed.

(** X19. Without an account (none active, none known to the library, no
    fallback account stored) [getToken] fails: with the error of a missing
    session when the service is or can be initialised, with the rejection of
    the library's [initialize] otherwise. *)
Theorem getToken_needs_an_account (env : AuthSession.Surroundings)
    (s : AuthSession.Session) :
  AuthService.activeAccount (AuthSession.service s) = None ->
  AuthService.getAllAccounts (AuthSession.msal env) = [] ->
  (forall m, AuthSession.mockAccount (AuthSession.browser s) <> Some (Some m)) ->
  fst (AuthSession.getToken env s)
  = Throw (if AuthService.initialized (AuthSession.service s)
              || AuthService.initPromise (AuthSession.msal env)
              || AuthService.reinitialize (AuthSession.msal env)
           then AuthSession.NoActiveSession
           else Rejected "msalInstance.initialize").
Proof.
  intros Hactive Haccounts Hmock.
  unfold AuthSession.getToken, try_catch, bind at 1, AuthSession.in_service.
  assert (Hinit : exists st1,
            AuthService.ensureInitialized (AuthSession.msal env) (AuthSession.service s)
            = ((if AuthService.initialized (AuthSession.service s)
                   || AuthService.initPromise (AuthSession.msal env)
                   || AuthService.reinitialize (AuthSession.msal env)
                then Ok tt else Throw (Rejected "msalInstance.initialize")), st1)
            /\ AuthService.activeAccount st1 = None).
  { unfold AuthService.ensureInitialized, AuthService.initialize, try_catch, bind, get,
      modify, throw, ret.
    destruct (AuthService.initialized (AuthSession.service s)); simpl;
      [eexists; split; [reflexivity | exact Hactive] |].
    destruct (AuthService.initPromise (AuthSession.msal env)); simpl.
    - rewrite Haccounts, Hactive.
      destruct (AuthService.handleRedirectPromise (AuthSession.msal env)); simpl;
        eexists; split; try reflexivity; exact Hactive.
    - destruct (AuthService.reinitialize (AuthSession.msal env)); simpl.
      + rewrite Haccounts, Hactive.
        destruct (AuthService.handleRedirectPromise (AuthSession.msal env)); simpl;
          eexists; split; try reflexivity; exact Hactive.
      + eexists; split; [reflexivity | exact Hactive]. }
  destruct Hinit as (st1 & Hrun & Hactive1). rewrite Hrun.
  destruct (_ || _ || _); [| reflexivity].
  unfold bind.
  destruct (getAccount_run env {| AuthSession.service := st1;
                                  AuthSession.browser := AuthSession.browser s |})
    as (s2 & Hacc & _).
  rewrite Hacc. simpl. rewrite Hactive1, Haccounts.
  destruct (negb _); [reflexivity |].
  destruct (AuthSession.mockAccount (AuthSession.browser s)) as [[m |] |] eqn:Hm;
    [exfalso; exact (Hmock m eq_refl) | reflexivity | reflexivity].
Qed.

Lemma getToken_needs_an_account_witness :
  fst (AuthSession.getToken nobody_known signed_out) = Throw AuthSession.NoActiveSession.
Proof.
  apply (getToken_needs_an_account nobody_known signed_out).
  - reflexivity.
  - reflexivity.
  - intros m. discriminate.
Defined.

(** X20. After [loginWithCredentials] has returned, the service is
    initialised and [getAccount] finds an account: the active account or the
    first account known to the library if there is one, and otherwise the
    fallback account, whose user name is the e-mail address that was
    entered. *)
Theorem credentials_account_is_found (env env' : AuthSession.Surroundings)
    (email password : string) (s : AuthSession.Session) (r : bool) :
  fst (AuthSession.loginWithCredentials env email password s) = Ok r ->
  let s' := snd (AuthSession.loginWithCredentials env email password s) in
  r = true
  /\ AuthService.interactionInProgress (AuthSession.service s) = false
  /\ AuthService.initialized (AuthSession.service s') = true
  /\ fst (AuthSession.getAccount env' s')
     = Ok (Some match AuthService.activeAccount (AuthSession.service s') with
                | Some a => a
                | None =>
                    match AuthService.getAllAccounts (AuthSession.msal env') with
                    | a :: _ => a
                    | [] =>
                        {| AuthService.homeAccountId := "mock-" +:+ AuthSession.dateNow env;
                           AuthService.username := email |}
                    end
                end).
Proof.
  intros H. cbv zeta. revert H.
  unfold AuthSession.loginWithCredentials, try_finally, try_catch, bind, get, modify,
    throw, ret.
  destruct (in_service_ensureInitialized_run env s)
    as (s1 & Hb & Hflag & [[Hrun Hinit] | (Hrun & _)]); rewrite Hrun;
    [| simpl; discriminate].
  destruct (AuthService.interactionInProgress (AuthSession.service s1)) eqn:Hflag1;
    simpl; [discriminate |].
  intros [= <-]. split; [reflexivity |]. split; [congruence |].
  split; [exact Hinit |].
  unfold AuthSession.getAccount, bind, get, ret, AuthSession.in_service, modify.
  simpl. rewrite Hinit. simpl.
  destruct (AuthService.activeAccount (AuthSession.service s1)); [reflexivity |].
  destruct (AuthService.getAllAccounts (AuthSession.msal env')); reflexivity.
Qed.

Lemma credentials_account_is_found_witness :
  true = true
  /\ AuthService.interactionInProgress (AuthSession.service signed_out) = false
  /\ AuthService.initialized
       (AuthSession.service
          (snd (AuthSession.loginWithCredentials nobody_known "alex@example.com" "secret"
                  signed_out))) = true
  /\ fst (AuthSession.getAccount nobody_known
            (snd (AuthSession.loginWithCredentials nobody_known "alex@example.com"
                    "secret" signed_out)))
     = Ok (Some {| AuthService.homeAccountId := "mock-1741940000000";
                   AuthService.username := "alex@example.com" |}).
Proof.
  apply (credentials_account_is_found nobody_known nobody_known "alex@example.com"
           "secret" signed_out true).
  reflexivity.
Defined.






Lemma dotless_app a b : dotless (a +:+ b) = dotless a && dotless b.
Proof.
  induction a as [| c a IH]; simpl; [reflexivity |].
  change (String.app a b) with (a +:+ b). rewrite IH. now rewrite andb_assoc.
Qed.

Lemma prefix_dotless t s :
  String.prefix t s = true -> dotless s = true -> dotless t = true.
Proof.
  revert s. induction t as [| c t IH]; intros [| c' s]; simpl; try easy.
  destruct (ascii_dec c c') as [-> |]; [| discriminate].
  intros Hp [Hc Hs]%andb_true_iff. rewrite Hc. simpl. exact (IH s Hp Hs).
Qed.

Lemma includes_dotless s :
  dotless s = true -> AuthSession.includes "login.windows" s = false.
Proof.
  induction s as [| c s IH]; intros Hs.
  - reflexivity.
  - change (AuthSession.includes "login.windows" (String c s))
      with (String.prefix "login.windows" (String c s)
            || AuthSession.includes "login.windows" s).
    apply orb_false_iff. split.
    + destruct (String.prefix "login.windows" (String c s)) eqn:Hp; [| reflexivity].
      pose proof (prefix_dotless _ _ Hp Hs) as H. vm_compute in H. discriminate.
    + apply IH. simpl in Hs. apply andb_true_iff in Hs. tauto.
Qed.

(** X23. The sweep of [logout] does not reach the records of the attendance
    service: for a day written without a dot, neither the key of a
    department's attendance nor the key of the day's submissions nor
    [mockUser] is an identity key. *)
Theorem attendance_keys_are_not_swept (department : Types.Department) (day : string) :
  dotless day = true ->
  AuthSession.is_identity_key (attendance_key department day) = false
  /\ AuthSession.is_identity_key (submissions_key day) = false
  /\ AuthSession.is_identity_key "mockUser" = false.
Proof.
  intros Hday.
  assert (Hatt : dotless (attendance_key department day) = true).
  { unfold attendance_key. rewrite !dotless_app, Hday.
    destruct department; reflexivity. }
  assert (Hsub : dotless (submissions_key day) = true).
  { unfold submissions_key. rewrite dotless_app, Hday. reflexivity. }
  unfold AuthSession.is_identity_key.
  rewrite (includes_dotless _ Hatt), (includes_dotless _ Hsub).
  split; [destruct department; reflexivity | split; reflexivity].
Qed.

Lemma attendance_keys_are_not_swept_witness :
  AuthSession.is_identity_key (attendance_key Types.XRDevelopment "2025-03-14") = false
  /\ AuthSession.is_identity_key (submissions_key "2025-03-14") = false
  /\ AuthSession.is_identity_key "mockUser" = false.
Proof.
  apply (attendance_keys_are_not_swept Types.XRDevelopment "2025-03-14").
  reflexivity.
Defined.

(** ** The sign-in form and sign-out of the page *)

Lemma stringify_user_truthy name email : truthy (App.stringify_user name email) = true.
Proof. reflexivity. Qed.

Lemma roster_in_mock_mode (env : Env) (department : Types.Department) (w : World) :
  mock_mode w ->
  fst (getEmployeesByDepartment env department w) = Ok (getMockEmployees department).
Proof.
  intros Hmode.
  destruct (getAuthenticatedClient_run env w) as (client & w1 & Hrun & _ & Hmock & _).
  apply (roster_falls_back env department w w1 client Hrun).
  unfold fetchEmployees. unfold bind at 1. rewrite getExcelFileId_run.
  rewrite (Hmock Hmode). reflexivity.
Qed.

(** X24. The form signs in with any e-mail address and any password that are
    not empty: the page is authenticated under the part of the address
    before the [@] (or [User]), a mock user is stored, and from then on the
    roster of every department is the built-in one, whatever the remote
    service would answer. The session of the identity service is not
    involved. *)
Theorem direct_login_enters_mock_mode (p : App.Page) :
  App.loginInProgress (App.app p) = false ->
  truthy (App.email (App.app p)) = true ->
  truthy (App.password (App.app p)) = true ->
  let p' := App.handleDirectLogin p in
  App.isAuthenticated (App.app p') = true
  /\ App.userInfo (App.app p')
     = Some (or_else (before_first "@" (App.email (App.app p))) "User",
             App.email (App.app p))
  /\ App.session p' = App.session p
  /\ mock_mode (App.graph p')
  /\ forall env department,
       fst (getEmployeesByDepartment env department (App.graph p'))
       = Ok (getMockEmployees department).
Proof.
  intros Hprogress Hemail Hpassword. cbv zeta.
  unfold App.handleDirectLogin. rewrite Hprogress, Hemail, Hpassword.
  change (negb true || negb true) with false. cbv iota.
  assert (Hmode : mock_mode
            (App.setItem_mockUser
               (Some (App.stringify_user
                        (or_else (before_first "@" (App.email (App.app p))) "User")
                        (App.email (App.app p))))
               (App.graph p))).
  { eexists. split; [reflexivity | apply stringify_user_truthy]. }
  split; [reflexivity |]. split; [reflexivity |]. split; [reflexivity |].
  split; [exact Hmode |].
  intros env department. apply roster_in_mock_mode. exact Hmode.
Qed.

Lemma direct_login_enters_mock_mode_witness :
  App.isAuthenticated (App.app (App.handleDirectLogin form_filled)) = true
  /\ App.userInfo (App.app (App.handleDirectLogin form_filled))
     = Some (or_else (before_first "@" "alex@example.com") "User", "alex@example.com")
  /\ App.session (App.handleDirectLogin form_filled) = App.session form_filled
  /\ mock_mode (App.graph (App.handleDirectLogin form_filled))
  /\ forall env department,
       fst (getEmployeesByDepartment env department
              (App.graph (App.handleDirectLogin form_filled)))
       = Ok (getMockEmployees department).
Proof.
  apply (direct_login_enters_mock_mode form_filled); reflexivity.
Defined.

(** X25. With the e-mail address or the password left empty, or while a
    sign-in is already running, the form signs nobody in: nothing is stored,
    and the page is authenticated afterwards only if it was before. Whatever
    was entered, the two progress flags are clear afterwards. *)
Theorem direct_login_requires_both_fields (p : App.Page) :
  let p' := App.handleDirectLogin p in
  App.authenticating (App.app p') = false
  /\ App.loginInProgress (App.app p') = false
  /\ (App.loginInProgress (App.app p)
      || negb (truthy (App.email (App.app p)))
      || negb (truthy (App.password (App.app p))) = true ->
      App.graph p' = App.graph p
      /\ App.isAuthenticated (App.app p') = App.isAuthenticated (App.app p)
      /\ App.userInfo (App.app p') = App.userInfo (App.app p)).
Proof.
  cbv zeta. unfold App.handleDirectLogin.
  destruct (App.loginInProgress (App.app p)); simpl;
    [repeat split |].
  destruct (negb (truthy (App.email (App.app p)))
            || negb (truthy (App.password (App.app p)))); simpl;
    [repeat split |].
  repeat split; discriminate.
Qed.

Lemma remove_items_lookup keys s key :
  AuthSession.items (AuthSession.browser (App.remove_items keys s)) !! key
  = if bool_decide (key ∈ keys) then None
    else AuthSession.items (AuthSession.browser s) !! key.
Proof.
  unfold App.remove_items. simpl.
  generalize (AuthSession.items (AuthSession.browser s)) as m.
  induction keys as [| k keys IH]; intros m; simpl.
  - reflexivity.
  - rewrite IH.
    destruct (decide (key = k)) as [-> | Hne].
    + rewrite lookup_delete_eq.
      rewrite (bool_decide_eq_true_2 (k ∈ k :: keys)) by apply list_elem_of_here.
      now destruct (bool_decide (k ∈ keys)).
    + rewrite lookup_delete_ne by congruence.
      destruct (bool_decide (key ∈ keys)) eqn:Hin.
      * apply bool_decide_eq_true_1 in Hin.
        rewrite bool_decide_eq_true_2 by (apply list_elem_of_further; exact Hin).
        reflexivity.
      * apply bool_decide_eq_false_1 in Hin.
        rewrite bool_decide_eq_false_2; [reflexivity |].
        intros [? | ?]%elem_of_cons; contradiction.
Qed.

(** X26. Signing out of the page always goes through, even when [logout] of
    the identity service fails: the page is no longer authenticated, no user
    and no department are selected, the mock user is gone, the interaction
    flag is clear and the four token keys are absent; the attendance and the
    submissions stored stay as they were, and nothing is sent to the remote
    service. *)
Theorem handleLogout_always_signs_out (env : AuthSession.Surroundings) (p : App.Page) :
  let p' := App.handleLogout env p in
  (App.isAuthenticated (App.app p') = false
   /\ App.userInfo (App.app p') = None
   /\ App.selectedDepartment (App.app p') = None
   /\ App.authenticating (App.app p') = false)
  /\ (ls_mockUser (localStorage (App.graph p')) = None
      /\ ls_attendance (localStorage (App.graph p'))
         = ls_attendance (localStorage (App.graph p))
      /\ ls_submissions (localStorage (App.graph p'))
         = ls_submissions (localStorage (App.graph p))
      /\ filter is_request (trace (App.graph p'))
         = filter is_request (trace (App.graph p)))
  /\ AuthService.interactionInProgress (AuthSession.service (App.session p')) = false
  /\ Forall (fun key =>
               AuthSession.items (AuthSession.browser (App.session p')) !! key = None)
            App.msal_token_keys.
Proof.
  cbv zeta. unfold App.handleLogout.
  pose proof (session_flag_after_logout env (App.session p)) as Hflag.
  destruct (AuthSession.logout env (App.session p)) as [r s1]. simpl in Hflag.
  split; [repeat split |]. split; [| split].
  - destruct r; simpl; repeat split.
    unfold emit. simpl. rewrite filter_app. simpl. now rewrite app_nil_r.
  - exact Hflag.
  - apply Forall_forall. intros key Hkey. cbn [App.session].
    rewrite remove_items_lookup.
    now rewrite bool_decide_eq_true_2 by exact Hkey.
Qed.
